(** * Ariel on Sheets: the splitter and the video dubber cloud functions

    A shallow embedding of [cloud_functions/splitter/main.py] and
    [cloud_functions/video_dubber/main.py], and the properties of the
    two-stage dispatch and status write-back protocol.

    Python values are a small inductive type, Python dictionaries are
    insertion-ordered association lists with unique keys, a row of the
    pandas data frame is a finite map from column label to cell text.
    Code that raises, mutates local variables and calls external services
    lives in a state-and-exception monad whose state is the local variables
    of the function together with the history of external calls. *)

From stdpp Require Import base option strings list gmap pretty.
From Stdlib Require Import ZArith Ascii String.

Set Warnings "-register-all".

Open Scope string_scope.
Open Scope Z_scope.
Open Scope list_scope.

(* ===================================================================== *)
(** ** Python values *)
(* ===================================================================== *)

(** A binary floating-point number: [m * 2^e], an infinity, or not a number. *)
Inductive pyfloat :=
| FFinite (m e : Z)
| FInf (negative : bool)
| FNaN.

Inductive pyval :=
| VNone
| VBool (b : bool)
| VInt (z : Z)
| VFloat (f : pyfloat)
| VStr (s : string)
| VList (l : list pyval)
| VDict (d : list (string * pyval)).

(** A Python [dict] with string keys, in insertion order. *)
Definition dict (V : Type) := list (string * V).

(** Truth value testing, [bool(v)]. *)
Definition truthy (v : pyval) : bool :=
  match v with
  | VNone => false
  | VBool b => b
  | VInt z => negb (z =? 0)
  | VFloat (FFinite m _) => negb (m =? 0)
  | VFloat _ => true
  | VStr s => negb (String.eqb s "")
  | VList l => match l with [] => false | _ => true end
  | VDict d => match d with [] => false | _ => true end
  end.

Module Dict.
Section Ops.
Context {V : Type}.

(** [d[k]] as an option, [k in d], [d.keys()]. *)
Fixpoint get (d : dict V) (k : string) : option V :=
  match d with
  | [] => None
  | (k', v) :: d' => if String.eqb k' k then Some v else get d' k
  end.

Definition mem (d : dict V) (k : string) : bool :=
  match get d k with Some _ => true | None => false end.

Definition keys (d : dict V) : list string := map fst d.

(** [d[k] = v]: an existing key keeps its position, a new one goes last. *)
Fixpoint set (d : dict V) (k : string) (v : V) : dict V :=
  match d with
  | [] => [(k, v)]
  | (k', v') :: d' =>
      if String.eqb k' k then (k', v) :: d' else (k', v') :: set d' k v
  end.

End Ops.
End Dict.

(* ===================================================================== *)
(** ** Strings *)
(* ===================================================================== *)

(** [s.split(sep)] for a one-character separator: never empty. *)
Fixpoint str_split (sep : ascii) (s : string) : list string :=
  match s with
  | EmptyString => [""]
  | String c s' =>
      if Ascii.eqb c sep then "" :: str_split sep s'
      else match str_split sep s' with
           | [] => [String c ""]
           | w :: ws => String c w :: ws
           end
  end.

(** [sep.join(parts)]. *)
Fixpoint str_join (sep : string) (parts : list string) : string :=
  match parts with
  | [] => ""
  | [p] => p
  | p :: ps => p +:+ sep +:+ str_join sep ps
  end.

(** [parts[-1]] of a list that [split] returned. *)
Definition last_part (parts : list string) : string := List.last parts "".

(** [parts[0]] of a list that [split] returned. *)
Definition first_part (parts : list string) : string := List.hd "" parts.

Definition ascii_lower (c : ascii) : ascii :=
  let n := nat_of_ascii c in
  if (Nat.leb 65 n && Nat.leb n 90)%bool then ascii_of_nat (n + 32) else c.

(** [s.lower()].  Only the letters A-Z change; no character outside ASCII
    lowers to one of the letters of ["true"], so the comparison
    [s.lower() == "true"] is the one Python makes. *)
Fixpoint str_lower (s : string) : string :=
  match s with
  | EmptyString => EmptyString
  | String c s' => String (ascii_lower c) (str_lower s')
  end.

Fixpoint str_prefix (p s : string) : bool :=
  match p, s with
  | EmptyString, _ => true
  | String a p', String b s' => Ascii.eqb a b && str_prefix p' s'
  | String _ _, EmptyString => false
  end.

(** [needle in haystack] on strings. *)
Fixpoint str_contains (needle haystack : string) : bool :=
  str_prefix needle haystack
  || match haystack with
     | EmptyString => false
     | String _ h' => str_contains needle h'
     end.

(** The characters of a string, as Python iterates over it. *)
Fixpoint str_chars (s : string) : list string :=
  match s with
  | EmptyString => []
  | String c s' => String c "" :: str_chars s'
  end.

(* ===================================================================== *)
(** ** Exceptions, external calls and their history *)
(* ===================================================================== *)

(** An instance of [Exception]: its class name and [str(e)]. *)
Record exn := Exn { exn_type : string; exn_text : string }.

Inductive outcome (A : Type) :=
| Returned (a : A)
| Raised (e : exn).
Arguments Returned {A} a.
Arguments Raised {A} e.

(** Evaluating one expression after another: the first raise wins. *)
Definition and_then {A B} (o : outcome A) (k : A -> outcome B) : outcome B :=
  match o with
  | Returned a => k a
  | Raised e => Raised e
  end.

(** A call that leaves the process, or a message the process emits.
    A [Dubber] is named by its position among the engines constructed.
    A call joins the history when it is made, whether it then returns or
    raises.  Printing and logging return normally. *)
Inductive event :=
| EvPrint (text : string)
| EvLog (text : string)
| EvLogText (tag : string) (logging_payload : pyval)
| EvPublisherClient
| EvPublish (topic_path : string) (payload : pyval)
| EvAuthorize
| EvWorksheet (url worksheet_name : pyval)
| EvSheetUpdate (url worksheet_name : pyval) (range : string)
    (values : list string)
| EvMakedirs (path : string)
| EvDownload (bucket blob destination : string)
| EvDubberInit (kwargs : dict pyval)
| EvDubFromScript (dubber : nat) (provider : string)
    (script tts_params voice : pyval)
| EvDubAd (dubber : nat)
| EvUpload (bucket : pyval) (source : pyval) (destination : string)
| EvCleanUp (dubber : nat).

(** The history of external calls, oldest first. *)
Definition trace := list event.

(** Everything outside the two cloud functions.  The library functions
    are functions of their arguments; a service answers a call knowing
    the history of the calls made before it.

    - [ast_literal_eval], [json_loads]: [ast.literal_eval], [json.loads];
      a tuple is read as a list;
    - [py_int], [py_float]: [int] on text and floats, [float] on text
      and integers;
    - [py_repr]: [repr], for the values an f-string does not print as
      they are;
    - [str_format c d]: [c.format] with the entries of [d] as keywords;
    - [b64decode_utf8]: [base64.b64decode] followed by [decode("utf-8")];
    - [datetime_now]: the formatted [datetime.now()];
    - [publisher_client]: [pubsub_v1.PublisherClient()];
    - [pubsub_publish]: [json.dumps], [publish] and [result()] on the
      future, as one call;
    - [authorize]: [_init_google_sheet_client];
    - [sheet_worksheet]: [open_by_url] followed by [worksheet];
    - [sheet_update]: [update] on that worksheet;
    - [gfile_exists], [gfile_makedirs]: [tf.io.gfile];
    - [gcs_download], [gcs_upload]: the storage client, bucket, blob and
      transfer, as one call;
    - [dubber_init], [dubber_dub_ad_from_script], [dubber_dub_ad],
      [dubber_video_file], [dubber_clean_up]: the constructor of
      [Dubber], its two dubbing methods, the attribute
      [postprocessing_output.video_file] and its [clean_up]. *)
Record World := {
  ast_literal_eval : pyval -> outcome pyval;
  json_loads : pyval -> outcome pyval;
  py_int : pyval -> outcome Z;
  py_float : pyval -> outcome pyfloat;
  py_repr : pyval -> string;
  str_format : pyval -> pyval -> outcome string;
  b64decode_utf8 : pyval -> outcome pyval;
  datetime_now : trace -> string;
  publisher_client : trace -> outcome unit;
  pubsub_publish : trace -> string -> pyval -> outcome unit;
  authorize : trace -> outcome unit;
  sheet_worksheet : trace -> pyval -> pyval -> outcome unit;
  sheet_update : trace -> pyval -> pyval -> string -> list string
                 -> outcome unit;
  gfile_exists : trace -> string -> bool;
  gfile_makedirs : trace -> string -> outcome unit;
  gcs_download : trace -> string -> string -> string -> outcome unit;
  gcs_upload : trace -> pyval -> pyval -> string -> outcome unit;
  dubber_init : trace -> dict pyval -> outcome unit;
  dubber_dub_ad_from_script : trace -> nat -> string -> pyval -> pyval
                              -> pyval -> outcome unit;
  dubber_dub_ad : trace -> nat -> outcome unit;
  dubber_video_file : trace -> nat -> outcome pyval;
  dubber_clean_up : trace -> nat -> outcome unit
}.

(* ===================================================================== *)
(** ** The monad of the function bodies *)
(* ===================================================================== *)

(** A computation over local variables [L]: from the locals and the
    history to an outcome, the locals and the history afterwards.  When
    it raises, the locals and the history are the ones at the raise. *)
Definition M (L A : Type) : Type := L -> trace -> outcome A * L * trace.

Section Monad.
Context {L : Type}.

Definition ret {A} (a : A) : M L A := fun l t => (Returned a, l, t).

Definition raise {A} (e : exn) : M L A := fun l t => (Raised e, l, t).

Definition bind {A B} (m : M L A) (k : A -> M L B) : M L B :=
  fun l t =>
    match m l t with
    | (Returned a, l', t') => k a l' t'
    | (Raised e, l', t') => (Raised e, l', t')
    end.

Definition lift {A} (o : outcome A) : M L A := fun l t => (o, l, t).

Definition get_locals : M L L := fun l t => (Returned l, l, t).

Definition modify (f : L -> L) : M L unit := fun l t => (Returned tt, f l, t).

(** An external call: the service answers from the history so far, and
    the call joins the history whether it succeeds or raises. *)
Definition external {A} (e : event) (answer : trace -> outcome A) : M L A :=
  fun l t => (answer t, l, t ++ [e]).

(** Reading the world without leaving a mark ([datetime.now()], an
    attribute of an engine). *)
Definition observe {A} (answer : trace -> A) : M L A :=
  fun l t => (Returned (answer t), l, t).

(** Reading the world where the read itself may raise. *)
Definition consult {A} (answer : trace -> outcome A) : M L A :=
  fun l t => (answer t, l, t).

Definition emit (e : event) : M L unit :=
  fun l t => (Returned tt, l, t ++ [e]).

(** [try: body  except Exception as e: handler e]. *)
Definition try_except {A} (body : M L A) (handler : exn -> M L A) : M L A :=
  fun l t =>
    match body l t with
    | (Returned a, l', t') => (Returned a, l', t')
    | (Raised e, l', t') => handler e l' t'
    end.

(** [try: body  finally: final].  [final] runs on both exits; when it
    raises, its exception replaces the outcome of [body]. *)
Definition try_finally {A} (body : M L A) (final : M L unit) : M L A :=
  fun l t =>
    match body l t with
    | (r, l', t') =>
        match final l' t' with
        | (Returned _, l'', t'') => (r, l'', t'')
        | (Raised e, l'', t'') => (Raised e, l'', t'')
        end
    end.

(** [for x in xs: body x]: an exception leaves the loop. *)
Fixpoint for_each {X} (xs : list X) (body : X -> M L unit) : M L unit :=
  match xs with
  | [] => ret tt
  | x :: xs' => bind (body x) (fun _ => for_each xs' body)
  end.

(** Reading a local variable that may not have been assigned yet. *)
Definition read_var {A} (name : string) (proj : L -> option A) : M L A :=
  fun l t =>
    match proj l with
    | Some a => (Returned a, l, t)
    | None =>
        (Raised (Exn "UnboundLocalError"
           ("cannot access local variable '" +:+ name
            +:+ "' where it is not associated with a value")), l, t)
    end.

End Monad.

(** Calling a function: it runs on its own locals and shares the history. *)
Definition call {L L' A} (init : L') (f : M L' A) : M L A :=
  fun l t => match f init t with (r, _, t') => (r, l, t') end.

Notation "x <- m ;; k" := (bind m (fun x => k))
  (at level 100, m at level 99, right associativity, only parsing).
Notation "m ;;; k" := (bind m (fun _ => k))
  (at level 100, right associativity, only parsing).

(** [enumerate(xs)]. *)
Fixpoint enumerate_from {X} (i : Z) (xs : list X) : list (Z * X) :=
  match xs with
  | [] => []
  | x :: xs' => (i, x) :: enumerate_from (i + 1) xs'
  end.
Definition enumerate {X} (xs : list X) : list (Z * X) := enumerate_from 0 xs.

(* ===================================================================== *)
(** ** Operations on Python values *)
(* ===================================================================== *)

Definition type_name (v : pyval) : string :=
  match v with
  | VNone => "NoneType" | VBool _ => "bool" | VInt _ => "int"
  | VFloat _ => "float" | VStr _ => "str" | VList _ => "list"
  | VDict _ => "dict"
  end.

Definition KeyError (k : string) : exn := Exn "KeyError" ("'" +:+ k +:+ "'").

(** [d[k]] on a dictionary. *)
Definition getitem (d : dict pyval) (k : string) : outcome pyval :=
  match Dict.get d k with
  | Some v => Returned v
  | None => Raised (KeyError k)
  end.

(** [v[k]] for a string key [k]. *)
Definition py_getitem (v : pyval) (k : string) : outcome pyval :=
  match v with
  | VDict d => getitem d k
  | VStr _ => Raised (Exn "TypeError" "string indices must be integers, not 'str'")
  | VList _ => Raised (Exn "TypeError" "list indices must be integers or slices, not str")
  | _ => Raised (Exn "TypeError" ("'" +:+ type_name v +:+ "' object is not subscriptable"))
  end.

(** [v[k] = x] for a string key [k]. *)
Definition py_setitem (v : pyval) (k : string) (x : pyval) : outcome pyval :=
  match v with
  | VDict d => Returned (VDict (Dict.set d k x))
  | VList _ => Raised (Exn "TypeError" "list indices must be integers or slices, not str")
  | _ => Raised (Exn "TypeError"
           ("'" +:+ type_name v +:+ "' object does not support item assignment"))
  end.

(** An index that a sequence accepts: an integer, or a boolean, which is
    one. *)
Definition as_index (i : pyval) : option Z :=
  match i with
  | VInt z => Some z
  | VBool b => Some (if b then 1 else 0)
  | _ => None
  end.

(** [xs[z]] on a sequence: a negative index counts from the end. *)
Definition seq_item {X} (kind : string) (xs : list X) (z : Z) : outcome X :=
  let n := Z.of_nat (List.length xs) in
  let z' := if z <? 0 then z + n else z in
  if (0 <=? z') && (z' <? n)
  then match nth_error xs (Z.to_nat z') with
       | Some x => Returned x
       | None => Raised (Exn "IndexError" (kind +:+ " index out of range"))
       end
  else Raised (Exn "IndexError" (kind +:+ " index out of range")).

(** [v[i]] for an arbitrary index [i].  The keys of a dictionary are
    texts, so any other index that can be hashed is a missing key. *)
Definition py_index (py_repr : pyval -> string) (v i : pyval) : outcome pyval :=
  match v with
  | VDict d =>
      match i with
      | VStr k => getitem d k
      | VList _ | VDict _ =>
          Raised (Exn "TypeError"
                    ("unhashable type: '" +:+ type_name i +:+ "'"))
      | _ => Raised (Exn "KeyError" (py_repr i))
      end
  | VList l =>
      match as_index i with
      | Some z => seq_item "list" l z
      | None =>
          Raised (Exn "TypeError"
            ("list indices must be integers or slices, not " +:+ type_name i))
      end
  | VStr s =>
      match as_index i with
      | Some z => seq_item "string" (map VStr (str_chars s)) z
      | None =>
          Raised (Exn "TypeError"
            ("string indices must be integers, not '" +:+ type_name i +:+ "'"))
      end
  | _ => Raised (Exn "TypeError"
           ("'" +:+ type_name v +:+ "' object is not subscriptable"))
  end.

(** The items [for x in v] visits. *)
Definition py_iter (v : pyval) : outcome (list pyval) :=
  match v with
  | VList l => Returned l
  | VStr s => Returned (map VStr (str_chars s))
  | VDict d => Returned (map VStr (Dict.keys d))
  | _ => Raised (Exn "TypeError"
           ("'" +:+ type_name v +:+ "' object is not iterable"))
  end.

(** [str(v)], as an f-string formats a value. *)
Definition py_str (py_repr : pyval -> string) (v : pyval) : string :=
  match v with
  | VStr s => s
  | VInt z => pretty z
  | VBool true => "True"
  | VBool false => "False"
  | VNone => "None"
  | _ => py_repr v
  end.

(** A method of [str] called on a value: [AttributeError] on anything else. *)
Definition as_str (method : string) (v : pyval) : outcome string :=
  match v with
  | VStr s => Returned s
  | _ => Raised (Exn "AttributeError"
           ("'" +:+ type_name v +:+ "' object has no attribute '"
            +:+ method +:+ "'"))
  end.

(** [needle in v]. *)
Definition py_contains (needle : string) (v : pyval) : outcome bool :=
  match v with
  | VStr s => Returned (str_contains needle s)
  | VList l =>
      Returned (existsb (fun x => match x with
                                  | VStr s => String.eqb s needle
                                  | _ => false
                                  end) l)
  | VDict d => Returned (Dict.mem d needle)
  | _ => Raised (Exn "TypeError"
           ("argument of type '" +:+ type_name v +:+ "' is not iterable"))
  end.

(** [int(v)]: the library parses text and truncates floats. *)
Definition to_int (W : World) (v : pyval) : outcome Z :=
  match v with
  | VInt z => Returned z
  | VBool b => Returned (if b then 1 else 0)
  | VStr _ | VFloat _ => py_int W v
  | _ => Raised (Exn "TypeError"
           ("int() argument must be a string, a bytes-like object or a real number, not '"
            +:+ type_name v +:+ "'"))
  end.

(** [float(v)]: the library parses text and rounds integers. *)
Definition to_float (W : World) (v : pyval) : outcome pyfloat :=
  match v with
  | VFloat f => Returned f
  | VBool b => Returned (FFinite (if b then 1 else 0) 0)
  | VInt _ | VStr _ => py_float W v
  | _ => Raised (Exn "TypeError"
           ("float() argument must be a string or a real number, not '"
            +:+ type_name v +:+ "'"))
  end.

Definition SHARE_HINT :=
  "Check you shared the spreadsheet with the service account".

(** Running a computation from given locals and history. *)
Definition result_of {L A} (r : outcome A * L * trace) : outcome A := r.1.1.
Definition locals_of {L A} (r : outcome A * L * trace) : L := r.1.2.
Definition trace_of {L A} (r : outcome A * L * trace) : trace := r.2.

(* ===================================================================== *)
(** ** Splitter: constants *)
(* ===================================================================== *)

Module Splitter.

Definition STATUS_PROCESSING := "PROCESSING".
Definition STATUS_FAILED := "FAILED".

Definition STATUS_COLUMNS : dict pyval :=
  [ ("STATUS_COLUMN", VStr "P");
    ("UPDATED_AT_COLUMN", VStr "Q");
    ("MESSAGE_COLUMN", VStr "R") ].

Definition FAILED_STATUS_FOR_REPORTING := "ERROR_IN_ARIEL_SPLITTER".
Definition CF_NAME := "ariel_splitter".

Definition VOICE_PROVIDER_ELEVENLABS := "ElevenLabs".
Definition VOICE_PROVIDER_GOOGLE := "Google".

Definition DEFAULT_DUBBING_CONFIG : dict pyval :=
  [ ("campaign_name", VStr "Default");
    ("custom_tag", VStr "default_tag");
    ("original_language", VStr "");
    ("target_language", VStr "[]");
    ("video_url", VStr "");
    ("script", VStr "[]");
    ("target_gender", VStr "");
    ("voice_provider", VStr VOICE_PROVIDER_GOOGLE);
    ("clone_original_voices", VStr "False");
    ("preferred_voice_family", VStr "[]");
    ("voices", VStr "[]");
    ("output_naming_convention", VStr "");
    ("output_bucket", VStr "");
    ("status", VStr "");
    ("output_file_path", VStr "");
    ("number_of_speakers", VStr "1");
    ("diarization_instructions", VStr "");
    ("translation_instructions", VStr "");
    ("no_dubbing_phrases", VStr "[]");
    ("merge_utterances", VStr "True");
    ("minimum_merge_threshold", VStr "0.001");
    ("adjust_speed", VStr "True");
    ("vocals_volume_adjustment", VStr "5.0");
    ("background_volume_adjustment", VStr "0.0");
    ("gemini_model_name", VStr "gemini-1.5-flash");
    ("gemini_temperature", VStr "1.0");
    ("gemini_top_p", VStr "0.95");
    ("gemini_top_k", VStr "64");
    ("gemini_maximum_output_tokens", VStr "8192");
    ("clean_up", VStr "False");
    ("with_verification", VStr "False");
    ("tts_params", VStr "{}") ].

(* ===================================================================== *)
(** ** Splitter: merging a sheet record with the default template *)
(* ===================================================================== *)

(** A row of the data frame built from the sheet: column label to cell
    text.  Cells come from [get_all_values], so they are all strings. *)
Abbreviation sheet_row := (gmap string string).

(** The right-hand side of
    [line[k] = default_config[k] if (k not in row or not row[k]) else row[k]].
    [k] ranges over [default_config.keys()], so [default_config[k]] exists. *)
Definition merged_value (default_config : dict pyval) (row : sheet_row)
    (k : string) : pyval :=
  match row !! k with
  | None => default (VStr "") (Dict.get default_config k)
  | Some cell =>
      if negb (truthy (VStr cell))
      then default (VStr "") (Dict.get default_config k)
      else VStr cell
  end.

(** The inner loop: [line = {}; for k in default_config.keys(): line[k] = ...]. *)
Definition merge_line (default_config : dict pyval) (row : sheet_row)
    : dict pyval :=
  fold_left
    (fun line k => Dict.set line k (merged_value default_config row k))
    (Dict.keys default_config) [].

(** [_read_dubbing_config_from_google_sheet], after the sheet has been
    loaded into [data]: one merged line per row, in row order. *)
Definition _read_dubbing_config_from_google_sheet (default_config : dict pyval)
    (data : list sheet_row) : list (dict pyval) :=
  fold_left (fun lines row => lines ++ [merge_line default_config row]) data [].

(* ===================================================================== *)
(** ** Splitter: dispatching the rows *)
(* ===================================================================== *)

(** The local variables of [_process_lines] that outlive a [try] block. *)
Record locals := Locals { status : option string; message : option string }.

Definition set_status (s : string) (l : locals) : locals :=
  {| status := Some s; message := message l |}.
Definition set_message (m : string) (l : locals) : locals :=
  {| status := status l; message := Some m |}.

(** [publisher_client.topic_path(project_id, pubsub_topic)]. *)
Definition topic_path (project_id pubsub_topic : string) : string :=
  "projects/" +:+ project_id +:+ "/topics/" +:+ pubsub_topic.

(** The value of [logging_payload["message"]] in the handler:
    [str(e) if len(str(e)) > 1 else "Check you shared ..."]. *)
Definition error_message (e : exn) : string :=
  if Nat.ltb 1 (String.length (exn_text e)) then exn_text e else SHARE_HINT.

Definition logging_payload (worksheet_url : pyval) (e : exn) : dict pyval :=
  [ ("worksheet_url", if truthy worksheet_url then worksheet_url else VNone);
    ("status", VStr FAILED_STATUS_FOR_REPORTING);
    ("message", VStr (error_message e));
    ("success", VBool false) ].

(** The payload of one row. *)
Definition make_payload (worksheet_url : pyval) (line_config tool_config : dict pyval)
    : pyval :=
  VDict [ ("worksheet_url", worksheet_url);
          ("line_config", VDict line_config);
          ("tool_config", VDict tool_config);
          ("status_columns", VDict STATUS_COLUMNS) ].

(** What the [except] block prints and logs for [e], in order. *)
Definition failure_log (worksheet_url : pyval) (e : exn) : trace :=
  [ EvPrint "traceback";
    EvPrint (exn_text e);
    EvLog (exn_text e);
    EvLogText FAILED_STATUS_FOR_REPORTING
      (VDict (logging_payload worksheet_url e)) ].

Section Code.
Variable W : World.

(** [_update_google_sheet]: the time, then the worksheet is opened, then
    the range is formatted and the three cells are written. *)
Definition _update_google_sheet {L} (url worksheet_name : pyval) (row : Z)
    (status message : string) : M L unit :=
  current_datetime <- observe (datetime_now W) ;;
  external (EvWorksheet url worksheet_name)
    (fun t => sheet_worksheet W t url worksheet_name) ;;;
  first <- lift (getitem STATUS_COLUMNS "STATUS_COLUMN") ;;
  last <- lift (getitem STATUS_COLUMNS "MESSAGE_COLUMN") ;;
  let range := py_str (py_repr W) first +:+ pretty row +:+ ":"
               +:+ py_str (py_repr W) last +:+ pretty row in
  let values := [status; current_datetime; message] in
  external (EvSheetUpdate url worksheet_name range values)
    (fun t => sheet_update W t url worksheet_name range values).

(** [_publish_pubsub]: the payload is serialised and published, and the
    acknowledgement is awaited, as one external call. *)
Definition _publish_pubsub {L} (project_id pubsub_topic : string)
    (payload : pyval) : M L unit :=
  let topic_path_reporting := topic_path project_id pubsub_topic in
  external (EvPublish topic_path_reporting payload)
    (fun t => pubsub_publish W t topic_path_reporting payload).

Section Rows.
Variables (project_id pubsub_topic : string) (tool_config : dict pyval)
  (worksheet_url : pyval).

(** The body of the loop of [_process_lines] for one row. *)
Definition process_row (row_num : Z) (line_config : dict pyval)
    : M locals unit :=
  let line_config := Dict.set line_config "row_num" (VInt row_num) in
  modify (set_message "") ;;;
  try_finally
    (try_except
       (modify (set_status STATUS_PROCESSING) ;;;
        let payload := make_payload worksheet_url line_config tool_config in
        _publish_pubsub project_id pubsub_topic payload)
       (fun e =>
          emit (EvPrint "traceback") ;;;
          emit (EvPrint (exn_text e)) ;;;
          emit (EvLog (exn_text e)) ;;;
          emit (EvLogText FAILED_STATUS_FOR_REPORTING
                  (VDict (logging_payload worksheet_url e))) ;;;
          modify (set_status STATUS_FAILED) ;;;
          modify (set_message (error_message e))))
    (worksheet_name <- lift (getitem tool_config "DUBBING_CONFIG") ;;
     st <- read_var "status" status ;;
     msg <- (if String.eqb st STATUS_FAILED
             then read_var "message" message else ret "") ;;
     _update_google_sheet worksheet_url worksheet_name (row_num + 2) st msg).

Definition _process_lines (dubbing_config : list (dict pyval))
    : M locals unit :=
  external EvPublisherClient (publisher_client W) ;;;
  for_each (enumerate dubbing_config)
    (fun '(row_num, line_config) => process_row row_num line_config).

End Rows.
End Code.

(** No local variable is bound when [_process_lines] starts. *)
Definition no_locals : locals := {| status := None; message := None |}.

End Splitter.

(* ===================================================================== *)
(** ** Video dubber: constants and helpers *)
(* ===================================================================== *)

Module VideoDubber.

Definition VOICE_PROVIDER_ELEVENLABS := "ElevenLabs".
Definition VOICE_PROVIDER_GOOGLE := "Google".

Definition STATUS_FAILED := "FAILED".
Definition STATUS_SUCCESS := "OK".

Definition FAILED_STATUS_FOR_REPORTING := "ERROR_IN_ARIEL_VIDEO_DUBBER".
Definition CF_NAME := "ariel_video_dubber".

(** A constructed engine: its position among the engines constructed in
    this history, and the keyword arguments it was constructed from.
    The engine keeps [use_elevenlabs] as an attribute of that name. *)
Record Dubber := { dubber_id : nat; dubber_kwargs : dict pyval }.

Definition is_dubber_init (e : event) : bool :=
  match e with EvDubberInit _ => true | _ => false end.

Definition engines_constructed (t : trace) : nat :=
  List.length (filter is_dubber_init t).

(** The value of [logging_payload["message"]] in the handler. *)
Definition error_message (e : exn) : string :=
  if Nat.ltb 1 (String.length (exn_text e)) then exn_text e else SHARE_HINT.

Definition logging_payload (worksheet_url : pyval) (e : exn) : dict pyval :=
  [ ("worksheet_url", if truthy worksheet_url then worksheet_url else VNone);
    ("status", VStr FAILED_STATUS_FOR_REPORTING);
    ("message", VStr (error_message e));
    ("success", VBool false) ].

(** What the [except] block prints and logs for [e], in order. *)
Definition failure_log (worksheet_url : pyval) (e : exn) : trace :=
  [ EvPrint "traceback";
    EvLog (exn_text e);
    EvLogText FAILED_STATUS_FOR_REPORTING
      (VDict (logging_payload worksheet_url e)) ].

Section Code.
Variable W : World.

(** [_update_google_sheet], with the column letters of the payload. *)
Definition _update_google_sheet {L} (url worksheet_name : pyval) (row : Z)
    (status_columns : pyval) (status message : string) : M L unit :=
  current_datetime <- observe (datetime_now W) ;;
  external (EvWorksheet url worksheet_name)
    (fun t => sheet_worksheet W t url worksheet_name) ;;;
  first <- lift (py_getitem status_columns "STATUS_COLUMN") ;;
  last <- lift (py_getitem status_columns "MESSAGE_COLUMN") ;;
  let range := py_str (py_repr W) first +:+ pretty row +:+ ":"
               +:+ py_str (py_repr W) last +:+ pretty row in
  let values := [status; current_datetime; message] in
  external (EvSheetUpdate url worksheet_name range values)
    (fun t => sheet_update W t url worksheet_name range values).

(** [_build_file_name]. *)
Definition _build_file_name {L} (line_config file_name : pyval) : M L string :=
  convention <- lift (py_getitem line_config "output_naming_convention") ;;
  path <- lift (str_format W convention line_config) ;;
  name <- lift (as_str "split" file_name) ;;
  ret (path +:+ "." +:+ last_part (str_split "." name)).

Definition _download_file_from_gcs {L} (bucket_name source_blob_name
    destination_file_name : string) : M L unit :=
  external (EvDownload bucket_name source_blob_name destination_file_name)
    (fun t => gcs_download W t bucket_name source_blob_name
                destination_file_name).

Definition _upload_file_to_gcs {L} (bucket_name source_file_name : pyval)
    (destination_blob_name : string) : M L string :=
  external (EvUpload bucket_name source_file_name destination_blob_name)
    (fun t => gcs_upload W t bucket_name source_file_name
                destination_blob_name) ;;;
  emit (EvPrint ("File " +:+ py_str (py_repr W) source_file_name
                 +:+ " uploaded to " +:+ destination_blob_name +:+ ".")) ;;;
  ret ("gs://" +:+ py_str (py_repr W) bucket_name +:+ "/"
       +:+ destination_blob_name).

(** The ways [_configure_dubber] turns a setting into an argument.
    None of them calls a service. *)
Section Arguments.
Variables (tool_config line_config : pyval).

Definition line_setting (k : string) : outcome pyval :=
  py_getitem line_config k.
Definition tool_setting (k : string) : outcome pyval :=
  py_getitem tool_config k.
(** [int(line_config[k])] *)
Definition int_setting (k : string) : outcome pyval :=
  and_then (line_setting k) (fun v =>
  and_then (to_int W v) (fun z => Returned (VInt z))).
(** [float(line_config[k])] *)
Definition float_setting (k : string) : outcome pyval :=
  and_then (line_setting k) (fun v =>
  and_then (to_float W v) (fun f => Returned (VFloat f))).
(** [line_config[k].lower() == "true"] *)
Definition flag_setting (k : string) : outcome pyval :=
  and_then (line_setting k) (fun v =>
  and_then (as_str "lower" v) (fun s =>
  Returned (VBool (String.eqb (str_lower s) "true")))).
(** [ast.literal_eval(line_config[k])] *)
Definition literal_setting (k : string) : outcome pyval :=
  and_then (line_setting k) (ast_literal_eval W).
(** [VOICE_PROVIDER_ELEVENLABS in line_config[k]] *)
Definition provider_setting (k : string) : outcome pyval :=
  and_then (line_setting k) (fun v =>
  and_then (py_contains VOICE_PROVIDER_ELEVENLABS v) (fun b =>
  Returned (VBool b))).

(** Keyword arguments are evaluated left to right. *)
Fixpoint eval_kwargs (args : list (string * outcome pyval))
    : outcome (dict pyval) :=
  match args with
  | [] => Returned []
  | (k, o) :: args' =>
      and_then o (fun v =>
      and_then (eval_kwargs args') (fun rest => Returned ((k, v) :: rest)))
  end.

(** The keyword arguments of [Dubber(...)], in the order written. *)
Definition dubber_arguments (download_file_path output_directory : string)
    : list (string * outcome pyval) :=
  [ ("input_file", Returned (VStr download_file_path));
    ("output_directory", Returned (VStr output_directory));
    ("advertiser_name", line_setting "campaign_name");
    ("original_language", line_setting "original_language");
    ("target_language", line_setting "target_language");
    ("number_of_speakers", int_setting "number_of_speakers");
    ("gemini_token", tool_setting "AI_STUDIO_API_KEY");
    ("hugging_face_token", tool_setting "HUGGING_FACE_ACCESS_TOKEN");
    ("no_dubbing_phrases", literal_setting "no_dubbing_phrases");
    ("diarization_instructions", line_setting "diarization_instructions");
    ("translation_instructions", line_setting "translation_instructions");
    ("merge_utterances", line_setting "merge_utterances");
    ("minimum_merge_threshold", float_setting "minimum_merge_threshold");
    ("preferred_voices", literal_setting "preferred_voice_family");
    ("adjust_speed", flag_setting "adjust_speed");
    ("vocals_volume_adjustment", float_setting "vocals_volume_adjustment");
    ("background_volume_adjustment",
       float_setting "background_volume_adjustment");
    ("clean_up", line_setting "clean_up");
    ("gemini_model_name", line_setting "gemini_model_name");
    ("temperature", float_setting "gemini_temperature");
    ("top_p", float_setting "gemini_top_p");
    ("top_k", int_setting "gemini_top_k");
    ("max_output_tokens", int_setting "gemini_maximum_output_tokens");
    ("use_elevenlabs", provider_setting "voice_provider");
    ("elevenlabs_token", tool_setting "ELEVEN_LABS_API_KEY");
    ("elevenlabs_clone_voices", flag_setting "clone_original_voices");
    ("with_verification", flag_setting "with_verification") ].

(** [_configure_dubber]. *)
Definition _configure_dubber {L} (output_directory : string) : M L Dubber :=
  url <- lift (line_setting "video_url") ;;
  url <- lift (as_str "split" url) ;;
  let bucket := first_part (str_split "/" url) in
  url' <- lift (line_setting "video_url") ;;
  url' <- lift (as_str "split" url') ;;
  let file_name := str_join "/" (List.tl (str_split "/" url')) in
  present <- observe (fun t => gfile_exists W t output_directory) ;;
  (if negb present
   then external (EvMakedirs output_directory)
          (fun t => gfile_makedirs W t output_directory)
   else ret tt) ;;;
  let download_file_path :=
    output_directory +:+ "/" +:+ last_part (str_split "/" file_name) in
  _download_file_from_gcs bucket file_name download_file_path ;;;
  kwargs <- lift (eval_kwargs
                    (dubber_arguments download_file_path output_directory)) ;;
  id <- observe engines_constructed ;;
  external (EvDubberInit kwargs) (fun t => dubber_init W t kwargs) ;;;
  ret {| dubber_id := id; dubber_kwargs := kwargs |}.

End Arguments.

(** [dubber.use_elevenlabs]. *)
Definition use_elevenlabs (d : Dubber) : outcome bool :=
  match getitem (dubber_kwargs d) "use_elevenlabs" with
  | Returned v => Returned (truthy v)
  | Raised _ =>
      Raised (Exn "AttributeError"
                "'Dubber' object has no attribute 'use_elevenlabs'")
  end.

Definition _dub_ad_from_script_elevenlabs {L} (dubber : Dubber)
    (script tts_params voices : pyval) : M L unit :=
  external
    (EvDubFromScript (dubber_id dubber) VOICE_PROVIDER_ELEVENLABS script
       tts_params voices)
    (fun t => dubber_dub_ad_from_script W t (dubber_id dubber)
                VOICE_PROVIDER_ELEVENLABS script tts_params voices).

Definition _dub_ad_from_script_google {L} (dubber : Dubber)
    (script tts_params voices : pyval) : M L unit :=
  external
    (EvDubFromScript (dubber_id dubber) VOICE_PROVIDER_GOOGLE script
       tts_params voices)
    (fun t => dubber_dub_ad_from_script W t (dubber_id dubber)
                VOICE_PROVIDER_GOOGLE script tts_params voices).

End Code.

(* ===================================================================== *)
(** ** Video dubber: one job *)
(* ===================================================================== *)

(** The local variables of [_process_line].  [line_config] is the
    dictionary of the caller, which the function updates in place. *)
Record locals := Locals {
  output_files_paths : list string;
  status : option string;
  message : option string;
  dubber : option Dubber;
  line_config : pyval
}.

Definition set_status (s : string) (l : locals) : locals :=
  {| output_files_paths := output_files_paths l; status := Some s;
     message := message l; dubber := dubber l; line_config := line_config l |}.
Definition set_message (m : string) (l : locals) : locals :=
  {| output_files_paths := output_files_paths l; status := status l;
     message := Some m; dubber := dubber l; line_config := line_config l |}.
Definition set_dubber (d : Dubber) (l : locals) : locals :=
  {| output_files_paths := output_files_paths l; status := status l;
     message := message l; dubber := Some d; line_config := line_config l |}.
Definition set_line_config (c : pyval) (l : locals) : locals :=
  {| output_files_paths := output_files_paths l; status := status l;
     message := message l; dubber := dubber l; line_config := c |}.
Definition append_path (p : string) (l : locals) : locals :=
  {| output_files_paths := output_files_paths l ++ [p]; status := status l;
     message := message l; dubber := dubber l; line_config := line_config l |}.

(** The assignments before the [try]:
    [output_files_paths = []], [status = STATUS_SUCCESS], [dubber = None]. *)
Definition entry_locals (line_config : pyval) : locals :=
  {| output_files_paths := []; status := Some STATUS_SUCCESS;
     message := None; dubber := None; line_config := line_config |}.

Section Job.
Variable W : World.

(** [line_config[k]] and [line_config[k] = v] on the shared dictionary. *)
Definition line_item (k : string) : M locals pyval :=
  l <- get_locals ;; lift (py_getitem (line_config l) k).
Definition set_line_item (k : string) (v : pyval) : M locals unit :=
  l <- get_locals ;;
  c <- lift (py_setitem (line_config l) k v) ;;
  modify (set_line_config c).

Section Languages.
Variables (tool_config : pyval) (output_directory : string) (voices : pyval).

(** The tail both branches of the loop share: read the produced file,
    name the output, upload it, remember the path. *)
Definition upload_output (d : Dubber) : M locals unit :=
  dubbed_file_name <- consult (fun t => dubber_video_file W t (dubber_id d)) ;;
  l <- get_locals ;;
  output_file_name <- _build_file_name W (line_config l) dubbed_file_name ;;
  bucket <- line_item "output_bucket" ;;
  path <- _upload_file_to_gcs W bucket dubbed_file_name output_file_name ;;
  modify (append_path path).

(** The arguments of a dub from a script, evaluated after [dubber]. *)
Definition dub_from_script
    (dub : Dubber -> pyval -> pyval -> pyval -> M locals unit) (d : Dubber)
    : M locals unit :=
  script <- line_item "script" ;;
  tts_params <- line_item "tts_params" ;;
  tts_params <- lift (json_loads W tts_params) ;;
  language <- line_item "target_language" ;;
  voice <- lift (py_index (py_repr W) voices language) ;;
  dub d script tts_params voice.

(** The body of [for language in target_languages]. *)
Definition dub_language (language : pyval) : M locals unit :=
  modify (set_status STATUS_SUCCESS) ;;;
  modify (set_message "") ;;;
  set_line_item "target_language" language ;;;
  script <- line_item "script" ;;
  if truthy script then
    l <- get_locals ;;
    d <- _configure_dubber W tool_config (line_config l) output_directory ;;
    modify (set_dubber d) ;;;
    eleven <- lift (use_elevenlabs d) ;;
    (if eleven
     then dub_from_script (_dub_ad_from_script_elevenlabs W) d
     else dub_from_script (_dub_ad_from_script_google W) d) ;;;
    upload_output d
  else
    l <- get_locals ;;
    d <- _configure_dubber W tool_config (line_config l) output_directory ;;
    modify (set_dubber d) ;;;
    external (EvDubAd (dubber_id d)) (fun t => dubber_dub_ad W t (dubber_id d)) ;;;
    upload_output d.

End Languages.

Section Line.
Variables (tool_config worksheet_url : pyval) (output_directory : string).

(** The body of the [try] of [_process_line]. *)
Definition dub_all : M locals unit :=
  script <- line_item "script" ;;
  script <- lift (ast_literal_eval W script) ;;
  set_line_item "script" script ;;;
  voices <- line_item "voices" ;;
  voices <- lift (json_loads W voices) ;;
  target_languages <- line_item "target_language" ;;
  target_languages <- lift (ast_literal_eval W target_languages) ;;
  languages <- lift (py_iter target_languages) ;;
  for_each languages (dub_language tool_config output_directory voices).

(** The [except Exception as e] handler. *)
Definition on_error (e : exn) : M locals unit :=
  emit (EvPrint "traceback") ;;;
  emit (EvLog (exn_text e)) ;;;
  emit (EvLogText FAILED_STATUS_FOR_REPORTING
          (VDict (logging_payload worksheet_url e))) ;;;
  modify (set_status STATUS_FAILED) ;;;
  modify (set_message (error_message e)).

(** The [finally] block: [try: dubber.clean_up()  except Exception: None].
    While [dubber] is still [None] the attribute access raises. *)
Definition clean_up_phase : M locals unit :=
  try_except
    (l <- get_locals ;;
     match dubber l with
     | None =>
         raise (Exn "AttributeError"
                  "'NoneType' object has no attribute 'clean_up'")
     | Some d =>
         external (EvCleanUp (dubber_id d))
           (fun t => dubber_clean_up W t (dubber_id d))
     end)
    (fun _ => ret tt).

(** The [return] statement. *)
Definition return_value : M locals (string * string) :=
  st <- read_var "status" status ;;
  msg <- (if String.eqb st STATUS_FAILED
          then read_var "message" message
          else l <- get_locals ;; ret (str_join "," (output_files_paths l))) ;;
  ret (st, msg).

(** [_process_line], on the locals [entry_locals line_config]. *)
Definition _process_line : M locals (string * string) :=
  try_finally (try_except dub_all on_error) clean_up_phase ;;;
  return_value.

End Line.
End Job.

(* ===================================================================== *)
(** ** Video dubber: the entry point *)
(* ===================================================================== *)

Module Run.

(** The local variables of [run] that the [except] block reads. *)
Record locals := Locals {
  worksheet_url : option pyval;
  tool_config : option pyval;
  line_config : option pyval;
  status_columns : option pyval;
  sheets_client : option unit;
  status : option string;
  message : option string
}.

Definition unbound : locals :=
  {| worksheet_url := None; tool_config := None; line_config := None;
     status_columns := None; sheets_client := None; status := None;
     message := None |}.

Definition set_worksheet_url (v : pyval) (l : locals) : locals :=
  {| worksheet_url := Some v; tool_config := tool_config l;
     line_config := line_config l; status_columns := status_columns l;
     sheets_client := sheets_client l; status := status l;
     message := message l |}.
Definition set_tool_config (v : pyval) (l : locals) : locals :=
  {| worksheet_url := worksheet_url l; tool_config := Some v;
     line_config := line_config l; status_columns := status_columns l;
     sheets_client := sheets_client l; status := status l;
     message := message l |}.
Definition set_line_config (v : pyval) (l : locals) : locals :=
  {| worksheet_url := worksheet_url l; tool_config := tool_config l;
     line_config := Some v; status_columns := status_columns l;
     sheets_client := sheets_client l; status := status l;
     message := message l |}.
Definition set_status_columns (v : pyval) (l : locals) : locals :=
  {| worksheet_url := worksheet_url l; tool_config := tool_config l;
     line_config := line_config l; status_columns := Some v;
     sheets_client := sheets_client l; status := status l;
     message := message l |}.
Definition set_sheets_client (l : locals) : locals :=
  {| worksheet_url := worksheet_url l; tool_config := tool_config l;
     line_config := line_config l; status_columns := status_columns l;
     sheets_client := Some tt; status := status l; message := message l |}.
Definition set_outcome (st msg : string) (l : locals) : locals :=
  {| worksheet_url := worksheet_url l; tool_config := tool_config l;
     line_config := line_config l; status_columns := status_columns l;
     sheets_client := sheets_client l; status := Some st;
     message := Some msg |}.

End Run.

Definition required_elem : list string :=
  [ "PROJECT_ID"; "REGION"; "SERVICE_ACCOUNT"; "DEPLOYMENT_NAME";
    "OUTPUT_DIRECTORY" ].

(** How an invocation of [run] ends: the process exits at start-up, or
    the function returns or raises. *)
Inductive ending :=
| Exits (code : Z)
| Ends (r : outcome (string * Z)).

Section Entry.
Variable W : World.

(** The call of [_process_line] from [run]: the callee works on the
    caller's [line_config] dictionary, so its updates stay visible, and
    [(status, message)] is assigned only when the callee returns. *)
Definition call_process_line (tool_config line_config worksheet_url : pyval)
    (output_directory : string) : M Run.locals unit :=
  fun l t =>
    match _process_line W tool_config worksheet_url output_directory
            (entry_locals line_config) t with
    | (Returned (st, msg), l', t') =>
        (Returned tt,
         Run.set_outcome st msg (Run.set_line_config (VideoDubber.line_config l') l),
         t')
    | (Raised e, l', t') =>
        (Raised e, Run.set_line_config (VideoDubber.line_config l') l, t')
    end.

(** The call [_update_google_sheet(worksheet_url, tool_config["DUBBING_CONFIG"],
    int(line_config["row_num"]) + 2, status_columns, status, <message>,
    client=sheets_client)], its arguments evaluated in order. *)
Definition write_status (message : M Run.locals string) : M Run.locals unit :=
  url <- read_var "worksheet_url" Run.worksheet_url ;;
  tool_config <- read_var "tool_config" Run.tool_config ;;
  worksheet_name <- lift (py_getitem tool_config "DUBBING_CONFIG") ;;
  line_config <- read_var "line_config" Run.line_config ;;
  row_num <- lift (py_getitem line_config "row_num") ;;
  row_num <- lift (to_int W row_num) ;;
  status_columns <- read_var "status_columns" Run.status_columns ;;
  st <- read_var "status" Run.status ;;
  msg <- message ;;
  read_var "sheets_client" Run.sheets_client ;;;
  _update_google_sheet W url worksheet_name (row_num + 2) status_columns st msg.

(** The [try] block of [run]. *)
Definition handle_job (request_json : pyval) (output_directory : string)
    : M Run.locals (string * Z) :=
  v <- lift (py_getitem request_json "worksheet_url") ;;
  modify (Run.set_worksheet_url v) ;;;
  v <- lift (py_getitem request_json "tool_config") ;;
  modify (Run.set_tool_config v) ;;;
  v <- lift (py_getitem request_json "line_config") ;;
  modify (Run.set_line_config v) ;;;
  v <- lift (py_getitem request_json "status_columns") ;;
  modify (Run.set_status_columns v) ;;;
  external EvAuthorize (authorize W) ;;;
  modify Run.set_sheets_client ;;;
  tool_config <- read_var "tool_config" Run.tool_config ;;
  line_config <- read_var "line_config" Run.line_config ;;
  url <- read_var "worksheet_url" Run.worksheet_url ;;
  call_process_line tool_config line_config url output_directory ;;;
  write_status (read_var "message" Run.message) ;;;
  ret ("OK", 200).

(** The [except Exception as e] block of [run]. *)
Definition on_job_error (e : exn) : M Run.locals (string * Z) :=
  emit (EvPrint "traceback") ;;;
  write_status (ret (exn_text e)) ;;;
  ret ("Error", 500).

(** [run], after the start-up check: decode the message, then the job. *)
Definition run_job (data : pyval) (output_directory : string)
    : M Run.locals (string * Z) :=
  msg_data <- lift (b64decode_utf8 W data) ;;
  request_json <- lift (json_loads W msg_data) ;;
  try_except (handle_job request_json output_directory) on_job_error.

(** [run]: [environ] is [os.environ], [data] is
    [cloud_event.data["message"]["data"]]. *)
Definition run (environ : dict string) (data : pyval) (t : trace)
    : ending * trace :=
  if negb (forallb (Dict.mem environ) required_elem)
  then (Exits 1,
        t ++ [EvLog (FAILED_STATUS_FOR_REPORTING
                     +:+ ": Cannot proceed, there are missing input values please make sure you set all the environment variables correctly.")])
  else
    match Dict.get environ "OUTPUT_DIRECTORY" with
    | None => (Ends (Raised (KeyError "OUTPUT_DIRECTORY")), t)
    | Some output_directory =>
        let r := run_job data output_directory Run.unbound t in
        (Ends (result_of r), trace_of r)
    end.

End Entry.
End VideoDubber.

(* ===================================================================== *)
(** ** Reading a history *)
(* ===================================================================== *)

(** The payloads handed to the publisher, with their topic, oldest first. *)
Definition publish_attempts (t : trace) : list (string * pyval) :=
  omap (fun e => match e with
                 | EvPublish topic payload => Some (topic, payload)
                 | _ => None
                 end) t.

(** The writes issued to status cells: the range and the three values. *)
Definition status_writes (t : trace) : list (string * list string) :=
  omap (fun e => match e with
                 | EvSheetUpdate _ _ range values => Some (range, values)
                 | _ => None
                 end) t.

(** The engines on which [clean_up] was invoked. *)
Definition clean_ups (t : trace) : list nat :=
  omap (fun e => match e with EvCleanUp d => Some d | _ => None end) t.

(** The keyword arguments of the engines whose construction was started. *)
Definition constructions (t : trace) : list (dict pyval) :=
  omap (fun e => match e with EvDubberInit kw => Some kw | _ => None end) t.


(** The messages among [calls], made after the history [h], that the
    publisher took: the attempts that did not raise.  A service answers
    a call from the history before it. *)
Fixpoint published (W : World) (h calls : trace) : list (string * pyval) :=
  match calls with
  | [] => []
  | e :: calls' =>
      match e with
      | EvPublish topic payload =>
          match pubsub_publish W h topic payload with
          | Returned _ => [(topic, payload)]
          | Raised _ => []
          end
      | _ => []
      end ++ published W (h ++ [e]) calls'
  end.

(** The status writes among [calls], made after the history [h], that
    the sheet took. *)
Fixpoint written (W : World) (h calls : trace)
    : list (string * list string) :=
  match calls with
  | [] => []
  | e :: calls' =>
      match e with
      | EvSheetUpdate url name range values =>
          match sheet_update W h url name range values with
          | Returned _ => [(range, values)]
          | Raised _ => []
          end
      | _ => []
      end ++ written W (h ++ [e]) calls'
  end.

(** The engines that the constructions among [calls], made after the
    history [h], returned, oldest first. *)
Fixpoint engines_built (W : World) (h calls : trace)
    : list VideoDubber.Dubber :=
  match calls with
  | [] => []
  | e :: calls' =>
      match e with
      | EvDubberInit kwargs =>
          match dubber_init W h kwargs with
          | Returned _ =>
              [ {| VideoDubber.dubber_id := VideoDubber.engines_constructed h;
                   VideoDubber.dubber_kwargs := kwargs |} ]
          | Raised _ => []
          end
      | _ => []
      end ++ engines_built W (h ++ [e]) calls'
  end.

(** The engine bound to [dubber] after [calls], when it held [d0]
    before and every engine is bound as soon as it is returned. *)
Definition engine_after (W : World) (d0 : option VideoDubber.Dubber)
    (h calls : trace) : option VideoDubber.Dubber :=
  match last (engines_built W h calls) with
  | Some d => Some d
  | None => d0
  end.

(** [m] binds [dubber] to every engine whose construction returns, and
    to nothing else. *)
Definition tracks_engine {A} (W : World) (m : M VideoDubber.locals A)
    : Prop :=
  ∀ l h, ∃ calls,
    trace_of (m l h) = h ++ calls
    ∧ VideoDubber.dubber (locals_of (m l h))
      = engine_after W (VideoDubber.dubber l) h calls.

(** The status range of a sheet row in the splitter's fixed layout. *)
Definition status_range (row : Z) : string :=
  "P" +:+ pretty row +:+ ":" +:+ "R" +:+ pretty row.

(** The publisher client can be created. *)
Definition publisher_available (W : World) : Prop :=
  ∀ t, publisher_client W t = Returned tt.

(** The spreadsheet can be opened and written, whatever came before. *)
Definition sheet_writable (W : World) : Prop :=
  (∀ t url name, sheet_worksheet W t url name = Returned tt)
  ∧ (∀ t url name range values,
       sheet_update W t url name range values = Returned tt).

(** The payloads of the rows, numbered from [i]. *)
Definition row_payloads (project_id pubsub_topic : string)
    (tool_config : dict pyval) (worksheet_url : pyval)
    (rows : list (Z * dict pyval)) : list (string * pyval) :=
  map (fun r => (Splitter.topic_path project_id pubsub_topic,
                 Splitter.make_payload worksheet_url
                   (Dict.set r.2 "row_num" (VInt r.1)) tool_config)) rows.

(** A status write of the splitter for the row numbered [row_num]:
    [PROCESSING] with no message, or [FAILED] with the message of some
    exception. *)
Definition splitter_write (row : Z * dict pyval) (w : string * list string)
    : Prop :=
  w.1 = status_range (row.1 + 2)
  ∧ ∃ now, w.2 = [Splitter.STATUS_PROCESSING; now; ""]
           ∨ ∃ e, w.2 = [Splitter.STATUS_FAILED; now; Splitter.error_message e].


(* ===================================================================== *)
(** ** Invariants of a computation *)
(* ===================================================================== *)

(** [m] keeps the invariant [P] of the locals and the history, on both
    exits, and every call it adds to the history satisfies [Q]. *)
Definition respects {L A} (P : L → trace → Prop) (Q : event → bool)
    (m : M L A) : Prop :=
  ∀ l t, P l t →
    P (locals_of (m l t)) (trace_of (m l t))
    ∧ ∃ calls, trace_of (m l t) = t ++ calls ∧ forallb Q calls = true.

(** The world [W] with another answer to [dubber.clean_up()]. *)
Definition with_clean_up (W : World) (clean_up : trace -> nat -> outcome unit)
    : World :=
  {| ast_literal_eval := ast_literal_eval W;
     json_loads := json_loads W;
     py_int := py_int W;
     py_float := py_float W;
     py_repr := py_repr W;
     str_format := str_format W;
     b64decode_utf8 := b64decode_utf8 W;
     datetime_now := datetime_now W;
     publisher_client := publisher_client W;
     pubsub_publish := pubsub_publish W;
     authorize := authorize W;
     sheet_worksheet := sheet_worksheet W;
     sheet_update := sheet_update W;
     gfile_exists := gfile_exists W;
     gfile_makedirs := gfile_makedirs W;
     gcs_download := gcs_download W;
     gcs_upload := gcs_upload W;
     dubber_init := dubber_init W;
     dubber_dub_ad_from_script := dubber_dub_ad_from_script W;
     dubber_dub_ad := dubber_dub_ad W;
     dubber_video_file := dubber_video_file W;
     dubber_clean_up := clean_up |}.

(** The calls the body and the handler of [_process_line] can make. *)
Definition job_call (e : event) : bool :=
  match e with
  | EvPrint _ | EvLog _ | EvLogText _ _ | EvMakedirs _ | EvDownload _ _ _
  | EvDubberInit _ | EvDubFromScript _ _ _ _ _ | EvDubAd _ | EvUpload _ _ _ =>
      true
  | _ => false
  end.

(** An invariant of the locals of [_process_line] and the history that
    the [try] body keeps: any call may join the history, the assignments
    of the body may be made, [line_config] may be updated at a key other
    than [row_num], and [dubber] may be bound to an engine right after
    its construction. *)
Record job_invariant (P : VideoDubber.locals → trace → Prop) : Prop := {
  inv_call : ∀ l t e, P l t → P l (t ++ [e]);
  inv_status :
    ∀ l t, P l t → P (VideoDubber.set_status VideoDubber.STATUS_SUCCESS l) t;
  inv_message : ∀ m l t, P l t → P (VideoDubber.set_message m l) t;
  inv_path : ∀ p l t, P l t → P (VideoDubber.append_path p l) t;
  inv_line :
    ∀ l t k v c, P l t → k ≠ "row_num" →
      py_setitem (VideoDubber.line_config l) k v = Returned c →
      P (VideoDubber.set_line_config c l) t;
  inv_dubber :
    ∀ d l t, P l t →
      P (VideoDubber.set_dubber d l)
        (t ++ [EvDubberInit (VideoDubber.dubber_kwargs d)])
}.

(** [status] still holds [STATUS_SUCCESS]. *)
Definition status_ok (l : VideoDubber.locals) (t : trace) : Prop :=
  VideoDubber.status l = Some VideoDubber.STATUS_SUCCESS.

(** [line_config["row_num"]] is [v]. *)
Definition row_num_is (v : pyval) (l : VideoDubber.locals) (t : trace)
    : Prop :=
  py_getitem (VideoDubber.line_config l) "row_num" = Returned v.

(** The call the [finally] block of [_process_line] makes when [dubber]
    holds [d]. *)
Definition clean_up_call (d : option VideoDubber.Dubber) : trace :=
  match d with
  | Some d => [EvCleanUp (VideoDubber.dubber_id d)]
  | None => []
  end.

(** The locals after the [except] block of [_process_line] has run. *)
Definition failed_locals (e : exn) (l : VideoDubber.locals)
    : VideoDubber.locals :=
  VideoDubber.set_message (VideoDubber.error_message e)
    (VideoDubber.set_status VideoDubber.STATUS_FAILED l).


(** The message [data] decodes to a payload with the four fields. *)
Definition delivers (W : World) (data url tool_config line_config
    status_columns : pyval) : Prop :=
  ∃ text request,
    b64decode_utf8 W data = Returned text
    ∧ json_loads W text = Returned request
    ∧ py_getitem request "worksheet_url" = Returned url
    ∧ py_getitem request "tool_config" = Returned tool_config
    ∧ py_getitem request "line_config" = Returned line_config
    ∧ py_getitem request "status_columns" = Returned status_columns.

(** The payload names the sheet, the row and the status columns. *)
Definition addresses (tool_config line_config status_columns name : pyval)
    (row_num : Z) (first last : pyval) : Prop :=
  py_getitem tool_config "DUBBING_CONFIG" = Returned name
  ∧ py_getitem line_config "row_num" = Returned (VInt row_num)
  ∧ py_getitem status_columns "STATUS_COLUMN" = Returned first
  ∧ py_getitem status_columns "MESSAGE_COLUMN" = Returned last.

(** The range the worker writes for a row, with the payload's columns. *)
Definition worker_range (W : World) (first last : pyval) (row : Z) : string :=
  py_str (py_repr W) first +:+ pretty row +:+ ":"
  +:+ py_str (py_repr W) last +:+ pretty row.

(** The calls that dub, oldest first: the two ways of dubbing from a
    script, and [dub_ad]. *)
Definition dub_calls (t : trace) : list event :=
  List.filter (fun e => match e with
                        | EvDubFromScript _ _ _ _ _ | EvDubAd _ => true
                        | _ => false
                        end) t.

(* ===================================================================== *)
(** ** Concrete worlds and jobs *)
(* ===================================================================== *)

Module Demo.

(** [ast.literal_eval] on the texts the jobs below use. *)
Definition literal_eval (v : pyval) : outcome pyval :=
  match v with
  | VStr s =>
      if String.eqb s "[]" then Returned (VList [])
      else if String.eqb s "{}" then Returned (VDict [])
      else if String.eqb s "['fr']" then Returned (VList [VStr "fr"])
      else if String.eqb s "['fr', 'de']"
      then Returned (VList [VStr "fr"; VStr "de"])
      else if String.eqb s "[5]" then Returned (VList [VInt 5])
      else if String.eqb s "['Hello']" then Returned (VList [VStr "Hello"])
      else Raised (Exn "ValueError" ("malformed node or string: " +:+ s))
  | _ => Raised (Exn "ValueError" "malformed node or string")
  end.

(** [json.loads] on the texts the jobs below use. *)
Definition loads (v : pyval) : outcome pyval :=
  match v with
  | VStr s =>
      if String.eqb s "[]" then Returned (VList [])
      else if String.eqb s "{}" then Returned (VDict [])
      else Raised (Exn "JSONDecodeError"
                     "Expecting value: line 1 column 1 (char 0)")
  | _ => Raised (Exn "TypeError"
           "the JSON object must be str, bytes or bytearray")
  end.

Definition int_of (v : pyval) : outcome Z :=
  match v with
  | VStr s =>
      if String.eqb s "1" then Returned 1
      else if String.eqb s "64" then Returned 64
      else if String.eqb s "8192" then Returned 8192
      else Raised (Exn "ValueError"
                     ("invalid literal for int() with base 10: '" +:+ s +:+ "'"))
  | _ => Raised (Exn "TypeError" "int() argument must be a string")
  end.

(** [float] on the default settings, as the nearest binary64 numbers. *)
Definition float_of (v : pyval) : outcome pyfloat :=
  match v with
  | VStr s =>
      if String.eqb s "0.001" then Returned (FFinite 1152921504606847 (-60))
      else if String.eqb s "5.0" then Returned (FFinite 5 0)
      else if String.eqb s "0.0" then Returned (FFinite 0 0)
      else if String.eqb s "1.0" then Returned (FFinite 1 0)
      else if String.eqb s "0.95" then Returned (FFinite 4278419646001971 (-52))
      else Raised (Exn "ValueError"
                     ("could not convert string to float: '" +:+ s +:+ "'"))
  | _ => Raised (Exn "TypeError" "float() argument must be a string")
  end.

Definition repr (v : pyval) : string :=
  match v with
  | VInt z => pretty z
  | VStr s => "'" +:+ s +:+ "'"
  | VList [] => "[]"
  | VDict [] => "{}"
  | _ => "..."
  end.

(** [str.format] on the two naming conventions used below. *)
Definition format (convention line_config : pyval) : outcome string :=
  match convention with
  | VStr s =>
      if String.eqb s "" then Returned ""
      else if String.eqb s "{target_language}"
      then match py_getitem line_config "target_language" with
           | Returned v => Returned (py_str repr v)
           | Raised e => Raised e
           end
      else Raised (Exn "KeyError" s)
  | _ => Raised (Exn "AttributeError" "object has no attribute 'format'")
  end.

Definition is_makedirs (path : string) (e : event) : bool :=
  match e with EvMakedirs p => String.eqb p path | _ => false end.

(** A world in which every service answers, but for the calls given. *)
Definition world
    (publish : trace -> string -> pyval -> outcome unit)
    (update : trace -> pyval -> pyval -> string -> list string -> outcome unit)
    (decode : pyval -> outcome pyval)
    (loads : pyval -> outcome pyval)
    (clean_up : trace -> nat -> outcome unit) : World :=
  {| ast_literal_eval := literal_eval;
     json_loads := loads;
     py_int := int_of;
     py_float := float_of;
     py_repr := repr;
     str_format := format;
     b64decode_utf8 := decode;
     datetime_now := fun _ => "2024-05-01 12:00:00";
     publisher_client := fun _ => Returned tt;
     pubsub_publish := publish;
     authorize := fun _ => Returned tt;
     sheet_worksheet := fun _ _ _ => Returned tt;
     sheet_update := update;
     gfile_exists := fun t path => existsb (is_makedirs path) t;
     gfile_makedirs := fun _ _ => Returned tt;
     gcs_download := fun _ _ _ _ => Returned tt;
     gcs_upload := fun _ _ _ _ => Returned tt;
     dubber_init := fun _ _ => Returned tt;
     dubber_dub_ad_from_script := fun _ _ _ _ _ _ => Returned tt;
     dubber_dub_ad := fun _ _ => Returned tt;
     dubber_video_file := fun _ _ => Returned (VStr "/tmp/ariel/dubbed_video.mp4");
     dubber_clean_up := clean_up |}.

Definition padding_error : exn := Exn "Error" "Incorrect padding".
Definition topic_missing : exn :=
  Exn "NotFound" "404 Resource not found (resource=ariel-jobs).".
Definition no_permission : exn :=
  Exn "APIError" "APIError: [403]: The caller does not have permission".

Definition publish_ok : trace -> string -> pyval -> outcome unit :=
  fun _ _ _ => Returned tt.
Definition update_ok
    : trace -> pyval -> pyval -> string -> list string -> outcome unit :=
  fun _ _ _ _ _ => Returned tt.
Definition undecodable : pyval -> outcome pyval :=
  fun _ => Raised padding_error.
Definition clean_up_ok : trace -> nat -> outcome unit :=
  fun _ _ => Returned tt.

(** Everything works; no message can be decoded. *)
Definition quiet : World :=
  world publish_ok update_ok undecodable loads clean_up_ok.

(** The topic does not exist, the sheet is writable. *)
Definition no_topic : World :=
  world (fun _ _ _ => Raised topic_missing) update_ok undecodable loads
    clean_up_ok.

(** The topic does not exist and the sheet is shared read-only. *)
Definition read_only_sheet : World :=
  world (fun _ _ _ => Raised topic_missing)
    (fun _ _ _ _ _ => Raised no_permission) undecodable loads clean_up_ok.

Definition tool_config : dict pyval :=
  [ ("AI_STUDIO_API_KEY", VStr "k1");
    ("HUGGING_FACE_ACCESS_TOKEN", VStr "h1");
    ("ELEVEN_LABS_API_KEY", VStr "e1");
    ("DUBBING_CONFIG", VStr "Jobs") ].

Definition worksheet_url : pyval :=
  VStr "https://docs.google.com/spreadsheets/d/ariel".

(** Two rows of the sheet "Jobs". *)
Definition sheet_rows : list (gmap string string) :=
  [ <["video_url" := "bkt/in.mp4"]>
      (<["target_language" := "['fr']"]>
         (<["output_bucket" := "out"]>
            (<["output_naming_convention" := "{target_language}"]> ∅)));
    <["video_url" := "bkt/ads/spot.mp4"]>
      (<["target_language" := "['fr', 'de']"]>
         (<["output_bucket" := "out"]>
            (<["output_naming_convention" := "{target_language}"]>
               (<["notes" := "urgent"]> ∅)))) ].

Definition dubbing_config : list (dict pyval) :=
  Eval vm_compute in
    Splitter._read_dubbing_config_from_google_sheet
      Splitter.DEFAULT_DUBBING_CONFIG sheet_rows.

(** The line configuration the worker receives for the row at [i]. *)
Definition job (row_num : Z) (line : dict pyval) : pyval :=
  VDict (Dict.set line "row_num" (VInt row_num)).

Definition with_setting (k v : string) (line : dict pyval) : dict pyval :=
  Dict.set line k (VStr v).

Definition first_line : dict pyval := nth 0 dubbing_config [].
Definition second_line : dict pyval := nth 1 dubbing_config [].

(** The second row: two target languages, no script. *)
Definition two_languages : pyval := job 1 second_line.

(** A row that asks for no language at all. *)
Definition no_language : pyval :=
  job 0 (with_setting "target_language" "[]" first_line).

(** A row that asks for no language and whose script cell is not a literal. *)
Definition bad_script : pyval :=
  job 0 (with_setting "script" "oops"
           (with_setting "target_language" "[]" first_line)).


Definition output_directory : string := "/tmp/ariel".

(** [json.dumps] with its default separators, for values whose strings
    need no escape. *)
Definition quoted (s : string) : string :=
  String (ascii_of_nat 34) s +:+ String (ascii_of_nat 34) "".

Fixpoint json_dumps (v : pyval) : string :=
  match v with
  | VNone => "null"
  | VBool true => "true"
  | VBool false => "false"
  | VInt z => pretty z
  | VFloat _ => "NaN"
  | VStr s => quoted s
  | VList l => "[" +:+ str_join ", " (map json_dumps l) +:+ "]"
  | VDict d =>
      "{" +:+ str_join ", "
                (map (fun kv => quoted (fst kv) +:+ ": " +:+ json_dumps (snd kv))
                   d)
      +:+ "}"
  end.

(** The payload of a row that asks for no language, as the splitter
    publishes it, and the message that carries it: the JSON text of the
    payload in base64. *)
Definition small_line : pyval :=
  VDict [ ("script", VStr "[]"); ("voices", VStr "[]");
          ("target_language", VStr "[]"); ("row_num", VInt 0) ].

Definition small_tool_config : pyval :=
  VDict [ ("DUBBING_CONFIG", VStr "Jobs") ].

Definition small_payload : pyval :=
  VDict [ ("worksheet_url", worksheet_url);
          ("line_config", small_line);
          ("tool_config", small_tool_config);
          ("status_columns", VDict Splitter.STATUS_COLUMNS) ].

Definition small_message : pyval :=
  VStr "eyJ3b3Jrc2hlZXRfdXJsIjogImh0dHBzOi8vZG9jcy5nb29nbGUuY29tL3NwcmVhZHNoZWV0cy9kL2FyaWVsIiwgImxpbmVfY29uZmlnIjogeyJzY3JpcHQiOiAiW10iLCAidm9pY2VzIjogIltdIiwgInRhcmdldF9sYW5ndWFnZSI6ICJbXSIsICJyb3dfbnVtIjogMH0sICJ0b29sX2NvbmZpZyI6IHsiRFVCQklOR19DT05GSUciOiAiSm9icyJ9LCAic3RhdHVzX2NvbHVtbnMiOiB7IlNUQVRVU19DT0xVTU4iOiAiUCIsICJVUERBVEVEX0FUX0NPTFVNTiI6ICJRIiwgIk1FU1NBR0VfQ09MVU1OIjogIlIifX0=".

(** The environment of a deployed worker. *)
Definition environ : dict string :=
  [ ("PROJECT_ID", "proj"); ("REGION", "europe-west1");
    ("SERVICE_ACCOUNT", "ariel@proj.iam.gserviceaccount.com");
    ("DEPLOYMENT_NAME", "ariel"); ("OUTPUT_DIRECTORY", output_directory) ].

Definition pyval_is_str (v : pyval) (s : string) : bool :=
  match v with VStr s' => String.eqb s' s | _ => false end.

(** Everything works, and [small_message] decodes to [small_payload]. *)
Definition delivering : World :=
  world publish_ok update_ok
    (fun v => match v, small_message with
              | VStr s, VStr m =>
                  if String.eqb s m then Returned (VStr (json_dumps small_payload))
                  else Raised padding_error
              | _, _ => Raised padding_error
              end)
    (fun v => if pyval_is_str v (json_dumps small_payload)
              then Returned small_payload else loads v)
    clean_up_ok.

End Demo.

(* ===================================================================== *)
(** ** Statements about the entry point of the video dubber *)
(* ===================================================================== *)

(** The steps of the [try] block of [run] that come before the call of
    [_process_line]: the four fields of the payload, then the
    authorisation, at the history [t]. *)
Definition job_preamble (W : World) (request : pyval) (t : trace)
    : outcome unit :=
  and_then (py_getitem request "worksheet_url") (fun _ =>
  and_then (py_getitem request "tool_config") (fun _ =>
  and_then (py_getitem request "line_config") (fun _ =>
  and_then (py_getitem request "status_columns") (fun _ =>
  authorize W t)))).

(** The message of the start-up check. *)
Definition missing_environment : string :=
  VideoDubber.FAILED_STATUS_FOR_REPORTING
  +:+ ": Cannot proceed, there are missing input values please make sure you set all the environment variables correctly.".

(* ===================================================================== *)
(** ** Splitter: the entry point *)
(* ===================================================================== *)

Module SplitterEntry.

(** What [_load_data_from_google_sheet] returns, as its two callers use
    it: [column data name] is the attribute [data.<name>], the cells of
    that column from the top, or the [AttributeError] of a table without
    such a column; [iterrows data] are the rows below the header, each
    from the column labels to the cells. *)
Record DataFrame := {
  column : string -> outcome (list string);
  iterrows : list Splitter.sheet_row
}.

(** [value[i]] on a column, whose labels are the positions. *)
Definition series_item (value : list string) (i : Z) : outcome pyval :=
  match value !! Z.to_nat i with
  | Some v => Returned (VStr v)
  | None => Raised (Exn "KeyError" (pretty i))
  end.

(** The loop [for i, k in enumerate(data.variable):
    default_config[k] = data.value[i]], on the rows left. *)
Fixpoint set_variables (data : DataFrame) (rows : list (Z * string))
    (default_config : dict pyval) : outcome (dict pyval) :=
  match rows with
  | [] => Returned default_config
  | (i, k) :: rows' =>
      and_then (column data "value") (fun value =>
      and_then (series_item value i) (fun v =>
      set_variables data rows' (Dict.set default_config k v)))
  end.

(** [_read_tool_config_from_google_sheet], after the sheet has been
    loaded into [data]. *)
Definition _read_tool_config_from_google_sheet (default_config : dict pyval)
    (data : DataFrame) : outcome (dict pyval) :=
  and_then (column data "variable") (fun variable =>
  set_variables data (enumerate variable) default_config).

Definition required_elem : list string :=
  [ "PROJECT_ID"; "REGION"; "SERVICE_ACCOUNT"; "DEPLOYMENT_NAME";
    "PUBSUB_TOPIC" ].

(** [os.environ[k]]. *)
Definition environ_item (environ : dict string) (k : string) : outcome string :=
  match Dict.get environ k with
  | Some v => Returned v
  | None => Raised (KeyError k)
  end.

(** The message of the start-up check. *)
Definition missing_environment : string :=
  Splitter.FAILED_STATUS_FOR_REPORTING
  +:+ ": Cannot proceed, there are missing input values please make sure you set all the environment variables correctly.".

Section Code.
Variable W : World.

(** The read of a worksheet into a table, by [gspread] and [pandas]: it
    answers from the history and writes nothing. *)
Variable read_sheet : trace -> pyval -> pyval -> outcome DataFrame.

Definition _load_data_from_google_sheet {L} (url worksheet_name : pyval)
    : M L DataFrame :=
  consult (fun t => read_sheet t url worksheet_name).

Definition _init_google_sheet_client {L} : M L unit :=
  external EvAuthorize (authorize W).

(** The [try] block of [run]. *)
Definition handle_request (environ : dict string) (request_json : pyval)
    : M unit (string * Z) :=
  worksheet_url <- lift (py_getitem request_json "worksheet_url") ;;
  tool_config_sheet_name <-
    lift (py_getitem request_json "tool_config_sheet_name") ;;
  _init_google_sheet_client ;;;
  data <- _load_data_from_google_sheet worksheet_url tool_config_sheet_name ;;
  tool_config <- lift (_read_tool_config_from_google_sheet [] data) ;;
  config_sheet_name <- lift (getitem tool_config "DUBBING_CONFIG") ;;
  data <- _load_data_from_google_sheet worksheet_url config_sheet_name ;;
  let dubbing_config :=
    Splitter._read_dubbing_config_from_google_sheet
      Splitter.DEFAULT_DUBBING_CONFIG (iterrows data) in
  project_id <- lift (environ_item environ "PROJECT_ID") ;;
  pubsub_topic <- lift (environ_item environ "PUBSUB_TOPIC") ;;
  call Splitter.no_locals
    (Splitter._process_lines W project_id pubsub_topic tool_config
       worksheet_url dubbing_config) ;;;
  ret ("OK", 200).

(** The [except Exception as e] block of [run]. *)
Definition on_error (e : exn) : M unit (string * Z) :=
  emit (EvPrint "traceback") ;;;
  ret ("Error " +:+ exn_text e, 500).

(** [run], once the environment has been checked. *)
Definition answer (environ : dict string) (request_json : pyval)
    : M unit (string * Z) :=
  emit (EvPrint (py_str (py_repr W) request_json)) ;;;
  try_except (handle_request environ request_json) on_error.

(** [run]: [environ] is [os.environ], [request_json] is
    [request.get_json(silent=True)], which is [None] for a body that is
    not JSON.  The name of the log is built from [DEPLOYMENT_NAME] before
    the environment is checked. *)
Definition run (environ : dict string) (request_json : pyval) (t : trace)
    : VideoDubber.ending * trace :=
  match environ_item environ "DEPLOYMENT_NAME" with
  | Raised e => (VideoDubber.Ends (Raised e), t)
  | Returned _ =>
      if negb (forallb (Dict.mem environ) required_elem)
      then (VideoDubber.Exits 1, t ++ [EvLog missing_environment])
      else
        let r := answer environ request_json tt t in
        (VideoDubber.Ends (result_of r), trace_of r)
  end.

End Code.
End SplitterEntry.

(** An invocation of the splitter reaches the dispatch of the rows: the
    environment is complete, the request names the spreadsheet [url] and
    the sheet of the tool settings, the client is authorised, that sheet
    is read into [tool_config], and the sheet it names under
    [DUBBING_CONFIG] is read and has the rows [rows]. *)
Definition reaches_dispatch (W : World)
    (read_sheet : trace -> pyval -> pyval -> outcome SplitterEntry.DataFrame)
    (environ : dict string) (request : pyval) (url : pyval)
    (project topic : string) (tool_config : dict pyval)
    (rows : list Splitter.sheet_row) : Prop :=
  forallb (Dict.mem environ) SplitterEntry.required_elem = true
  ∧ Dict.get environ "PROJECT_ID" = Some project
  ∧ Dict.get environ "PUBSUB_TOPIC" = Some topic
  ∧ py_getitem request "worksheet_url" = Returned url
  ∧ (∀ t, authorize W t = Returned tt)
  ∧ ∃ tool_sheet settings name jobs,
      py_getitem request "tool_config_sheet_name" = Returned tool_sheet
      ∧ (∀ t, read_sheet t url tool_sheet = Returned settings)
      ∧ SplitterEntry._read_tool_config_from_google_sheet [] settings
        = Returned tool_config
      ∧ Dict.get tool_config "DUBBING_CONFIG" = Some name
      ∧ (∀ t, read_sheet t url name = Returned jobs)
      ∧ SplitterEntry.iterrows jobs = rows.

(* ===================================================================== *)
(** ** More concrete cases *)
(* ===================================================================== *)

Module Cases.

(** The engine that [_configure_dubber] returns for the first row in the
    quiet world, and the history it leaves. *)
Definition first_engine_run : outcome VideoDubber.Dubber * unit * trace :=
  Eval vm_compute in
    VideoDubber._configure_dubber Demo.quiet (VDict Demo.tool_config)
      (Demo.job 0 Demo.first_line) Demo.output_directory tt [].

Definition first_engine : VideoDubber.Dubber :=
  match result_of first_engine_run with
  | Returned d => d
  | Raised _ => {| VideoDubber.dubber_id := 0; VideoDubber.dubber_kwargs := [] |}
  end.

(** Decoding [Demo.small_message], and the text of the empty JSON object. *)
Definition decode (v : pyval) : outcome pyval :=
  if Demo.pyval_is_str v "e30=" then Returned (VStr "{}")
  else match v, Demo.small_message with
       | VStr s, VStr m =>
           if String.eqb s m
           then Returned (VStr (Demo.json_dumps Demo.small_payload))
           else Raised Demo.padding_error
       | _, _ => Raised Demo.padding_error
       end.

Definition loads (v : pyval) : outcome pyval :=
  if Demo.pyval_is_str v (Demo.json_dumps Demo.small_payload)
  then Returned Demo.small_payload else Demo.loads v.

Definition unavailable : exn :=
  Exn "APIError" "APIError: [503]: The service is currently unavailable.".

(** Everything works, but the first write to the sheet is refused. *)
Definition flaky_sheet : World :=
  Demo.world Demo.publish_ok
    (fun h _ _ _ _ =>
       match status_writes h with
       | [] => Raised unavailable
       | _ => Returned tt
       end)
    decode loads Demo.clean_up_ok.

(** Everything works and both messages above decode. *)
Definition decoding : World :=
  Demo.world Demo.publish_ok Demo.update_ok decode loads Demo.clean_up_ok.

(** A line with a script, to be dubbed by ElevenLabs; the voices of its
    language; one iteration of the loop over the languages on it. *)
Definition scripted_line : pyval :=
  VDict (Dict.set (Dict.set (Dict.set Demo.first_line "row_num" (VInt 0))
                     "script" (VList [VStr "Hello"]))
           "voice_provider" (VStr "ElevenLabs")).

Definition scripted_voices : pyval := VDict [("fr", VList [VStr "Kore"])].

Definition scripted_run : outcome unit * VideoDubber.locals * trace :=
  Eval vm_compute in
    VideoDubber.dub_language Demo.quiet (VDict Demo.tool_config)
      Demo.output_directory scripted_voices (VStr "fr")
      (VideoDubber.entry_locals scripted_line) [].

(** A rectangular table with distinct column labels, as the readers of
    the splitter see it. *)
Definition table (header : list string) (cells : list (list string))
    : SplitterEntry.DataFrame :=
  {| SplitterEntry.column := fun name =>
       match list_find (fun label => label = name) header with
       | Some (i, _) => Returned (map (fun row => nth i row "") cells)
       | None =>
           Raised (Exn "AttributeError"
                     ("'DataFrame' object has no attribute '" +:+ name +:+ "'"))
       end;
     SplitterEntry.iterrows :=
       map (fun row => list_to_map (zip header row)) cells |}.

(** The sheet of the tool settings; [DUBBING_CONFIG] is given twice. *)
Definition variable_column : list string :=
  [ "AI_STUDIO_API_KEY"; "DUBBING_CONFIG"; "HUGGING_FACE_ACCESS_TOKEN";
    "ELEVEN_LABS_API_KEY"; "DUBBING_CONFIG" ].
Definition value_column : list string := [ "k1"; "Drafts"; "h1"; "e1"; "Jobs" ].

Definition settings_sheet : SplitterEntry.DataFrame :=
  table ["variable"; "value"]
    (zip_with (fun k v => [k; v]) variable_column value_column).

Definition settings : dict pyval :=
  Eval vm_compute in
    match SplitterEntry._read_tool_config_from_google_sheet [] settings_sheet
    with
    | Returned config => config
    | Raised _ => []
    end.

(** The sheet "Jobs", with two rows. *)
Definition jobs_sheet : SplitterEntry.DataFrame :=
  table [ "video_url"; "target_language"; "output_bucket";
          "output_naming_convention" ]
    [ [ "bkt/in.mp4"; "['fr']"; "out"; "{target_language}" ];
      [ "bkt/ads/spot.mp4"; "['fr', 'de']"; "out"; "{target_language}" ] ].

Definition read_sheet (_ : trace) (url worksheet_name : pyval)
    : outcome SplitterEntry.DataFrame :=
  if Demo.pyval_is_str worksheet_name "Config" then Returned settings_sheet
  else if Demo.pyval_is_str worksheet_name "Jobs" then Returned jobs_sheet
  else Raised (Exn "WorksheetNotFound" (Demo.repr worksheet_name)).

Definition splitter_environ : dict string :=
  [ ("PROJECT_ID", "proj"); ("REGION", "europe-west1");
    ("SERVICE_ACCOUNT", "ariel@proj.iam.gserviceaccount.com");
    ("DEPLOYMENT_NAME", "ariel"); ("PUBSUB_TOPIC", "ariel-jobs") ].

Definition splitter_request : pyval :=
  VDict [ ("worksheet_url", Demo.worksheet_url);
          ("tool_config_sheet_name", VStr "Config") ].

Definition no_credentials : exn :=
  Exn "DefaultCredentialsError"
    "Your default credentials were not found.".

(** Everything works, but no publisher client can be created. *)
Definition no_publisher : World :=
  {| ast_literal_eval := ast_literal_eval Demo.quiet;
     json_loads := json_loads Demo.quiet;
     py_int := py_int Demo.quiet;
     py_float := py_float Demo.quiet;
     py_repr := py_repr Demo.quiet;
     str_format := str_format Demo.quiet;
     b64decode_utf8 := b64decode_utf8 Demo.quiet;
     datetime_now := datetime_now Demo.quiet;
     publisher_client := fun _ => Raised no_credentials;
     pubsub_publish := pubsub_publish Demo.quiet;
     authorize := authorize Demo.quiet;
     sheet_worksheet := sheet_worksheet Demo.quiet;
     sheet_update := sheet_update Demo.quiet;
     gfile_exists := gfile_exists Demo.quiet;
     gfile_makedirs := gfile_makedirs Demo.quiet;
     gcs_download := gcs_download Demo.quiet;
     gcs_upload := gcs_upload Demo.quiet;
     dubber_init := dubber_init Demo.quiet;
     dubber_dub_ad_from_script := dubber_dub_ad_from_script Demo.quiet;
     dubber_dub_ad := dubber_dub_ad Demo.quiet;
     dubber_video_file := dubber_video_file Demo.quiet;
     dubber_clean_up := dubber_clean_up Demo.quiet |}.

End Cases.

(* ===================================================================== *)
(** ** Running the monad *)
(* ===================================================================== *)

Lemma bind_returned {L A B} (m : M L A) (k : A → M L B) l t a l' t' :
  m l t = (Returned a, l', t') → bind m k l t = k a l' t'.
Proof. unfold bind. by intros ->. Qed.

Lemma bind_raised {L A B} (m : M L A) (k : A → M L B) l t e l' t' :
  m l t = (Raised e, l', t') → bind m k l t = (Raised e, l', t').
Proof. unfold bind. by intros ->. Qed.

(** A computation that returns under [bind] has returned in both parts. *)
Lemma bind_returned_inv {L A B} (m : M L A) (k : A → M L B) l t b l2 t2 :
  bind m k l t = (Returned b, l2, t2) →
  ∃ a l1 t1, m l t = (Returned a, l1, t1) ∧ k a l1 t1 = (Returned b, l2, t2).
Proof.
  unfold bind. destruct (m l t) as [[[a|e] l1] t1]; [eauto | done].
Qed.

(* ===================================================================== *)
(** ** Facts about dictionaries *)
(* ===================================================================== *)

Lemma dict_get_set_eq {V} (d : dict V) k v :
  Dict.get (Dict.set d k v) k = Some v.
Proof.
  induction d as [|[k' v'] d IH]; simpl.
  - by rewrite String.eqb_refl.
  - destruct (String.eqb k' k) eqn:E; simpl; rewrite E; done.
Qed.

Lemma dict_get_set_ne {V} (d : dict V) k k' v :
  k ≠ k' → Dict.get (Dict.set d k v) k' = Dict.get d k'.
Proof.
  intros Hne. induction d as [|[k0 v0] d IH]; simpl.
  - destruct (String.eqb k k') eqn:E; [|done].
    apply String.eqb_eq in E. done.
  - destruct (String.eqb k0 k) eqn:E; simpl.
    + apply String.eqb_eq in E. subst k0.
      destruct (String.eqb k k') eqn:E'; [|done].
      apply String.eqb_eq in E'. done.
    + by rewrite IH.
Qed.

Lemma dict_set_fresh {V} (d : dict V) k v :
  k ∉ Dict.keys d → Dict.set d k v = d ++ [(k, v)].
Proof.
  induction d as [|[k' v'] d IH]; simpl; [done|].
  rewrite not_elem_of_cons. intros [Hne Hnot].
  destruct (String.eqb k' k) eqn:E.
  - apply String.eqb_eq in E. congruence.
  - by rewrite IH.
Qed.

(* ===================================================================== *)
(** ** The merge of a sheet record with the default template *)
(* ===================================================================== *)

Lemma merge_fold (f : string → pyval) (ks : list string) (acc : dict pyval) :
  NoDup ks → (∀ k, k ∈ ks → k ∉ Dict.keys acc) →
  fold_left (fun line k => Dict.set line k (f k)) ks acc
  = acc ++ map (fun k => (k, f k)) ks.
Proof.
  revert acc. induction ks as [|k ks IH]; intros acc Hnd Hfresh; simpl.
  - by rewrite app_nil_r.
  - apply NoDup_cons in Hnd as [Hk Hnd].
    rewrite dict_set_fresh by (apply Hfresh; left).
    rewrite IH; [by rewrite <- app_assoc | done |].
    intros k' Hk'. unfold Dict.keys. rewrite map_app. simpl.
    rewrite elem_of_app, list_elem_of_singleton.
    intros [Hin | ->]; [|done].
    eapply Hfresh; [right; exact Hk' | exact Hin].
Qed.

(** On a template without repeated keys the merged line has the keys of
    the template, in its order, each with its merged value. *)
Lemma merge_line_map (D : dict pyval) (R : gmap string string) :
  NoDup (Dict.keys D) →
  Splitter.merge_line D R
  = map (fun kv => (kv.1, Splitter.merged_value D R kv.1)) D.
Proof.
  intros Hnd. unfold Splitter.merge_line.
  rewrite merge_fold; [| done | intros; apply not_elem_of_nil].
  simpl. unfold Dict.keys. by rewrite map_map.
Qed.

Lemma dict_get_map_values {V} (f : string → V) (D : dict V) k :
  Dict.get (map (fun kv => (kv.1, f kv.1)) D) k
  = (fun _ => f k) <$> Dict.get D k.
Proof.
  induction D as [|[k' v'] D IH]; simpl; [done|].
  destruct (String.eqb k' k) eqn:E; [|done].
  apply String.eqb_eq in E. by subst.
Qed.

Lemma dict_get_elem {V} (D : dict V) k d :
  NoDup (Dict.keys D) → (k, d) ∈ D → Dict.get D k = Some d.
Proof.
  induction D as [|[k' d'] D IH]; simpl; intros Hnd Hin.
  - by apply elem_of_nil in Hin.
  - apply NoDup_cons in Hnd as [Hk' Hnd].
    apply elem_of_cons in Hin as [Heq | Hin].
    + injection Heq as <- <-. by rewrite String.eqb_refl.
    + destruct (String.eqb k' k) eqn:E; [|by apply IH].
      apply String.eqb_eq in E. subst k'. exfalso. apply Hk'.
      unfold Dict.keys. apply list_elem_of_fmap. by exists (k, d).
Qed.

Lemma default_keys_NoDup : NoDup (Dict.keys Splitter.DEFAULT_DUBBING_CONFIG).
Proof. apply (bool_decide_unpack (NoDup _)). vm_compute. exact I. Qed.

(** C3.  Merging a sheet record [R] with the default template: every key
    of the template gets the cell of [R] when [R] has that column and the
    cell is not empty, and the template's value otherwise; no other key
    appears, whatever columns [R] has; the keys keep the template's order;
    and the empty record gives back the template. *)
Theorem merge_with_default_template (R : gmap string string) :
  let D := Splitter.DEFAULT_DUBBING_CONFIG in
  let line := Splitter.merge_line D R in
  (∀ k d, Dict.get D k = Some d →
     Dict.get line k
     = Some (match R !! k with
             | Some cell => if decide (cell = "") then d else VStr cell
             | None => d
             end))
  ∧ (∀ k, Dict.get D k = None → Dict.get line k = None)
  ∧ Dict.keys line = Dict.keys D
  ∧ Splitter.merge_line D ∅ = D.
Proof.
  intros D line. subst line.
  rewrite (merge_line_map D R default_keys_NoDup).
  split; [|split; [|split]].
  - intros k d Hd. rewrite dict_get_map_values, Hd. simpl. f_equal.
    unfold Splitter.merged_value. rewrite Hd.
    destruct (R !! k) as [cell|]; [|done]. simpl.
    destruct (decide (cell = "")) as [->|Hne]; [done|].
    apply String.eqb_neq in Hne. by rewrite Hne.
  - intros k Hk. by rewrite dict_get_map_values, Hk.
  - unfold Dict.keys. rewrite map_map. done.
  - rewrite (merge_line_map D ∅ default_keys_NoDup).
    transitivity (map (fun kv : string * pyval => kv) D); [|apply map_id].
    apply map_ext_in. intros [k d] Hin. simpl.
    unfold Splitter.merged_value. rewrite lookup_empty.
    apply list_elem_of_In in Hin.
    by rewrite (dict_get_elem D k d default_keys_NoDup Hin).
Qed.

(** The whole table: one merged line per row, in row order. *)
Lemma read_dubbing_config_map (D : dict pyval) (data : list (gmap string string)) :
  Splitter._read_dubbing_config_from_google_sheet D data
  = map (Splitter.merge_line D) data.
Proof.
  unfold Splitter._read_dubbing_config_from_google_sheet.
  enough (∀ acc, fold_left (fun lines row => lines ++ [Splitter.merge_line D row])
                   data acc = acc ++ map (Splitter.merge_line D) data) as H
    by apply (H []).
  induction data as [|r data IH]; intros acc; simpl.
  - by rewrite app_nil_r.
  - by rewrite IH, <- app_assoc.
Qed.

(* ===================================================================== *)
(** ** Splitter: one row *)
(* ===================================================================== *)

Section SplitterRow.
Variable W : World.

(** The status write-back of the splitter, step by step. *)
Lemma splitter_update_run {L} url name row st msg (l : L) t :
  Splitter._update_google_sheet W url name row st msg l t
  = match sheet_worksheet W t url name with
    | Raised e => (Raised e, l, t ++ [EvWorksheet url name])
    | Returned _ =>
        let values := [st; datetime_now W t; msg] in
        (sheet_update W (t ++ [EvWorksheet url name]) url name
           (status_range row) values,
         l,
         t ++ [EvWorksheet url name;
               EvSheetUpdate url name (status_range row) values])
    end.
Proof.
  unfold Splitter._update_google_sheet, bind, observe, external, lift.
  simpl. destruct (sheet_worksheet W t url name); [|done].
  simpl. by rewrite <- app_assoc.
Qed.

(** What the handler of a failed publish leaves in the history. *)
Lemma process_row_run project topic tc url row_num lc l t name :
  Dict.get tc "DUBBING_CONFIG" = Some name →
  let payload :=
    Splitter.make_payload url (Dict.set lc "row_num" (VInt row_num)) tc in
  let topic_path := Splitter.topic_path project topic in
  let t1 := t ++ [EvPublish topic_path payload] in
  Splitter.process_row W project topic tc url row_num lc l t
  = match pubsub_publish W t topic_path payload with
    | Returned _ =>
        Splitter._update_google_sheet W url name (row_num + 2)
          Splitter.STATUS_PROCESSING ""
          (Splitter.set_status Splitter.STATUS_PROCESSING
             (Splitter.set_message "" l)) t1
    | Raised e =>
        Splitter._update_google_sheet W url name (row_num + 2)
          Splitter.STATUS_FAILED (Splitter.error_message e)
          (Splitter.set_message (Splitter.error_message e)
             (Splitter.set_status Splitter.STATUS_FAILED
                (Splitter.set_status Splitter.STATUS_PROCESSING
                   (Splitter.set_message "" l))))
          (t1 ++ Splitter.failure_log url e)
    end.
Proof.
  intros Hname payload topic_path t1.
  unfold Splitter.process_row, Splitter._publish_pubsub.
  unfold try_finally, try_except, bind, modify, external, emit, lift, read_var,
    ret, getitem.
  rewrite Hname. fold payload topic_path t1.
  destruct (pubsub_publish W t topic_path payload) as [[]|e]; simpl.
  - destruct (Splitter._update_google_sheet W url name (row_num + 2)
                Splitter.STATUS_PROCESSING "" _ t1) as [[[[]|e'] l'] t'];
      reflexivity.
  - unfold Splitter.failure_log. rewrite <- !app_assoc. simpl.
    destruct (Splitter._update_google_sheet W url name (row_num + 2)
                Splitter.STATUS_FAILED _ _ _) as [[[[]|e'] l'] t'];
      reflexivity.
Qed.

(** With a writable sheet a row always ends normally, after one publish
    attempt and one status write. *)
Lemma process_row_writable project topic tc url row_num lc l t name :
  sheet_writable W →
  Dict.get tc "DUBBING_CONFIG" = Some name →
  let payload :=
    Splitter.make_payload url (Dict.set lc "row_num" (VInt row_num)) tc in
  let topic_path := Splitter.topic_path project topic in
  ∃ l' log st msg now,
    Splitter.process_row W project topic tc url row_num lc l t
    = (Returned tt, l',
       t ++ EvPublish topic_path payload :: log
         ++ [EvWorksheet url name;
             EvSheetUpdate url name (status_range (row_num + 2))
               [st; now; msg]])
    ∧ ((pubsub_publish W t topic_path payload = Returned tt
        ∧ log = [] ∧ st = Splitter.STATUS_PROCESSING ∧ msg = "")
       ∨ ∃ e, pubsub_publish W t topic_path payload = Raised e
              ∧ log = Splitter.failure_log url e
              ∧ st = Splitter.STATUS_FAILED
              ∧ msg = Splitter.error_message e).
Proof.
  intros [Hopen Hupd] Hname payload topic_path.
  rewrite (process_row_run _ _ _ _ _ _ _ _ _ Hname).
  fold payload topic_path.
  destruct (pubsub_publish W t topic_path payload) as [[]|e] eqn:Hp;
    rewrite splitter_update_run, Hopen; cbv zeta; rewrite Hupd.
  - eexists _, [], _, _, _. split; [|left; done].
    simpl. by rewrite <- app_assoc.
  - eexists _, (Splitter.failure_log url e), _, _, _.
    split; [|right; eauto].
    rewrite <- !app_assoc. reflexivity.
Qed.

End SplitterRow.

(* ===================================================================== *)
(** ** Splitter: all rows *)
(* ===================================================================== *)

Lemma publish_attempts_app t1 t2 :
  publish_attempts (t1 ++ t2) = publish_attempts t1 ++ publish_attempts t2.
Proof. apply omap_app. Qed.

Lemma status_writes_app t1 t2 :
  status_writes (t1 ++ t2) = status_writes t1 ++ status_writes t2.
Proof. apply omap_app. Qed.



Lemma enumerate_from_length {X} (xs : list X) i :
  List.length (enumerate_from i xs) = List.length xs.
Proof. revert i. induction xs; intros; simpl; [done | by rewrite IHxs]. Qed.

Lemma enumerate_from_lookup {X} (xs : list X) i (n : nat) x :
  xs !! n = Some x → enumerate_from i xs !! n = Some (i + Z.of_nat n, x).
Proof.
  revert i n. induction xs as [|y xs IH]; intros i [|n] H; try done.
  - simpl in *. injection H as ->. by rewrite Z.add_0_r.
  - simpl in *. rewrite (IH _ _ H). do 2 f_equal. lia.
Qed.

(** The loop over the rows, on a writable sheet: it ends normally, every
    row is handed to the publisher in order whatever the publisher
    answered on the rows before, and every row gets one status write. *)
Lemma rows_loop W project topic tc url name :
  sheet_writable W →
  Dict.get tc "DUBBING_CONFIG" = Some name →
  ∀ rows l t,
    let r := for_each rows
               (fun '(row_num, line_config) =>
                  Splitter.process_row W project topic tc url row_num
                    line_config) l t in
    result_of r = Returned tt
    ∧ publish_attempts (trace_of r)
      = publish_attempts t ++ row_payloads project topic tc url rows
    ∧ ∃ ws, status_writes (trace_of r) = status_writes t ++ ws
            ∧ Forall2 splitter_write rows ws.
Proof.
  intros Hw Hname rows. induction rows as [|[i lc] rows IH]; intros l t r.
  - subst r. simpl. rewrite !app_nil_r. split; [done|]. split; [done|].
    exists []. by rewrite app_nil_r.
  - subst r. simpl.
    destruct (process_row_writable W project topic tc url i lc l t name Hw Hname)
      as (l' & log & st & msg & now & Hrow & Hcase).
    rewrite !(bind_returned _ _ _ _ _ _ _ Hrow).
    specialize (IH l' (t ++ EvPublish (Splitter.topic_path project topic)
       (Splitter.make_payload url (Dict.set lc "row_num" (VInt i)) tc) :: log
       ++ [EvWorksheet url name;
           EvSheetUpdate url name (status_range (i + 2)) [st; now; msg]])).
    simpl in IH. destruct IH as (Hres & Hpub & ws & Hws & Hall).
    split; [exact Hres|]. split.
    + rewrite Hpub. rewrite publish_attempts_app. simpl.
      rewrite publish_attempts_app. simpl. rewrite app_nil_r.
      rewrite <- app_assoc. f_equal. simpl. f_equal.
      destruct Hcase as [(_ & -> & _) | (e & _ & -> & _)]; reflexivity.
    + exists ((status_range (i + 2), [st; now; msg]) :: ws). split.
      * rewrite Hws. rewrite status_writes_app. simpl.
        rewrite status_writes_app. simpl.
        rewrite <- app_assoc. f_equal.
        destruct Hcase as [(_ & -> & _) | (e & _ & -> & _)]; reflexivity.
      * constructor; [|exact Hall]. split; [reflexivity|]. exists now. simpl.
        destruct Hcase as [(_ & _ & -> & ->) | (e & _ & _ & -> & ->)];
          [left | right; exists e]; reflexivity.
Qed.

Lemma process_lines_run W project topic tc url config l t :
  publisher_available W →
  Splitter._process_lines W project topic tc url config l t
  = for_each (enumerate config)
      (fun '(row_num, line_config) =>
         Splitter.process_row W project topic tc url row_num line_config)
      l (t ++ [EvPublisherClient]).
Proof.
  intros Hpub. unfold Splitter._process_lines, bind, external.
  by rewrite Hpub.
Qed.

Lemma row_payloads_lookup project topic tc url (config : list (dict pyval))
    (i : nat) lc :
  config !! i = Some lc →
  row_payloads project topic tc url (enumerate config) !! i
  = Some (Splitter.topic_path project topic,
          Splitter.make_payload url
            (Dict.set lc "row_num" (VInt (Z.of_nat i))) tc).
Proof.
  intros H. unfold row_payloads, enumerate.
  rewrite list_lookup_fmap, (enumerate_from_lookup _ _ _ _ H). done.
Qed.

(* ===================================================================== *)
(** ** The calls a service took *)
(* ===================================================================== *)

Lemma published_app W h c1 c2 :
  published W h (c1 ++ c2) = published W h c1 ++ published W (h ++ c1) c2.
Proof.
  revert h. induction c1 as [|e c1 IH]; intros h; simpl.
  - by rewrite app_nil_r.
  - rewrite IH, <- !app_assoc. done.
Qed.

Lemma written_app W h c1 c2 :
  written W h (c1 ++ c2) = written W h c1 ++ written W (h ++ c1) c2.
Proof.
  revert h. induction c1 as [|e c1 IH]; intros h; simpl.
  - by rewrite app_nil_r.
  - rewrite IH, <- !app_assoc. done.
Qed.

Lemma written_none W h calls :
  status_writes calls = [] → written W h calls = [].
Proof.
  revert h. induction calls as [|e calls IH]; intros h; [done|].
  unfold status_writes in *. simpl.
  destruct e; simpl; intros H; try discriminate H; by rewrite IH.
Qed.

(** A publisher that takes every message: what was handed to it was
    published. *)
Lemma published_all W h calls :
  (∀ h' topic payload, pubsub_publish W h' topic payload = Returned tt) →
  published W h calls = publish_attempts calls.
Proof.
  intros Hall. revert h. induction calls as [|e calls IH]; intros h; [done|].
  unfold publish_attempts in *. simpl.
  destruct e; simpl; rewrite ?Hall, IH; done.
Qed.

(** A row on a writable sheet, call by call: the publish attempt, the
    log of its failure if it raised, then the worksheet and the write of
    the status, with the time read when the write-back starts; the
    sheet took the write. *)
Lemma process_row_written W project topic tc url row_num lc l t name :
  sheet_writable W →
  Dict.get tc "DUBBING_CONFIG" = Some name →
  let payload :=
    Splitter.make_payload url (Dict.set lc "row_num" (VInt row_num)) tc in
  let topic_path := Splitter.topic_path project topic in
  ∃ l' log st msg,
    let now := datetime_now W (t ++ EvPublish topic_path payload :: log) in
    let write := (status_range (row_num + 2), [st; now; msg]) in
    let calls :=
      EvPublish topic_path payload :: log
        ++ [EvWorksheet url name; EvSheetUpdate url name write.1 write.2] in
    Splitter.process_row W project topic tc url row_num lc l t
    = (Returned tt, l', t ++ calls)
    ∧ status_writes calls = [write]
    ∧ written W t calls = [write]
    ∧ match pubsub_publish W t topic_path payload with
      | Returned _ =>
          log = [] ∧ st = Splitter.STATUS_PROCESSING ∧ msg = ""
      | Raised e =>
          log = Splitter.failure_log url e
          ∧ st = Splitter.STATUS_FAILED ∧ msg = Splitter.error_message e
      end.
Proof.
  intros [Hopen Hupd] Hname payload topic_path.
  rewrite (process_row_run _ _ _ _ _ _ _ _ _ _ Hname).
  fold payload topic_path.
  destruct (pubsub_publish W t topic_path payload) as [[]|e] eqn:Hp;
    rewrite splitter_update_run, Hopen; cbv zeta; rewrite Hupd.
  - eexists _, [], _, _. simpl. rewrite <- app_assoc. simpl.
    split; [reflexivity|]. split; [reflexivity|]. rewrite Hupd.
    split; [reflexivity|done].
  - eexists _, (Splitter.failure_log url e), _, _.
    rewrite <- !app_assoc.
    split; [reflexivity|]. split; [reflexivity|]. split; [|done].
    rewrite app_comm_cons.
    rewrite written_app, (written_none W t) by reflexivity.
    simpl. by rewrite Hupd.
Qed.

(** C4, as amended.  When the publisher client can be created, the tool
    configuration names the sheet and the sheet is writable, the
    splitter hands exactly one payload per row to the publisher, in row
    order, whatever the publisher answers; the payload of the row at
    position [i] holds the worksheet URL, the tool configuration, the
    status-column layout, and the row's configuration with [row_num] set
    to [i] and every other field as it was.  When moreover no publish
    call raises, these payloads are what was published. *)
Theorem one_payload_per_row W project topic tc url name
    (config : list (dict pyval)) l t :
  publisher_available W →
  sheet_writable W →
  Dict.get tc "DUBBING_CONFIG" = Some name →
  let r := Splitter._process_lines W project topic tc url config l t in
  ∃ payloads,
    publish_attempts (trace_of r) = publish_attempts t ++ payloads
    ∧ List.length payloads = List.length config
    ∧ (∀ (i : nat) lc, config !! i = Some lc →
        ∃ lc',
          payloads !! i
          = Some (Splitter.topic_path project topic,
                  VDict [ ("worksheet_url", url);
                          ("line_config", VDict lc');
                          ("tool_config", VDict tc);
                          ("status_columns", VDict Splitter.STATUS_COLUMNS) ])
          ∧ Dict.get lc' "row_num" = Some (VInt (Z.of_nat i))
          ∧ ∀ k, k ≠ "row_num" → Dict.get lc' k = Dict.get lc k)
    ∧ ((∀ h topic' payload, pubsub_publish W h topic' payload = Returned tt) →
       published W [] (trace_of r) = published W [] t ++ payloads).
Proof.
  intros Hpub Hw Hname r. subst r.
  rewrite (process_lines_run _ _ _ _ _ _ _ _ Hpub).
  destruct (rows_loop W project topic tc url name Hw Hname (enumerate config)
              l (t ++ [EvPublisherClient])) as (_ & Hp & _).
  assert (publish_attempts
            (trace_of (for_each (enumerate config)
               (fun '(row_num, line_config) =>
                  Splitter.process_row W project topic tc url row_num
                    line_config) l (t ++ [EvPublisherClient])))
          = publish_attempts t
            ++ row_payloads project topic tc url (enumerate config)) as Hp'.
  { rewrite Hp, publish_attempts_app. simpl. by rewrite app_nil_r. }
  exists (row_payloads project topic tc url (enumerate config)).
  split; [exact Hp'|]. split; [|split].
  - unfold row_payloads, enumerate.
    by rewrite length_map, enumerate_from_length.
  - intros i lc Hi. exists (Dict.set lc "row_num" (VInt (Z.of_nat i))).
    split; [by apply row_payloads_lookup|]. split.
    + apply dict_get_set_eq.
    + intros k Hk. by apply dict_get_set_ne.
  - intros Hall. by rewrite !(published_all W [] _ Hall).
Qed.

Lemma quiet_publisher_available : publisher_available Demo.quiet.
Proof. intros t. reflexivity. Qed.

Lemma quiet_sheet_writable : sheet_writable Demo.quiet.
Proof. split; intros; reflexivity. Qed.

Lemma no_topic_publisher_available : publisher_available Demo.no_topic.
Proof. intros t. reflexivity. Qed.

Lemma no_topic_sheet_writable : sheet_writable Demo.no_topic.
Proof. split; intros; reflexivity. Qed.

Lemma one_payload_per_row_witness :
  let r := Splitter._process_lines Demo.quiet "proj" "ariel-jobs"
             Demo.tool_config Demo.worksheet_url Demo.dubbing_config
             Splitter.no_locals [] in
  ∃ payloads,
    publish_attempts (trace_of r) = publish_attempts [] ++ payloads
    ∧ List.length payloads = List.length Demo.dubbing_config
    ∧ (∀ (i : nat) lc, Demo.dubbing_config !! i = Some lc →
        ∃ lc',
          payloads !! i
          = Some (Splitter.topic_path "proj" "ariel-jobs",
                  VDict [ ("worksheet_url", Demo.worksheet_url);
                          ("line_config", VDict lc');
                          ("tool_config", VDict Demo.tool_config);
                          ("status_columns", VDict Splitter.STATUS_COLUMNS) ])
          ∧ Dict.get lc' "row_num" = Some (VInt (Z.of_nat i))
          ∧ ∀ k, k ≠ "row_num" → Dict.get lc' k = Dict.get lc k)
    ∧ published Demo.quiet [] (trace_of r)
      = published Demo.quiet [] [] ++ payloads.
Proof.
  destruct (one_payload_per_row Demo.quiet "proj" "ariel-jobs"
              Demo.tool_config Demo.worksheet_url (VStr "Jobs")
              Demo.dubbing_config Splitter.no_locals []
              quiet_publisher_available quiet_sheet_writable eq_refl)
    as (payloads & Hattempts & Hlength & Hrows & Hpublished).
  exists payloads. split; [exact Hattempts|]. split; [exact Hlength|].
  split; [exact Hrows|]. apply Hpublished. intros h topic payload.
  reflexivity.
Defined.

(** C4, as stated, fails: of the two rows below, none is handed to the
    publisher when the publisher client cannot be created; one is when
    the sheet refuses the status of the first; and when the topic is
    missing both are handed over and none is published. *)
Lemma fewer_payloads_than_rows :
  let run W :=
    trace_of (Splitter._process_lines W "proj" "ariel-jobs" Demo.tool_config
                Demo.worksheet_url Demo.dubbing_config Splitter.no_locals [])
  in
  List.length Demo.dubbing_config = 2%nat
  ∧ publish_attempts (run Cases.no_publisher) = []
  ∧ List.length (publish_attempts (run Demo.read_only_sheet)) = 1%nat
  ∧ List.length (publish_attempts (run Demo.no_topic)) = 2%nat
  ∧ published Demo.no_topic [] (run Demo.no_topic) = [].
Proof. vm_compute. repeat split. Qed.

(** C5, as amended.  When the publisher client can be created and the
    status write-backs do not raise, an exception raised while publishing
    a row is caught at that row: whatever the publisher answers on any
    row, [_process_lines] ends normally, every row is handed to the
    publisher in order, and every row gets one status write,
    [PROCESSING] or [FAILED], at sheet row [row_num + 2]. *)
Theorem publish_failure_is_isolated W project topic tc url name
    (config : list (dict pyval)) l t :
  publisher_available W →
  sheet_writable W →
  Dict.get tc "DUBBING_CONFIG" = Some name →
  let r := Splitter._process_lines W project topic tc url config l t in
  result_of r = Returned tt
  ∧ publish_attempts (trace_of r)
    = publish_attempts t ++ row_payloads project topic tc url (enumerate config)
  ∧ ∃ ws, status_writes (trace_of r) = status_writes t ++ ws
          ∧ Forall2 splitter_write (enumerate config) ws.
Proof.
  intros Hpub Hw Hname r. subst r.
  rewrite (process_lines_run _ _ _ _ _ _ _ _ Hpub).
  destruct (rows_loop W project topic tc url name Hw Hname (enumerate config)
              l (t ++ [EvPublisherClient])) as (Hr & Hp & ws & Hws & Hall).
  split; [exact Hr|]. split.
  - rewrite Hp, publish_attempts_app. simpl. by rewrite app_nil_r.
  - exists ws. split; [|exact Hall].
    rewrite Hws, status_writes_app. simpl. by rewrite app_nil_r.
Qed.

Lemma publish_failure_is_isolated_witness :
  let r := Splitter._process_lines Demo.no_topic "proj" "ariel-jobs"
             Demo.tool_config Demo.worksheet_url Demo.dubbing_config
             Splitter.no_locals [] in
  result_of r = Returned tt
  ∧ publish_attempts (trace_of r)
    = publish_attempts [] ++ row_payloads "proj" "ariel-jobs" Demo.tool_config
                               Demo.worksheet_url (enumerate Demo.dubbing_config)
  ∧ ∃ ws, status_writes (trace_of r) = status_writes [] ++ ws
          ∧ Forall2 splitter_write (enumerate Demo.dubbing_config) ws.
Proof.
  apply (publish_failure_is_isolated Demo.no_topic "proj" "ariel-jobs"
           Demo.tool_config Demo.worksheet_url (VStr "Jobs")
           Demo.dubbing_config Splitter.no_locals []).
  - exact no_topic_publisher_available.
  - exact no_topic_sheet_writable.
  - reflexivity.
Defined.

(** C5, as stated, fails: the topic is missing, so publishing row 0
    raises and is caught; the sheet is shared read-only, so the status
    write of row 0 in the [finally] block raises; that exception leaves
    the loop and the function, and row 1 is never handed to the publisher. *)
Lemma status_write_failure_stops_the_rows :
  let W := Demo.read_only_sheet in
  let r := Splitter._process_lines W "proj" "ariel-jobs" Demo.tool_config
             Demo.worksheet_url Demo.dubbing_config Splitter.no_locals [] in
  let payloads :=
    row_payloads "proj" "ariel-jobs" Demo.tool_config Demo.worksheet_url
      (enumerate Demo.dubbing_config) in
  ∃ p0 p1,
    payloads = [p0; p1]
    ∧ pubsub_publish W [EvPublisherClient] p0.1 p0.2 = Raised Demo.topic_missing
    ∧ publish_attempts (trace_of r) = [p0]
    ∧ (p1 ∉ publish_attempts (trace_of r))
    ∧ result_of r = Raised Demo.no_permission.
Proof.
  eexists _, _. split; [vm_compute; reflexivity|].
  split; [reflexivity|]. split; [vm_compute; reflexivity|]. split.
  - intros Hin. vm_compute in Hin. apply list_elem_of_singleton in Hin.
    discriminate Hin.
  - vm_compute. reflexivity.
Qed.

(** C2, as amended.  A row of the splitter, when the tool configuration
    names the sheet and the sheet is writable: the row ends normally, and
    its last call is its one status write, which the sheet takes, for
    sheet row [row_num + 2] and with the time read when the write-back
    starts.  After a publish that succeeds the write carries
    [PROCESSING] and an empty message; after a publish that raises [e]
    it follows the log of the failure and carries [FAILED] and the
    message of [e]. *)
Theorem status_after_publish W project topic tc url row_num lc l t name :
  Dict.get tc "DUBBING_CONFIG" = Some name →
  sheet_writable W →
  let payload :=
    Splitter.make_payload url (Dict.set lc "row_num" (VInt row_num)) tc in
  let publish := EvPublish (Splitter.topic_path project topic) payload in
  let r := Splitter.process_row W project topic tc url row_num lc l t in
  ∃ log st msg,
    let now := datetime_now W (t ++ publish :: log) in
    let write := (status_range (row_num + 2), [st; now; msg]) in
    let calls :=
      publish :: log
        ++ [EvWorksheet url name; EvSheetUpdate url name write.1 write.2] in
    result_of r = Returned tt
    ∧ trace_of r = t ++ calls
    ∧ status_writes calls = [write]
    ∧ written W t calls = [write]
    ∧ match pubsub_publish W t (Splitter.topic_path project topic) payload with
      | Returned _ =>
          log = [] ∧ st = Splitter.STATUS_PROCESSING ∧ msg = ""
      | Raised e =>
          log = Splitter.failure_log url e
          ∧ st = Splitter.STATUS_FAILED ∧ msg = Splitter.error_message e
      end.
Proof.
  intros Hname Hw payload publish r. subst r.
  destruct (process_row_written W project topic tc url row_num lc l t name
              Hw Hname) as (l' & log & st & msg & Hrun & Hs & Hwr & Hcase).
  exists log, st, msg. cbv zeta in *. rewrite Hrun.
  split; [reflexivity|]. split; [reflexivity|]. by split; [|split].
Qed.

Lemma status_after_publish_witness :
  let payload :=
    Splitter.make_payload Demo.worksheet_url
      (Dict.set [("video_url", VStr "bkt/in.mp4")] "row_num" (VInt 0))
      Demo.tool_config in
  let publish := EvPublish (Splitter.topic_path "proj" "ariel-jobs") payload in
  let r := Splitter.process_row Demo.no_topic "proj" "ariel-jobs"
             Demo.tool_config Demo.worksheet_url 0
             [("video_url", VStr "bkt/in.mp4")] Splitter.no_locals [] in
  ∃ log st msg,
    let now := datetime_now Demo.no_topic ([] ++ publish :: log) in
    let write := (status_range (0 + 2), [st; now; msg]) in
    let calls :=
      publish :: log
        ++ [EvWorksheet Demo.worksheet_url (VStr "Jobs");
            EvSheetUpdate Demo.worksheet_url (VStr "Jobs") write.1 write.2] in
    result_of r = Returned tt
    ∧ trace_of r = [] ++ calls
    ∧ status_writes calls = [write]
    ∧ written Demo.no_topic [] calls = [write]
    ∧ match pubsub_publish Demo.no_topic []
              (Splitter.topic_path "proj" "ariel-jobs") payload with
      | Returned _ =>
          log = [] ∧ st = Splitter.STATUS_PROCESSING ∧ msg = ""
      | Raised e =>
          log = Splitter.failure_log Demo.worksheet_url e
          ∧ st = Splitter.STATUS_FAILED ∧ msg = Splitter.error_message e
      end.
Proof.
  apply (status_after_publish Demo.no_topic "proj" "ariel-jobs"
           Demo.tool_config Demo.worksheet_url 0
           [("video_url", VStr "bkt/in.mp4")] Splitter.no_locals []
           (VStr "Jobs")).
  - reflexivity.
  - exact no_topic_sheet_writable.
Defined.

(** C2, as stated, fails: every row below is published successfully, and
    the splitter writes [PROCESSING] to the status cells of each. *)
Lemma processing_is_written_after_publish :
  let W := Demo.quiet in
  let r := Splitter._process_lines W "proj" "ariel-jobs" Demo.tool_config
             Demo.worksheet_url Demo.dubbing_config Splitter.no_locals [] in
  (∀ t topic payload, pubsub_publish W t topic payload = Returned tt)
  ∧ List.length (publish_attempts (trace_of r)) = 2%nat
  ∧ status_writes (trace_of r)
    = [ ("P2:R2", ["PROCESSING"; "2024-05-01 12:00:00"; ""]);
        ("P3:R3", ["PROCESSING"; "2024-05-01 12:00:00"; ""]) ].
Proof.
  split; [intros; reflexivity|]. split; vm_compute; reflexivity.
Qed.

(* ===================================================================== *)
(** ** Video dubber: the message of a failure, the engine's arguments *)
(* ===================================================================== *)

(** The message both stages keep for a caught exception is its text when
    the text has at least two characters, and the hint otherwise. *)
Lemma error_message_cases (e : exn) :
  VideoDubber.error_message e = Splitter.error_message e
  ∧ ((2 ≤ String.length (exn_text e))%nat →
     VideoDubber.error_message e = exn_text e)
  ∧ ((String.length (exn_text e) ≤ 1)%nat →
     VideoDubber.error_message e = SHARE_HINT).
Proof.
  unfold VideoDubber.error_message, Splitter.error_message.
  split; [done|].
  destruct (Nat.ltb_spec 1 (String.length (exn_text e))); split; intros; try done; lia.
Qed.


(** C9, at a failing input.  For the first row of the sheet, with every
    boolean setting at its default, [_configure_dubber] parses
    [adjust_speed], [clone_original_voices] and [with_verification] into
    booleans, and hands [merge_utterances] and [clean_up] to the engine
    as the texts "True" and "False": the text "False" is a true value,
    where the parse of the other settings gives false. *)
Theorem boolean_settings_passed_as_text :
  let W := Demo.quiet in
  let r :=
    VideoDubber._configure_dubber W (VDict Demo.tool_config)
      (Demo.job 0 Demo.first_line) Demo.output_directory tt [] in
  ∃ d,
    result_of r = Returned d
    ∧ Dict.get (VideoDubber.dubber_kwargs d) "adjust_speed" = Some (VBool true)
    ∧ Dict.get (VideoDubber.dubber_kwargs d) "elevenlabs_clone_voices"
      = Some (VBool false)
    ∧ Dict.get (VideoDubber.dubber_kwargs d) "with_verification"
      = Some (VBool false)
    ∧ Dict.get (VideoDubber.dubber_kwargs d) "merge_utterances"
      = Some (VStr "True")
    ∧ Dict.get (VideoDubber.dubber_kwargs d) "clean_up" = Some (VStr "False")
    ∧ truthy (VStr "False") = true
    ∧ String.eqb (str_lower "False") "true" = false.
Proof.
  eexists. split; [vm_compute; reflexivity|].
  repeat split; vm_compute; reflexivity.
Qed.

(* ===================================================================== *)
(** ** Invariants, combinator by combinator *)
(* ===================================================================== *)

Section Respects.
Context {L : Type} (P : L → trace → Prop) (Q : event → bool).
Hypothesis P_call : ∀ l t e, P l t → P l (t ++ [e]).

Lemma respects_silent {A} (m : M L A) :
  (∀ l t, locals_of (m l t) = l ∧ trace_of (m l t) = t) → respects P Q m.
Proof.
  intros H l t Hl. destruct (H l t) as [-> ->]. split; [done|].
  exists []. by rewrite app_nil_r.
Qed.

Lemma respects_ret {A} (a : A) : respects P Q (ret a).
Proof. by apply respects_silent. Qed.

Lemma respects_raise {A} e : respects P Q (@raise L A e).
Proof. by apply respects_silent. Qed.

Lemma respects_lift {A} (o : outcome A) : respects P Q (lift o).
Proof. by apply respects_silent. Qed.

Lemma respects_get_locals : respects P Q (@get_locals L).
Proof. by apply respects_silent. Qed.

Lemma respects_observe {A} (f : trace → A) : respects P Q (observe f).
Proof. by apply respects_silent. Qed.

Lemma respects_consult {A} (f : trace → outcome A) : respects P Q (consult f).
Proof. by apply respects_silent. Qed.

Lemma respects_read_var {A} name (proj : L → option A) :
  respects P Q (read_var name proj).
Proof.
  apply respects_silent. intros l t. unfold read_var. by destruct (proj l).
Qed.

Lemma respects_modify (f : L → L) :
  (∀ l t, P l t → P (f l) t) → respects P Q (modify f).
Proof.
  intros H l t Hl. split; [by apply H|]. exists []. by rewrite app_nil_r.
Qed.

Lemma respects_external {A} e (answer : trace → outcome A) :
  Q e = true → respects P Q (external e answer).
Proof.
  intros He l t Hl. split; [by apply P_call|]. exists [e]. simpl.
  by rewrite He.
Qed.

Lemma respects_emit e : Q e = true → respects P Q (emit e).
Proof.
  intros He l t Hl. split; [by apply P_call|]. exists [e]. simpl.
  by rewrite He.
Qed.

Lemma respects_bind {A B} (m : M L A) (k : A → M L B) :
  respects P Q m → (∀ a, respects P Q (k a)) → respects P Q (bind m k).
Proof.
  intros Hm Hk l t Hl. unfold bind.
  destruct (Hm l t Hl) as (Hl1 & calls1 & Ht1 & Hq1).
  destruct (m l t) as [[[a|e] l1] t1]; simpl in *.
  - destruct (Hk a l1 t1 Hl1) as (Hl2 & calls2 & Ht2 & Hq2).
    split; [done|]. exists (calls1 ++ calls2).
    rewrite Ht2, Ht1, <- app_assoc, forallb_app, Hq1, Hq2. done.
  - split; [done|]. eauto.
Qed.

Lemma respects_try_except {A} (body : M L A) handler :
  respects P Q body → (∀ e, respects P Q (handler e)) →
  respects P Q (try_except body handler).
Proof.
  intros Hm Hk l t Hl. unfold try_except.
  destruct (Hm l t Hl) as (Hl1 & calls1 & Ht1 & Hq1).
  destruct (body l t) as [[[a|e] l1] t1]; simpl in *.
  - split; [done|]. eauto.
  - destruct (Hk e l1 t1 Hl1) as (Hl2 & calls2 & Ht2 & Hq2).
    split; [done|]. exists (calls1 ++ calls2).
    rewrite Ht2, Ht1, <- app_assoc, forallb_app, Hq1, Hq2. done.
Qed.

Lemma respects_try_finally {A} (body : M L A) final :
  respects P Q body → respects P Q final →
  respects P Q (try_finally body final).
Proof.
  intros Hm Hk l t Hl. unfold try_finally.
  destruct (Hm l t Hl) as (Hl1 & calls1 & Ht1 & Hq1).
  destruct (body l t) as [[r l1] t1]; simpl in *.
  destruct (Hk l1 t1 Hl1) as (Hl2 & calls2 & Ht2 & Hq2).
  destruct (final l1 t1) as [[[[]|e] l2] t2]; simpl in *;
    (split; [done|]); exists (calls1 ++ calls2);
    rewrite Ht2, Ht1, <- app_assoc, forallb_app, Hq1, Hq2; done.
Qed.

Lemma respects_for_each {X} (xs : list X) body :
  (∀ x, respects P Q (body x)) → respects P Q (for_each xs body).
Proof.
  intros Hb. induction xs as [|x xs IH]; simpl.
  - apply respects_ret.
  - apply respects_bind; [apply Hb | intros _; exact IH].
Qed.

End Respects.

(** One step of the proof that a computation keeps an invariant; [H]
    proves that the invariant lets any call join the history. *)
Ltac respects_step H :=
  lazymatch goal with
  | |- respects _ _ (ret _) => apply respects_ret
  | |- respects _ _ (raise _) => apply respects_raise
  | |- respects _ _ (lift _) => apply respects_lift
  | |- respects _ _ get_locals => apply respects_get_locals
  | |- respects _ _ (observe _) => apply respects_observe
  | |- respects _ _ (consult _) => apply respects_consult
  | |- respects _ _ (read_var _ _) => apply respects_read_var
  | |- respects _ _ (external _ _) =>
      apply respects_external; [exact H | reflexivity]
  | |- respects _ _ (emit _) => apply respects_emit; [exact H | reflexivity]
  | |- respects _ _ (bind _ _) => apply respects_bind; [|intros ?]
  | |- respects _ _ (try_except _ _) => apply respects_try_except; [|intros ?]
  | |- respects _ _ (try_finally _ _) => apply respects_try_finally
  | |- respects _ _ (for_each _ _) => apply respects_for_each; intros ?
  | |- respects _ _ (if ?b then _ else _) => destruct b
  | |- respects _ _ (match ?x with _ => _ end) => destruct x
  end.

(* ===================================================================== *)
(** ** Video dubber: constructing an engine *)
(* ===================================================================== *)

(** When [_configure_dubber] returns an engine, it has made the
    directory if it was missing, downloaded the video, evaluated the
    keyword arguments and constructed the engine, in that order. *)
Lemma configure_dubber_returned {L} W tc lc od (l l' : L) t t' d :
  VideoDubber._configure_dubber W tc lc od l t = (Returned d, l', t') →
  l' = l
  ∧ ∃ made bucket file path,
      (made = [] ∨ made = [EvMakedirs od])
      ∧ t' = t ++ (made ++ [EvDownload bucket file path])
               ++ [EvDubberInit (VideoDubber.dubber_kwargs d)]
      ∧ VideoDubber.eval_kwargs
          (VideoDubber.dubber_arguments W tc lc path od)
        = Returned (VideoDubber.dubber_kwargs d)
      ∧ VideoDubber.dubber_id d
        = VideoDubber.engines_constructed
            (t ++ made ++ [EvDownload bucket file path]).
Proof.
  unfold VideoDubber._configure_dubber, VideoDubber._download_file_from_gcs,
    bind, lift, observe, external, ret.
  destruct (VideoDubber.line_setting lc "video_url") as [url|]; [|done].
  destruct (as_str "split" url) as [u|]; [|done].
  set (bucket := first_part (str_split "/" u)).
  set (file := str_join "/" (List.tl (str_split "/" u))).
  set (path := od +:+ "/" +:+ last_part (str_split "/" file)).
  destruct (gfile_exists W t od); cbn [negb].
  - destruct (gcs_download W t bucket file path); [|done].
    destruct (VideoDubber.eval_kwargs _) as [kw|] eqn:Hkw; [|done].
    destruct (dubber_init W _ kw); [|done].
    intros [= <- <- <-]. split; [done|].
    exists [], bucket, file, path. simpl.
    rewrite <- app_assoc. by eauto.
  - destruct (gfile_makedirs W t od); [|done].
    destruct (gcs_download W _ bucket file path); [|done].
    destruct (VideoDubber.eval_kwargs _) as [kw|] eqn:Hkw; [|done].
    destruct (dubber_init W _ kw); [|done].
    intros [= <- <- <-]. split; [done|].
    exists [EvMakedirs od], bucket, file, path. simpl.
    rewrite <- !app_assoc. by eauto.
Qed.

(* ===================================================================== *)
(** ** Video dubber: what the body of a job keeps *)
(* ===================================================================== *)

Section JobInvariant.
Variable W : World.
Variables (tool_config worksheet_url : pyval) (output_directory : string).
Variable P : VideoDubber.locals → trace → Prop.
Hypothesis HP : job_invariant P.

Lemma inv_calls l t calls : P l t → P l (t ++ calls).
Proof.
  revert t. induction calls as [|e calls IH]; intros t Hl.
  - by rewrite app_nil_r.
  - replace (t ++ e :: calls) with ((t ++ [e]) ++ calls)
      by (by rewrite <- app_assoc).
    apply IH. by apply (inv_call P HP).
Qed.

Lemma configure_dubber_respects {L} (P' : L → trace → Prop) line_config :
  (∀ l t e, P' l t → P' l (t ++ [e])) →
  respects P' job_call
    (VideoDubber._configure_dubber W tool_config line_config output_directory).
Proof.
  intros H'.
  unfold VideoDubber._configure_dubber, VideoDubber._download_file_from_gcs.
  repeat respects_step H'.
Qed.

Lemma line_item_respects k : respects P job_call (VideoDubber.line_item k).
Proof.
  unfold VideoDubber.line_item. repeat respects_step (inv_call P HP).
Qed.

Lemma set_line_item_respects k v :
  k ≠ "row_num" → respects P job_call (VideoDubber.set_line_item k v).
Proof.
  intros Hk l t Hl. unfold VideoDubber.set_line_item, bind, get_locals, lift,
    modify.
  destruct (py_setitem (VideoDubber.line_config l) k v) as [c|e] eqn:Hc;
    simpl; (split; [|exists []; by rewrite app_nil_r]); [|done].
  by eapply (inv_line P HP).
Qed.

Lemma upload_output_respects d :
  respects P job_call (VideoDubber.upload_output W d).
Proof.
  unfold VideoDubber.upload_output, VideoDubber._build_file_name,
    VideoDubber._upload_file_to_gcs.
  repeat first [ apply line_item_respects
               | apply respects_modify; apply (inv_path P HP)
               | respects_step (inv_call P HP) ].
Qed.

(** Constructing an engine and binding [dubber] to it. *)
Lemma configure_and_bind_respects {A} line_config
    (rest : VideoDubber.Dubber → M VideoDubber.locals A) :
  (∀ d, respects P job_call (rest d)) →
  respects P job_call
    (bind (VideoDubber._configure_dubber W tool_config line_config
             output_directory)
       (fun d => bind (modify (VideoDubber.set_dubber d)) (fun _ => rest d))).
Proof.
  intros Hrest l t Hl.
  destruct (configure_dubber_respects P line_config (inv_call P HP) l t Hl)
    as (Hl1 & calls1 & Ht1 & Hq1).
  destruct (VideoDubber._configure_dubber W tool_config line_config
              output_directory l t) as [[[d|e] l1] t1] eqn:Hrun;
    simpl in Hl1, Ht1.
  2:{ rewrite !(bind_raised _ _ _ _ _ _ _ Hrun). simpl. split; [done|eauto]. }
  rewrite !(bind_returned _ _ _ _ _ _ _ Hrun).
  destruct (configure_dubber_returned _ _ _ _ _ _ _ _ _ Hrun)
    as (-> & made & bucket & file & path & _ & Ht1' & _ & _).
  assert (P (VideoDubber.set_dubber d l) t1) as Hl2.
  { rewrite Ht1', app_assoc. apply (inv_dubber P HP).
    by apply inv_calls. }
  destruct (Hrest d _ _ Hl2) as (Hl3 & calls3 & Ht3 & Hq3).
  unfold bind, modify. split; [done|]. exists (calls1 ++ calls3).
  rewrite Ht3, Ht1, <- app_assoc, forallb_app, Hq1, Hq3. done.
Qed.

Lemma dub_language_respects voices language :
  respects P job_call
    (VideoDubber.dub_language W tool_config output_directory voices language).
Proof.
  unfold VideoDubber.dub_language, VideoDubber.dub_from_script,
    VideoDubber._dub_ad_from_script_elevenlabs,
    VideoDubber._dub_ad_from_script_google.
  repeat first [ apply line_item_respects
               | apply set_line_item_respects; discriminate
               | apply upload_output_respects
               | apply configure_and_bind_respects; intros ?
               | apply respects_modify;
                 first [ apply (inv_status P HP) | apply (inv_message P HP) ]
               | respects_step (inv_call P HP) ].
Qed.

Lemma dub_all_respects :
  respects P job_call (VideoDubber.dub_all W tool_config output_directory).
Proof.
  unfold VideoDubber.dub_all.
  repeat first [ apply line_item_respects
               | apply set_line_item_respects; discriminate
               | apply dub_language_respects
               | respects_step (inv_call P HP) ].
Qed.

End JobInvariant.

Lemma job_invariant_and P1 P2 :
  job_invariant P1 → job_invariant P2 →
  job_invariant (fun l t => P1 l t ∧ P2 l t).
Proof.
  intros H1 H2. split.
  - intros l t e [? ?]. split; by apply inv_call.
  - intros l t [? ?]. split; by apply inv_status.
  - intros m l t [? ?]. split; by apply inv_message.
  - intros p l t [? ?]. split; by apply inv_path.
  - intros l t k v c [? ?] Hk Hc. split; by eapply inv_line.
  - intros d l t [? ?]. split; by apply inv_dubber.
Qed.

Lemma status_ok_invariant : job_invariant status_ok.
Proof. split; unfold status_ok; intros; done. Qed.

Lemma row_num_invariant v : job_invariant (row_num_is v).
Proof.
  split; unfold row_num_is; try (intros; done).
  intros l t k x c Hrow Hk Hset.
  destruct l as [paths st msg dub lc]. simpl in *.
  destruct lc; try done. simpl in *. injection Hset as <-.
  simpl. unfold getitem in *. by rewrite dict_get_set_ne.
Qed.

(* ===================================================================== *)
(** ** Video dubber: the three phases of a job *)
(* ===================================================================== *)

Section Phases.
Variable W : World.
Variables (tool_config worksheet_url : pyval) (output_directory : string).

Lemma clean_up_phase_run l t :
  VideoDubber.clean_up_phase W l t
  = (Returned tt, l, t ++ clean_up_call (VideoDubber.dubber l)).
Proof.
  unfold VideoDubber.clean_up_phase, try_except, bind, get_locals, raise,
    external, ret, clean_up_call.
  destruct (VideoDubber.dubber l) as [d|]; simpl.
  - by destruct (dubber_clean_up W t (VideoDubber.dubber_id d)) as [[]|].
  - by rewrite app_nil_r.
Qed.

Lemma on_error_run e l t :
  VideoDubber.on_error worksheet_url e l t
  = (Returned tt, failed_locals e l,
     t ++ VideoDubber.failure_log worksheet_url e).
Proof.
  unfold VideoDubber.on_error, bind, emit, modify, failed_locals,
    VideoDubber.failure_log. simpl. by rewrite <- !app_assoc.
Qed.

(** A job, phase by phase: the body keeps [status] at [STATUS_SUCCESS]
    and any invariant [P]; when it returns the job returns [OK] and the
    joined paths; when it raises [e] the job returns [FAILED] and the
    message of [e]; in both cases the clean-up follows. *)
Lemma process_line_phases P l t :
  job_invariant P → P l t → status_ok l t →
  ∃ l1 calls,
    P l1 (t ++ calls) ∧ status_ok l1 (t ++ calls)
    ∧ forallb job_call calls = true
    ∧ ((VideoDubber.dub_all W tool_config output_directory l t
        = (Returned tt, l1, t ++ calls)
        ∧ VideoDubber._process_line W tool_config worksheet_url
            output_directory l t
          = (Returned (VideoDubber.STATUS_SUCCESS,
                       str_join "," (VideoDubber.output_files_paths l1)),
             l1,
             t ++ calls ++ clean_up_call (VideoDubber.dubber l1)))
       ∨ ∃ e,
           VideoDubber.dub_all W tool_config output_directory l t
           = (Raised e, l1, t ++ calls)
           ∧ VideoDubber._process_line W tool_config worksheet_url
               output_directory l t
             = (Returned (VideoDubber.STATUS_FAILED,
                          VideoDubber.error_message e),
                failed_locals e l1,
                t ++ calls ++ VideoDubber.failure_log worksheet_url e
                  ++ clean_up_call (VideoDubber.dubber l1))).
Proof.
  intros HP Hl Hst.
  destruct (dub_all_respects W tool_config output_directory _
              (job_invariant_and _ _ HP status_ok_invariant) l t
              (conj Hl Hst)) as ([Hl1 Hst1] & calls & Ht & Hq).
  destruct (VideoDubber.dub_all W tool_config output_directory l t)
    as [[[[]|e] l1] t1] eqn:Hbody; simpl in Hl1, Hst1, Ht; subst t1;
    exists l1, calls; (split; [done|]); (split; [done|]); (split; [done|]).
  - left. split; [done|].
    unfold VideoDubber._process_line, try_finally, try_except, bind.
    rewrite Hbody, clean_up_phase_run.
    unfold VideoDubber.return_value, bind, read_var, get_locals, ret.
    unfold status_ok, locals_of in Hst1. simpl in Hst1. rewrite Hst1. simpl.
    by rewrite <- app_assoc.
  - right. exists e. split; [done|].
    unfold VideoDubber._process_line, try_finally, try_except, bind.
    rewrite Hbody, on_error_run, clean_up_phase_run.
    unfold VideoDubber.return_value, bind, read_var, get_locals, ret.
    simpl. by rewrite <- !app_assoc.
Qed.

End Phases.

Lemma job_calls_quiet calls :
  forallb job_call calls = true →
  clean_ups calls = [] ∧ status_writes calls = [].
Proof.
  induction calls as [|e calls IH]; [done|]. simpl.
  intros [He Hq]%andb_prop. destruct (IH Hq) as [IH1 IH2].
  unfold clean_ups, status_writes in *. simpl.
  destruct e; try discriminate He; simpl; by rewrite ?IH1, ?IH2.
Qed.

Lemma entry_status_ok lc t : status_ok (VideoDubber.entry_locals lc) t.
Proof. reflexivity. Qed.

(** The answer of [dubber.clean_up()] does not reach the job. *)
Lemma process_line_any_clean_up W tc url od l t clean_up :
  VideoDubber._process_line (with_clean_up W clean_up) tc url od l t
  = VideoDubber._process_line W tc url od l t.
Proof.
  assert (try_finally
            (try_except (VideoDubber.dub_all (with_clean_up W clean_up) tc od)
               (VideoDubber.on_error url))
            (VideoDubber.clean_up_phase (with_clean_up W clean_up)) l t
          = try_finally
              (try_except (VideoDubber.dub_all W tc od)
                 (VideoDubber.on_error url))
              (VideoDubber.clean_up_phase W) l t) as Hinner.
  { unfold try_finally, try_except.
    change (VideoDubber.dub_all (with_clean_up W clean_up) tc od)
      with (VideoDubber.dub_all W tc od).
    destruct (VideoDubber.dub_all W tc od l t) as [[[[]|e] l1] t1].
    - by rewrite !clean_up_phase_run.
    - rewrite on_error_run. by rewrite !clean_up_phase_run. }
  unfold VideoDubber._process_line, bind. by rewrite Hinner.
Qed.

(* ===================================================================== *)
(** ** Video dubber: the engine bound to [dubber] *)
(* ===================================================================== *)

Lemma engines_built_app W h c1 c2 :
  engines_built W h (c1 ++ c2)
  = engines_built W h c1 ++ engines_built W (h ++ c1) c2.
Proof.
  revert h. induction c1 as [|e c1 IH]; intros h; simpl.
  - by rewrite app_nil_r.
  - rewrite IH, <- !app_assoc. done.
Qed.

Lemma engine_after_app W d0 h c1 c2 :
  engine_after W d0 h (c1 ++ c2)
  = engine_after W (engine_after W d0 h c1) (h ++ c1) c2.
Proof.
  unfold engine_after. rewrite engines_built_app, last_app.
  by destruct (last (engines_built W (h ++ c1) c2)).
Qed.

Section TracksEngine.
Variable W : World.

Lemma tracks_silent {A} (m : M VideoDubber.locals A) :
  (∀ l h, locals_of (m l h) = l ∧ trace_of (m l h) = h) → tracks_engine W m.
Proof.
  intros H l h. destruct (H l h) as [-> ->]. exists [].
  by rewrite app_nil_r.
Qed.

Lemma tracks_ret {A} (a : A) : tracks_engine W (ret a).
Proof. by apply tracks_silent. Qed.

Lemma tracks_raise {A} e : tracks_engine W (@raise VideoDubber.locals A e).
Proof. by apply tracks_silent. Qed.

Lemma tracks_lift {A} (o : outcome A) : tracks_engine W (lift o).
Proof. by apply tracks_silent. Qed.

Lemma tracks_get_locals : tracks_engine W get_locals.
Proof. by apply tracks_silent. Qed.

Lemma tracks_observe {A} (f : trace → A) : tracks_engine W (observe f).
Proof. by apply tracks_silent. Qed.

Lemma tracks_consult {A} (f : trace → outcome A) : tracks_engine W (consult f).
Proof. by apply tracks_silent. Qed.

Lemma tracks_read_var {A} name (proj : VideoDubber.locals → option A) :
  tracks_engine W (read_var name proj).
Proof.
  apply tracks_silent. intros l h. unfold read_var. by destruct (proj l).
Qed.

Lemma tracks_modify (f : VideoDubber.locals → VideoDubber.locals) :
  (∀ l, VideoDubber.dubber (f l) = VideoDubber.dubber l) →
  tracks_engine W (modify f).
Proof.
  intros H l h. exists []. rewrite app_nil_r. split; [done|]. apply H.
Qed.

Lemma tracks_external {A} e (answer : trace → outcome A) :
  VideoDubber.is_dubber_init e = false → tracks_engine W (external e answer).
Proof.
  intros He l h. exists [e]. split; [done|].
  unfold engine_after. simpl. by destruct e.
Qed.

Lemma tracks_emit e :
  VideoDubber.is_dubber_init e = false → tracks_engine W (emit e).
Proof.
  intros He l h. exists [e]. split; [done|].
  unfold engine_after. simpl. by destruct e.
Qed.

Lemma tracks_bind {A B} (m : M VideoDubber.locals A)
    (k : A → M VideoDubber.locals B) :
  tracks_engine W m → (∀ a, tracks_engine W (k a)) →
  tracks_engine W (bind m k).
Proof.
  intros Hm Hk l h. unfold bind.
  destruct (Hm l h) as (c1 & Ht1 & Hd1).
  destruct (m l h) as [[[a|e] l1] t1]; unfold locals_of, trace_of in *;
    simpl in *; [|by exists c1].
  subst t1. destruct (Hk a l1 (h ++ c1)) as (c2 & Ht2 & Hd2).
  exists (c1 ++ c2). unfold locals_of, trace_of in *.
  rewrite Ht2, Hd2, Hd1, <- app_assoc.
  split; [done|]. by rewrite engine_after_app.
Qed.

Lemma tracks_try_except {A} (body : M VideoDubber.locals A) handler :
  tracks_engine W body → (∀ e, tracks_engine W (handler e)) →
  tracks_engine W (try_except body handler).
Proof.
  intros Hm Hk l h. unfold try_except.
  destruct (Hm l h) as (c1 & Ht1 & Hd1).
  destruct (body l h) as [[[a|e] l1] t1]; unfold locals_of, trace_of in *;
    simpl in *; [by exists c1|].
  subst t1. destruct (Hk e l1 (h ++ c1)) as (c2 & Ht2 & Hd2).
  exists (c1 ++ c2). unfold locals_of, trace_of in *.
  rewrite Ht2, Hd2, Hd1, <- app_assoc.
  split; [done|]. by rewrite engine_after_app.
Qed.

Lemma tracks_for_each {X} (xs : list X) body :
  (∀ x, tracks_engine W (body x)) → tracks_engine W (for_each xs body).
Proof.
  intros Hb. induction xs as [|x xs IH]; simpl.
  - apply tracks_ret.
  - apply tracks_bind; [apply Hb | intros _; exact IH].
Qed.

(** [_configure_dubber], on both exits: the locals are untouched, and an
    engine was built if and only if the function returned it. *)
Lemma configure_dubber_engine {L} tc lc od (l : L) h :
  let r := VideoDubber._configure_dubber W tc lc od l h in
  ∃ calls,
    trace_of r = h ++ calls
    ∧ locals_of r = l
    ∧ engines_built W h calls
      = match result_of r with Returned d => [d] | Raised _ => [] end.
Proof.
  unfold VideoDubber._configure_dubber, VideoDubber._download_file_from_gcs,
    bind, lift, observe, external, ret.
  destruct (VideoDubber.line_setting lc "video_url") as [url|];
    [|exists []; by rewrite app_nil_r].
  destruct (as_str "split" url) as [u|]; [|exists []; by rewrite app_nil_r].
  set (bucket := first_part (str_split "/" u)).
  set (file := str_join "/" (List.tl (str_split "/" u))).
  set (path := od +:+ "/" +:+ last_part (str_split "/" file)).
  destruct (gfile_exists W h od); cbn [negb].
  - destruct (gcs_download W h bucket file path);
      [|by exists [EvDownload bucket file path]].
    destruct (VideoDubber.eval_kwargs _) as [kw|] eqn:Hkw;
      [|by exists [EvDownload bucket file path]].
    destruct (dubber_init W (h ++ [EvDownload bucket file path]) kw)
      eqn:Hinit;
      exists [EvDownload bucket file path; EvDubberInit kw];
      unfold result_of, locals_of, trace_of; simpl;
      rewrite Hinit, <- app_assoc; done.
  - destruct (gfile_makedirs W h od); [|by exists [EvMakedirs od]].
    destruct (gcs_download W _ bucket file path);
      [|exists [EvMakedirs od; EvDownload bucket file path];
        by rewrite <- app_assoc].
    destruct (VideoDubber.eval_kwargs _) as [kw|] eqn:Hkw;
      [|exists [EvMakedirs od; EvDownload bucket file path];
        by rewrite <- app_assoc].
    destruct (dubber_init W
                ((h ++ [EvMakedirs od]) ++ [EvDownload bucket file path]) kw)
      eqn:Hinit;
      exists [EvMakedirs od; EvDownload bucket file path; EvDubberInit kw];
      unfold result_of, locals_of, trace_of; simpl;
      rewrite Hinit, <- !app_assoc; done.
Qed.

(** Constructing an engine and binding [dubber] to it. *)
Lemma tracks_configure_and_bind {A} tc lc od
    (rest : VideoDubber.Dubber → M VideoDubber.locals A) :
  (∀ d, tracks_engine W (rest d)) →
  tracks_engine W
    (bind (VideoDubber._configure_dubber W tc lc od)
       (fun d => bind (modify (VideoDubber.set_dubber d)) (fun _ => rest d))).
Proof.
  intros Hrest l h.
  destruct (configure_dubber_engine tc lc od l h) as (c1 & Ht1 & Hl1 & Hb1).
  destruct (VideoDubber._configure_dubber W tc lc od l h)
    as [[[d|e] l1] t1] eqn:Hrun;
    unfold result_of, locals_of, trace_of in Ht1, Hl1, Hb1;
    simpl in Ht1, Hl1, Hb1; subst l1 t1.
  - rewrite (bind_returned _ _ _ _ _ _ _ Hrun). unfold bind, modify.
    destruct (Hrest d (VideoDubber.set_dubber d l) (h ++ c1))
      as (c2 & Ht2 & Hd2).
    exists (c1 ++ c2). rewrite Ht2, Hd2, <- app_assoc. split; [done|].
    rewrite engine_after_app. unfold engine_after at 3. by rewrite Hb1.
  - rewrite (bind_raised _ _ _ _ _ _ _ Hrun). exists c1.
    split; [done|]. unfold engine_after. by rewrite Hb1.
Qed.

End TracksEngine.

(** One step of the proof that a computation binds [dubber] to the
    engines it builds. *)
Ltac tracks_step :=
  lazymatch goal with
  | |- tracks_engine _ (ret _) => apply tracks_ret
  | |- tracks_engine _ (raise _) => apply tracks_raise
  | |- tracks_engine _ (lift _) => apply tracks_lift
  | |- tracks_engine _ get_locals => apply tracks_get_locals
  | |- tracks_engine _ (observe _) => apply tracks_observe
  | |- tracks_engine _ (consult _) => apply tracks_consult
  | |- tracks_engine _ (read_var _ _) => apply tracks_read_var
  | |- tracks_engine _ (modify _) => apply tracks_modify; intros ?; reflexivity
  | |- tracks_engine _ (external _ _) => apply tracks_external; reflexivity
  | |- tracks_engine _ (emit _) => apply tracks_emit; reflexivity
  | |- tracks_engine _ (bind (VideoDubber._configure_dubber _ _ _ _) _) =>
      apply tracks_configure_and_bind; intros ?
  | |- tracks_engine _ (bind _ _) => apply tracks_bind; [|intros ?]
  | |- tracks_engine _ (try_except _ _) => apply tracks_try_except; [|intros ?]
  | |- tracks_engine _ (for_each _ _) => apply tracks_for_each; intros ?
  | |- tracks_engine _ (if ?b then _ else _) => destruct b
  | |- tracks_engine _ (match ?x with _ => _ end) => destruct x
  end.

(** The body of a job and its handler bind [dubber] to every engine
    whose construction returns. *)
Lemma body_tracks_engine W tc url od :
  tracks_engine W
    (try_except (VideoDubber.dub_all W tc od) (VideoDubber.on_error url)).
Proof.
  unfold VideoDubber.dub_all, VideoDubber.on_error, VideoDubber.dub_language,
    VideoDubber.dub_from_script, VideoDubber._dub_ad_from_script_elevenlabs,
    VideoDubber._dub_ad_from_script_google, VideoDubber.upload_output,
    VideoDubber._build_file_name, VideoDubber._upload_file_to_gcs,
    VideoDubber.set_line_item, VideoDubber.line_item.
  repeat tracks_step.
Qed.

(** C7, as amended.  Every invocation of [_process_line] returns a
    status and a message, and runs its clean-up phase once, after the
    body and the handler, which never invoke [clean_up] themselves.  The
    phase invokes [clean_up] once, on the last engine whose construction
    returned during this invocation, which is the engine bound to
    [dubber]; it invokes nothing when no construction has returned, and
    [dubber] is then still [None].  Whatever [clean_up] answers, raise
    or return, the result, the locals and the history of the invocation
    are the same. *)
Theorem clean_up_phase_of_a_job W tc url od lc t :
  let r := VideoDubber._process_line W tc url od
             (VideoDubber.entry_locals lc) t in
  ∃ st msg calls,
    result_of r = Returned (st, msg)
    ∧ trace_of r
      = t ++ calls ++ clean_up_call (last (engines_built W t calls))
    ∧ clean_ups calls = []
    ∧ VideoDubber.dubber (locals_of r) = last (engines_built W t calls)
    ∧ ∀ clean_up,
        VideoDubber._process_line (with_clean_up W clean_up) tc url od
          (VideoDubber.entry_locals lc) t
        = r.
Proof.
  intros r. subst r.
  destruct (process_line_phases W tc url od (fun _ _ => True)
              (VideoDubber.entry_locals lc) t)
    as (l1 & calls & _ & _ & Hq & Hcase).
  { split; done. }
  { done. }
  { apply entry_status_ok. }
  destruct (job_calls_quiet calls Hq) as [Hclean _].
  destruct (body_tracks_engine W tc url od (VideoDubber.entry_locals lc) t)
    as (calls' & Ht & Hd).
  unfold try_except in Ht, Hd.
  destruct Hcase as [[Hbody Hrun] | (e & Hbody & Hrun)];
    rewrite Hrun; rewrite Hbody in Ht, Hd.
  - unfold locals_of, trace_of in Ht, Hd. simpl in Ht, Hd.
    apply app_inv_head in Ht. subst calls'.
    assert (VideoDubber.dubber l1 = last (engines_built W t calls)) as Hl1
      by (rewrite Hd; unfold engine_after; by destruct (last _)).
    eexists VideoDubber.STATUS_SUCCESS, _, calls. simpl. rewrite <- Hl1.
    repeat split; try done. intros.
    rewrite process_line_any_clean_up. exact Hrun.
  - rewrite on_error_run in Ht, Hd.
    unfold locals_of, trace_of in Ht, Hd. simpl in Ht, Hd.
    rewrite <- app_assoc in Ht. apply app_inv_head in Ht. subst calls'.
    assert (VideoDubber.dubber l1
            = last (engines_built W t
                      (calls ++ VideoDubber.failure_log url e))) as Hl1
      by (rewrite Hd; unfold engine_after; by destruct (last _)).
    eexists VideoDubber.STATUS_FAILED, _,
      (calls ++ VideoDubber.failure_log url e). simpl. rewrite <- Hl1.
    split; [done|]. split; [by rewrite <- !app_assoc|].
    split; [unfold clean_ups in *; by rewrite omap_app, Hclean|].
    split; [done|].
    intros. rewrite process_line_any_clean_up. exact Hrun.
Qed.

(** C7, as stated, fails: the row asks for no target language, no engine
    is constructed, and [clean_up] is never invoked. *)
Lemma no_engine_no_clean_up :
  let r := VideoDubber._process_line Demo.quiet (VDict Demo.tool_config)
             Demo.worksheet_url Demo.output_directory
             (VideoDubber.entry_locals Demo.no_language) [] in
  result_of r = Returned (VideoDubber.STATUS_SUCCESS, "")
  ∧ constructions (trace_of r) = []
  ∧ List.length (clean_ups (trace_of r)) = 0%nat
  ∧ List.length (clean_ups (trace_of r)) ≠ 1%nat.
Proof. vm_compute. repeat split; discriminate. Qed.

(* ===================================================================== *)
(** ** Video dubber: a job without target languages *)
(* ===================================================================== *)

(** C10, as amended.  When the script and the voices of the row parse
    and its target-language field parses to the empty list,
    [_process_line] returns [OK] with an empty message and leaves the
    history as it was: no directory made, no download, no engine
    constructed, no upload, and no clean-up either. *)
Theorem no_language_no_work W tc url od lc t
    raw_script script raw_voices voices raw_languages :
  py_getitem lc "script" = Returned raw_script →
  ast_literal_eval W raw_script = Returned script →
  py_getitem lc "voices" = Returned raw_voices →
  json_loads W raw_voices = Returned voices →
  py_getitem lc "target_language" = Returned raw_languages →
  ast_literal_eval W raw_languages = Returned (VList []) →
  let r := VideoDubber._process_line W tc url od
             (VideoDubber.entry_locals lc) t in
  result_of r = Returned (VideoDubber.STATUS_SUCCESS, "")
  ∧ trace_of r = t.
Proof.
  intros Hs Hs' Hv Hv' Hl Hl' r. subst r.
  destruct lc as [| | | | | |d]; try discriminate Hs.
  simpl in Hs, Hv, Hl. unfold getitem in *.
  destruct (Dict.get d "script") as [x|] eqn:Es; [|discriminate Hs].
  injection Hs as ->.
  destruct (Dict.get d "voices") as [x|] eqn:Ev; [|discriminate Hv].
  injection Hv as ->.
  destruct (Dict.get d "target_language") as [x|] eqn:El; [|discriminate Hl].
  injection Hl as ->.
  unfold VideoDubber._process_line, try_finally, try_except,
    VideoDubber.dub_all, VideoDubber.line_item, VideoDubber.set_line_item,
    bind, get_locals, lift, modify.
  simpl. unfold getitem. rewrite Es. simpl. rewrite Hs'. simpl.
  rewrite (dict_get_set_ne d "script" "voices") by discriminate.
  rewrite Ev. simpl. rewrite Hv'. simpl.
  rewrite (dict_get_set_ne d "script" "target_language") by discriminate.
  rewrite El. simpl. rewrite Hl'. simpl.
  split; reflexivity.
Qed.

Lemma no_language_no_work_witness :
  let r := VideoDubber._process_line Demo.quiet (VDict Demo.tool_config)
             Demo.worksheet_url Demo.output_directory
             (VideoDubber.entry_locals Demo.no_language) [] in
  result_of r = Returned (VideoDubber.STATUS_SUCCESS, "")
  ∧ trace_of r = [].
Proof.
  apply (no_language_no_work Demo.quiet (VDict Demo.tool_config)
           Demo.worksheet_url Demo.output_directory Demo.no_language []
           (VStr "[]") (VList []) (VStr "[]") (VList []) (VStr "[]"));
    reflexivity.
Defined.

(** C10, as stated, fails: the target-language field of the row parses
    to the empty list, its script cell holds a word that is no literal,
    and [_process_line] returns [FAILED] with the text of the parse
    error. *)
Lemma empty_language_list_with_bad_script :
  let W := Demo.quiet in
  let r := VideoDubber._process_line W (VDict Demo.tool_config)
             Demo.worksheet_url Demo.output_directory
             (VideoDubber.entry_locals Demo.bad_script) [] in
  and_then (py_getitem Demo.bad_script "target_language") (ast_literal_eval W)
  = Returned (VList [])
  ∧ py_getitem Demo.bad_script "script" = Returned (VStr "oops")
  ∧ result_of r
    = Returned (VideoDubber.STATUS_FAILED, "malformed node or string: oops")
  ∧ result_of r ≠ Returned (VideoDubber.STATUS_SUCCESS, "").
Proof. vm_compute. repeat split; discriminate. Qed.

(* ===================================================================== *)
(** ** Video dubber: a job whose languages are all dubbed *)
(* ===================================================================== *)

Lemma eval_kwargs_get args kw k v :
  VideoDubber.eval_kwargs args = Returned kw →
  Dict.get args k = Some (Returned v) →
  Dict.get kw k = Some v.
Proof.
  revert kw. induction args as [|[k' o] args IH]; intros kw; simpl; [done|].
  destruct o as [x|]; simpl; [|done].
  destruct (VideoDubber.eval_kwargs args) as [rest|]; simpl; [|done].
  intros [= <-]. simpl. destruct (String.eqb k' k).
  - by intros [= ->].
  - by apply IH.
Qed.

(** Steps of a computation that has returned. *)
Ltac returned_step :=
  match goal with
  | H : bind _ _ _ _ = (Returned _, _, _) |- _ =>
      apply bind_returned_inv in H as (? & ? & ? & ? & H)
  | H : lift _ _ _ = (Returned _, _, _) |- _ =>
      unfold lift in H; simplify_eq
  | H : modify _ _ _ = (Returned _, _, _) |- _ =>
      unfold modify in H; simplify_eq
  | H : get_locals _ _ = (Returned _, _, _) |- _ =>
      unfold get_locals in H; simplify_eq
  | H : ret _ _ _ = (Returned _, _, _) |- _ =>
      unfold ret in H; simplify_eq
  | H : observe _ _ _ = (Returned _, _, _) |- _ =>
      unfold observe in H; simplify_eq
  | H : consult _ _ _ = (Returned _, _, _) |- _ =>
      unfold consult in H; simplify_eq
  | H : external _ _ _ _ = (Returned _, _, _) |- _ =>
      unfold external in H; simplify_eq
  | H : emit _ _ _ = (Returned _, _, _) |- _ =>
      unfold emit in H; simplify_eq
  end.

Lemma upload_output_returned W d l t l' t' :
  VideoDubber.upload_output W d l t = (Returned tt, l', t') →
  ∃ bucket source destination text,
    t' = t ++ [EvUpload bucket source destination; EvPrint text]
    ∧ l' = VideoDubber.append_path
             ("gs://" +:+ py_str (py_repr W) bucket +:+ "/" +:+ destination) l.
Proof.
  unfold VideoDubber.upload_output, VideoDubber._build_file_name,
    VideoDubber._upload_file_to_gcs, VideoDubber.line_item.
  intros H. repeat returned_step.
  eexists _, _, _, _. rewrite <- app_assoc. split; reflexivity.
Qed.

Lemma setitem_getitem lc k v c :
  py_setitem lc k v = Returned c → py_getitem c k = Returned v.
Proof.
  destruct lc; try discriminate. simpl. intros [= <-]. simpl.
  unfold getitem. by rewrite dict_get_set_eq.
Qed.








(* ===================================================================== *)
(** ** Video dubber: the status of a delivered job *)
(* ===================================================================== *)

Lemma worker_update_run {L} W url name row sc st msg (l : L) t first last :
  py_getitem sc "STATUS_COLUMN" = Returned first →
  py_getitem sc "MESSAGE_COLUMN" = Returned last →
  sheet_writable W →
  VideoDubber._update_google_sheet W url name row sc st msg l t
  = (Returned tt, l,
     t ++ [EvWorksheet url name;
           EvSheetUpdate url name (worker_range W first last row)
             [st; datetime_now W t; msg]]).
Proof.
  intros Hf Hl [Hopen Hupd].
  unfold VideoDubber._update_google_sheet, bind, observe, external, lift.
  rewrite Hopen, Hf, Hl, Hupd. by rewrite <- app_assoc.
Qed.

(** A job always ends with a status and a message, [OK] or [FAILED];
    it writes no status cell itself and leaves [row_num] as it was. *)
Lemma process_line_outcome W tc url od lc t v :
  py_getitem lc "row_num" = Returned v →
  ∃ st msg l' calls,
    VideoDubber._process_line W tc url od (VideoDubber.entry_locals lc) t
    = (Returned (st, msg), l', t ++ calls)
    ∧ (st = VideoDubber.STATUS_SUCCESS ∨ st = VideoDubber.STATUS_FAILED)
    ∧ status_writes calls = []
    ∧ py_getitem (VideoDubber.line_config l') "row_num" = Returned v.
Proof.
  intros Hrow.
  destruct (process_line_phases W tc url od (row_num_is v)
              (VideoDubber.entry_locals lc) t (row_num_invariant v) Hrow
              (entry_status_ok lc t))
    as (l1 & calls & Hrow1 & _ & Hq & Hcase).
  destruct (job_calls_quiet calls Hq) as [_ Hquiet].
  assert (status_writes (clean_up_call (VideoDubber.dubber l1)) = []) as Hc
    by (by destruct (VideoDubber.dubber l1)).
  destruct Hcase as [[_ Hrun] | (e & _ & Hrun)]; rewrite Hrun.
  - eexists _, _, _, _. split; [reflexivity|]. split; [by left|].
    split; [|exact Hrow1]. by rewrite status_writes_app, Hquiet, Hc.
  - eexists _, _, _, _. split; [reflexivity|]. split; [by right|].
    split; [|exact Hrow1]. by rewrite !status_writes_app, Hquiet, Hc.
Qed.

(** The run of a delivered, well-formed job on a writable sheet. *)
Lemma run_job_delivered W data od t url tc lc sc name row first last :
  delivers W data url tc lc sc →
  addresses tc lc sc name row first last →
  (∀ t', authorize W t' = Returned tt) →
  sheet_writable W →
  ∃ st msg now l' calls lfin,
    VideoDubber._process_line W tc url od
      (VideoDubber.entry_locals lc) (t ++ [EvAuthorize])
    = (Returned (st, msg), l', (t ++ [EvAuthorize]) ++ calls)
    ∧ (st = VideoDubber.STATUS_SUCCESS ∨ st = VideoDubber.STATUS_FAILED)
    ∧ status_writes calls = []
    ∧ VideoDubber.run_job W data od VideoDubber.Run.unbound t
      = (Returned ("OK", 200), lfin,
         ((t ++ [EvAuthorize]) ++ calls)
           ++ [EvWorksheet url name;
               EvSheetUpdate url name (worker_range W first last (row + 2))
                 [st; now; msg]]).
Proof.
  intros (text & request & Hd & Hj & Hu & Htc & Hlc & Hsc)
    (Hname & Hrow & Hfirst & Hlast) Hauth Hw.
  destruct (process_line_outcome W tc url od lc (t ++ [EvAuthorize]) _ Hrow)
    as (st & msg & l' & calls & Hrun & Hst & Hquiet & Hrow').
  exists st, msg. eexists. exists l', calls. eexists.
  split; [exact Hrun|]. split; [done|]. split; [done|].
  unfold VideoDubber.run_job, VideoDubber.handle_job, try_except,
    VideoDubber.call_process_line, VideoDubber.write_status,
    bind, lift, modify, external, read_var, ret.
  rewrite Hd, Hj, Hu, Htc, Hlc, Hsc, Hauth.
  cbn -[VideoDubber._process_line VideoDubber._update_google_sheet
        VideoDubber.entry_locals].
  rewrite Hrun.
  cbn -[VideoDubber._process_line VideoDubber._update_google_sheet
        VideoDubber.entry_locals].
  rewrite Hname, Hrow'.
  cbn -[VideoDubber._process_line VideoDubber._update_google_sheet
        VideoDubber.entry_locals].
  rewrite (worker_update_run W url name (row + 2) sc st msg _ _ first last
             Hfirst Hlast Hw).
  reflexivity.
Qed.

(** A message that cannot be decoded raises before the [try] block. *)
Lemma run_job_undecodable W data od l t e :
  and_then (b64decode_utf8 W data) (json_loads W) = Raised e →
  VideoDubber.run_job W data od l t = (Raised e, l, t).
Proof.
  unfold VideoDubber.run_job, bind, lift.
  destruct (b64decode_utf8 W data) as [text|e']; simpl.
  - destruct (json_loads W text); [done|]. by intros [= ->].
  - by intros [= ->].
Qed.

(** C1, as amended.  A row gets one terminal status in these cases,
    when the sheet is writable.  In the splitter, when the tool
    configuration names the sheet and publishing the row raises [e], the
    row ends normally after one status write, which the sheet takes, for
    sheet row [row_num + 2] and with [FAILED] and the message of [e].
    In the worker, when the message decodes to a payload that names the
    sheet, the row and the status columns, and the client is authorised,
    [run] returns after one status write, its last call, which the sheet
    takes, for sheet row [row_num + 2] and with the status and the
    message that [_process_line] returned, [OK] or [FAILED].  When the
    message cannot be decoded, [run] raises before the [try] block and
    nothing is written. *)
Theorem one_terminal_status_per_row W :
  (∀ project topic tc url row_num lc l t name e,
     Dict.get tc "DUBBING_CONFIG" = Some name →
     sheet_writable W →
     pubsub_publish W t (Splitter.topic_path project topic)
       (Splitter.make_payload url (Dict.set lc "row_num" (VInt row_num)) tc)
     = Raised e →
     let r := Splitter.process_row W project topic tc url row_num lc l t in
     ∃ now calls,
       let write :=
         (status_range (row_num + 2),
          [Splitter.STATUS_FAILED; now; Splitter.error_message e]) in
       result_of r = Returned tt
       ∧ trace_of r = t ++ calls
       ∧ status_writes calls = [write]
       ∧ written W t calls = [write])
  ∧ (∀ data od t url tc lc sc name row first last,
       delivers W data url tc lc sc →
       addresses tc lc sc name row first last →
       (∀ t', authorize W t' = Returned tt) →
       sheet_writable W →
       let r := VideoDubber.run_job W data od VideoDubber.Run.unbound t in
       ∃ st msg now calls,
         let write := (worker_range W first last (row + 2), [st; now; msg]) in
         result_of (VideoDubber._process_line W tc url od
                      (VideoDubber.entry_locals lc) (t ++ [EvAuthorize]))
         = Returned (st, msg)
         ∧ (st = VideoDubber.STATUS_SUCCESS ∨ st = VideoDubber.STATUS_FAILED)
         ∧ result_of r = Returned ("OK", 200)
         ∧ trace_of r
           = t ++ calls
               ++ [EvWorksheet url name;
                   EvSheetUpdate url name write.1 write.2]
         ∧ status_writes calls = []
         ∧ written W t
             (calls ++ [EvWorksheet url name;
                        EvSheetUpdate url name write.1 write.2])
           = [write])
  ∧ (∀ data od t e,
       and_then (b64decode_utf8 W data) (json_loads W) = Raised e →
       let r := VideoDubber.run_job W data od VideoDubber.Run.unbound t in
       result_of r = Raised e ∧ trace_of r = t).
Proof.
  split; [|split].
  - intros project topic tc url row_num lc l t name e Hname Hw Hpub r.
    subst r.
    destruct (process_row_written W project topic tc url row_num lc l t name
                Hw Hname) as (l' & log & st & msg & Hrun & Hs & Hwr & Hcase).
    cbv zeta in *. rewrite Hpub in Hcase. destruct Hcase as (-> & -> & ->).
    eexists _, _. rewrite Hrun.
    split; [reflexivity|]. split; [reflexivity|]. by split.
  - intros data od t url tc lc sc name row first last Hd Ha Hauth Hw r.
    subst r.
    destruct (run_job_delivered W data od t url tc lc sc name row first last
                Hd Ha Hauth Hw)
      as (st & msg & now & l' & calls & lfin & Hline & Hst & Hquiet & Hrun).
    exists st, msg, now, (EvAuthorize :: calls). cbv zeta.
    rewrite Hline, Hrun.
    split; [done|]. split; [done|]. split; [done|].
    split; [unfold trace_of; simpl; by rewrite <- !app_assoc|].
    split; [exact Hquiet|].
    rewrite written_app, (written_none W t (EvAuthorize :: calls))
      by exact Hquiet.
    simpl. destruct Hw as [_ Hupd]. by rewrite Hupd.
  - intros data od t e He r. subst r.
    by rewrite (run_job_undecodable _ _ _ _ _ _ He).
Qed.

Lemma delivering_delivers :
  delivers Demo.delivering Demo.small_message Demo.worksheet_url
    Demo.small_tool_config Demo.small_line (VDict Splitter.STATUS_COLUMNS).
Proof.
  exists (VStr (Demo.json_dumps Demo.small_payload)), Demo.small_payload.
  repeat split; vm_compute; reflexivity.
Qed.

Lemma delivering_sheet_writable : sheet_writable Demo.delivering.
Proof. split; intros; reflexivity. Qed.

Lemma one_terminal_status_per_row_witness :
  (let r := Splitter.process_row Demo.no_topic "proj" "ariel-jobs"
              Demo.tool_config Demo.worksheet_url 0 Demo.first_line
              Splitter.no_locals [] in
   ∃ now calls,
     let write :=
       (status_range (0 + 2),
        [Splitter.STATUS_FAILED; now;
         Splitter.error_message Demo.topic_missing]) in
     result_of r = Returned tt
     ∧ trace_of r = [] ++ calls
     ∧ status_writes calls = [write]
     ∧ written Demo.no_topic [] calls = [write])
  ∧ (let r := VideoDubber.run_job Demo.delivering Demo.small_message
                Demo.output_directory VideoDubber.Run.unbound [] in
     ∃ st msg now calls,
       let write :=
         (worker_range Demo.delivering (VStr "P") (VStr "R") (0 + 2),
          [st; now; msg]) in
       result_of (VideoDubber._process_line Demo.delivering
                    Demo.small_tool_config Demo.worksheet_url
                    Demo.output_directory
                    (VideoDubber.entry_locals Demo.small_line)
                    ([] ++ [EvAuthorize]))
       = Returned (st, msg)
       ∧ (st = VideoDubber.STATUS_SUCCESS ∨ st = VideoDubber.STATUS_FAILED)
       ∧ result_of r = Returned ("OK", 200)
       ∧ trace_of r
         = [] ++ calls
             ++ [EvWorksheet Demo.worksheet_url (VStr "Jobs");
                 EvSheetUpdate Demo.worksheet_url (VStr "Jobs")
                   write.1 write.2]
       ∧ status_writes calls = []
       ∧ written Demo.delivering []
           (calls ++ [EvWorksheet Demo.worksheet_url (VStr "Jobs");
                      EvSheetUpdate Demo.worksheet_url (VStr "Jobs")
                        write.1 write.2])
         = [write])
  ∧ (let r := VideoDubber.run_job Demo.quiet (VStr "abc")
                Demo.output_directory VideoDubber.Run.unbound [] in
     result_of r = Raised Demo.padding_error ∧ trace_of r = []).
Proof.
  split; [|split].
  - apply (proj1 (one_terminal_status_per_row Demo.no_topic) "proj"
             "ariel-jobs" Demo.tool_config Demo.worksheet_url 0
             Demo.first_line Splitter.no_locals [] (VStr "Jobs")
             Demo.topic_missing).
    + reflexivity.
    + exact no_topic_sheet_writable.
    + reflexivity.
  - apply (proj1 (proj2 (one_terminal_status_per_row Demo.delivering))
             Demo.small_message Demo.output_directory [] Demo.worksheet_url
             Demo.small_tool_config Demo.small_line
             (VDict Splitter.STATUS_COLUMNS) (VStr "Jobs") 0 (VStr "P")
             (VStr "R")).
    + exact delivering_delivers.
    + repeat split.
    + intros t'. reflexivity.
    + exact delivering_sheet_writable.
  - apply (proj2 (proj2 (one_terminal_status_per_row Demo.quiet))
             (VStr "abc") Demo.output_directory [] Demo.padding_error).
    reflexivity.
Defined.

(** C1, as stated, fails: the message cannot be decoded, [run] raises
    before its [try] block, and no status is written to any row. *)
Lemma undecodable_message_gets_no_status :
  let r := VideoDubber.run Demo.quiet Demo.environ (VStr "abc") [] in
  b64decode_utf8 Demo.quiet (VStr "abc") = Raised Demo.padding_error
  ∧ r.1 = VideoDubber.Ends (Raised Demo.padding_error)
  ∧ status_writes r.2 = []
  ∧ List.length (status_writes r.2) ≠ 1%nat.
Proof. vm_compute. repeat split; discriminate. Qed.

(* ===================================================================== *)
(** ** Splitting and joining names *)
(* ===================================================================== *)

Lemma str_split_cons sep s : ∃ w ws, str_split sep s = w :: ws.
Proof.
  induction s as [|c s (w & ws & IH)]; simpl; [by eauto|].
  destruct (Ascii.eqb c sep); [by eauto|]. rewrite IH. by eauto.
Qed.

(** [sep.join(s.split(sep))] is [s]. *)
Lemma str_join_split sep s :
  str_join (String sep "") (str_split sep s) = s.
Proof.
  induction s as [|c s IH]; simpl; [done|].
  destruct (str_split_cons sep s) as (w & ws & Hs). rewrite Hs in *.
  destruct (Ascii.eqb c sep) eqn:E.
  - apply Ascii.eqb_eq in E. subst c.
    change (String sep (str_join (String sep "") (w :: ws)) = String sep s).
    by rewrite IH.
  - destruct ws as [|w' ws]; simpl in *; by rewrite <- IH.
Qed.

(** No part of [s.split(sep)] contains [sep]. *)
Lemma str_split_parts sep s w :
  w ∈ str_split sep s → str_contains (String sep "") w = false.
Proof.
  revert w. induction s as [|c s IH]; simpl; intros w Hw.
  - apply list_elem_of_singleton in Hw. by subst.
  - destruct (str_split_cons sep s) as (w0 & ws & Hs). rewrite Hs in *.
    destruct (Ascii.eqb c sep) eqn:E.
    + apply elem_of_cons in Hw as [-> | Hw]; [done | by apply IH].
    + apply elem_of_cons in Hw as [-> | Hw].
      * simpl. rewrite Ascii.eqb_sym, E. simpl.
        apply (IH w0). by left.
      * apply IH. by right.
Qed.

Lemma last_part_elem sep s : last_part (str_split sep s) ∈ str_split sep s.
Proof.
  destruct (str_split_cons sep s) as (w & ws & ->). unfold last_part.
  revert w. induction ws as [|w' ws IH]; intros w; [by left|].
  right. apply (IH w').
Qed.

Lemma str_app_assoc (a b c : string) : (a +:+ b) +:+ c = a +:+ b +:+ c.
Proof.
  induction a as [|x a IH]; [done|].
  change (String x ((a +:+ b) +:+ c) = String x (a +:+ b +:+ c)).
  by rewrite IH.
Qed.

Lemma str_join_last sep p ps :
  str_join sep (p :: ps) = last_part (p :: ps)
  ∨ ∃ stem, str_join sep (p :: ps) = stem +:+ sep +:+ last_part (p :: ps).
Proof.
  revert p. induction ps as [|q ps IH]; intros p; [by left|].
  right. change (last_part (p :: q :: ps)) with (last_part (q :: ps)).
  change (str_join sep (p :: q :: ps))
    with (p +:+ sep +:+ str_join sep (q :: ps)).
  destruct (IH q) as [-> | (stem & ->)].
  - by exists p.
  - exists (p +:+ sep +:+ stem). by rewrite !str_app_assoc.
Qed.

(** The last part of [s.split(sep)] is all of [s], or what follows its
    last [sep]. *)
Lemma last_part_suffix sep s :
  s = last_part (str_split sep s)
  ∨ ∃ stem, s = stem +:+ String sep "" +:+ last_part (str_split sep s).
Proof.
  destruct (str_split_cons sep s) as (w & ws & Hs).
  pose proof (str_join_split sep s) as Hj. rewrite Hs in *.
  destruct (str_join_last (String sep "") w ws) as [H | (stem & H)];
    rewrite Hj in H; eauto.
Qed.

(* ===================================================================== *)
(** ** Video dubber: names of files *)
(* ===================================================================== *)

(** X1.  [_build_file_name] keeps the extension of the dubbed file: the
    name it returns is the formatted naming convention, a dot, and what
    follows the last dot of the file name; a file name without a dot is
    appended whole. *)
Theorem build_file_name_extension {L} W lc name conv path (l : L) t :
  py_getitem lc "output_naming_convention" = Returned conv →
  str_format W conv lc = Returned path →
  ∃ ext,
    VideoDubber._build_file_name W lc (VStr name) l t
    = (Returned (path +:+ "." +:+ ext), l, t)
    ∧ str_contains "." ext = false
    ∧ (name = ext ∨ ∃ stem, name = stem +:+ "." +:+ ext).
Proof.
  intros Hc Hf. exists (last_part (str_split "." name)). split; [|split].
  - unfold VideoDubber._build_file_name, bind, lift, ret.
    by rewrite Hc, Hf.
  - apply (str_split_parts "." name), last_part_elem.
  - apply last_part_suffix.
Qed.

Lemma build_file_name_extension_witness :
  ∃ ext,
    VideoDubber._build_file_name Demo.quiet (Demo.job 0 Demo.first_line)
      (VStr "/tmp/ariel/dubbed.video.mp4") tt []
    = (Returned ("['fr']" +:+ "." +:+ ext), tt, [])
    ∧ str_contains "." ext = false
    ∧ ("/tmp/ariel/dubbed.video.mp4" = ext
       ∨ ∃ stem, "/tmp/ariel/dubbed.video.mp4" = stem +:+ "." +:+ ext).
Proof.
  apply (build_file_name_extension Demo.quiet (Demo.job 0 Demo.first_line)
           "/tmp/ariel/dubbed.video.mp4" (VStr "{target_language}") "['fr']"
           tt []); reflexivity.
Defined.

(** X2.  When [_configure_dubber] returns an engine for a row whose
    [video_url] is the text [url], it has made the working directory if
    and only if it was missing, then downloaded one object and
    constructed the engine.  The bucket is what precedes the first slash
    of [url] and the object name what follows it (the whole of [url] and
    the empty name when [url] has no slash); the local file is the
    working directory, a slash, and what follows the last slash of the
    object name; the engine is given that local file as [input_file]. *)
Theorem configure_dubber_download {L} W tc lc od url (l l' : L) t t' d :
  py_getitem lc "video_url" = Returned (VStr url) →
  VideoDubber._configure_dubber W tc lc od l t = (Returned d, l', t') →
  ∃ bucket blob base,
    t' = t ++ (if gfile_exists W t od then [] else [EvMakedirs od])
           ++ [EvDownload bucket blob (od +:+ "/" +:+ base);
               EvDubberInit (VideoDubber.dubber_kwargs d)]
    ∧ str_contains "/" bucket = false
    ∧ (url = bucket ∧ blob = "" ∨ url = bucket +:+ "/" +:+ blob)
    ∧ str_contains "/" base = false
    ∧ (blob = base ∨ ∃ dir, blob = dir +:+ "/" +:+ base)
    ∧ Dict.get (VideoDubber.dubber_kwargs d) "input_file"
      = Some (VStr (od +:+ "/" +:+ base)).
Proof.
  intros Hurl.
  unfold VideoDubber._configure_dubber, VideoDubber._download_file_from_gcs,
    bind, lift, observe, external, ret, VideoDubber.line_setting.
  rewrite Hurl. cbn [as_str].
  set (bucket := first_part (str_split "/" url)).
  set (blob := str_join "/" (List.tl (str_split "/" url))).
  set (base := last_part (str_split "/" blob)).
  intros Hrun. exists bucket, blob, base.
  assert (str_contains "/" bucket = false
          ∧ (url = bucket ∧ blob = "" ∨ url = bucket +:+ "/" +:+ blob))
    as [Hb Hu].
  { subst bucket blob. pose proof (str_join_split "/" url) as Hj.
    pose proof (str_split_parts "/" url) as Hp.
    destruct (str_split_cons "/" url) as (w & ws & Hs). rewrite Hs in *.
    simpl. split; [apply Hp; by left|].
    destruct ws as [|w' ws]; [left; by rewrite <- Hj | right; by rewrite <- Hj]. }
  assert (str_contains "/" base = false) as Hbase
    by apply (str_split_parts "/" blob), last_part_elem.
  pose proof (last_part_suffix "/" blob) as Hsuffix. fold base in Hsuffix.
  assert (∀ kw, VideoDubber.eval_kwargs
                  (VideoDubber.dubber_arguments W tc lc
                     (od +:+ "/" +:+ base) od) = Returned kw →
                Dict.get kw "input_file" = Some (VStr (od +:+ "/" +:+ base)))
    as Hinput.
  { intros kw Hkw. by eapply eval_kwargs_get. }
  destruct (gfile_exists W t od); cbn [negb] in Hrun.
  - destruct (gcs_download W t bucket blob _); [|done].
    destruct (VideoDubber.eval_kwargs _) as [kw|] eqn:Hkw; [|done].
    destruct (dubber_init W _ kw); [|done].
    injection Hrun as <- <- <-. simpl. rewrite <- app_assoc.
    repeat split; try done. by apply Hinput.
  - destruct (gfile_makedirs W t od); [|done].
    destruct (gcs_download W _ bucket blob _); [|done].
    destruct (VideoDubber.eval_kwargs _) as [kw|] eqn:Hkw; [|done].
    destruct (dubber_init W _ kw); [|done].
    injection Hrun as <- <- <-. simpl. rewrite <- !app_assoc.
    repeat split; try done. by apply Hinput.
Qed.

Lemma configure_dubber_download_witness :
  ∃ bucket blob base,
    trace_of Cases.first_engine_run
    = [] ++ (if gfile_exists Demo.quiet [] Demo.output_directory
             then [] else [EvMakedirs Demo.output_directory])
         ++ [EvDownload bucket blob (Demo.output_directory +:+ "/" +:+ base);
             EvDubberInit (VideoDubber.dubber_kwargs Cases.first_engine)]
    ∧ str_contains "/" bucket = false
    ∧ ("bkt/in.mp4" = bucket ∧ blob = "" ∨ "bkt/in.mp4" = bucket +:+ "/" +:+ blob)
    ∧ str_contains "/" base = false
    ∧ (blob = base ∨ ∃ dir, blob = dir +:+ "/" +:+ base)
    ∧ Dict.get (VideoDubber.dubber_kwargs Cases.first_engine) "input_file"
      = Some (VStr (Demo.output_directory +:+ "/" +:+ base)).
Proof.
  apply (configure_dubber_download Demo.quiet (VDict Demo.tool_config)
           (Demo.job 0 Demo.first_line) Demo.output_directory "bkt/in.mp4"
           tt tt [] (trace_of Cases.first_engine_run) Cases.first_engine).
  - reflexivity.
  - vm_compute. reflexivity.
Defined.

(* ===================================================================== *)
(** ** Video dubber: the start-up check and the failures of [run] *)
(* ===================================================================== *)

Lemma forallb_false_witness {A} (f : A → bool) (xs : list A) :
  forallb f xs = false → ∃ x, x ∈ xs ∧ f x = false.
Proof.
  induction xs as [|x xs IH]; simpl; [done|].
  destruct (f x) eqn:Hx; simpl.
  - intros H. destruct (IH H) as (y & Hy & Hfy). exists y.
    split; [by right | done].
  - intros _. exists x. split; [by left | done].
Qed.

(** X3.  The worker leaves at start-up, with exit code 1, exactly when
    one of the five required environment variables is missing; it has
    then made one log entry and nothing else: the message is not
    decoded and no service is called. *)
Theorem worker_start_up_check W environ data t :
  let r := VideoDubber.run W environ data t in
  (r.1 = VideoDubber.Exits 1
   ↔ ∃ k, k ∈ VideoDubber.required_elem ∧ Dict.get environ k = None)
  ∧ (r.1 = VideoDubber.Exits 1 → r.2 = t ++ [EvLog missing_environment]).
Proof.
  intros r. subst r. unfold VideoDubber.run.
  destruct (forallb (Dict.mem environ) VideoDubber.required_elem) eqn:Hall;
    simpl.
  - assert (∀ k, k ∈ VideoDubber.required_elem → Dict.get environ k ≠ None)
      as Hpresent.
    { intros k Hk. apply list_elem_of_In in Hk.
      pose proof (proj1 (forallb_forall _ _) Hall k Hk) as Hm.
      unfold Dict.mem in Hm. by destruct (Dict.get environ k). }
    destruct (Dict.get environ "OUTPUT_DIRECTORY") eqn:Hod; simpl.
    + split; [|done]. split; [done|]. intros (k & Hk & Hnone).
      by apply Hpresent in Hk.
    + exfalso. apply (Hpresent "OUTPUT_DIRECTORY"); [|done].
      unfold VideoDubber.required_elem. set_solver.
  - split; [|done]. split; [|done]. intros _.
    destruct (forallb_false_witness _ _ Hall) as (k & Hk & Hm).
    exists k. split; [done|]. unfold Dict.mem in Hm.
    by destruct (Dict.get environ k).
Qed.

(** While [status] is unbound the [except] block of [run] raises before
    it reaches the spreadsheet. *)
Lemma on_job_error_unbound W e l t :
  VideoDubber.Run.status l = None →
  ∃ e', VideoDubber.on_job_error W e l t
        = (Raised e', l, t ++ [EvPrint "traceback"]).
Proof.
  intros Hst.
  unfold VideoDubber.on_job_error, VideoDubber.write_status, bind, emit,
    read_var, lift.
  destruct (VideoDubber.Run.worksheet_url l); [|by eauto].
  destruct (VideoDubber.Run.tool_config l) as [tc|]; [|by eauto].
  destruct (py_getitem tc "DUBBING_CONFIG"); [|by eauto].
  destruct (VideoDubber.Run.line_config l) as [lc|]; [|by eauto].
  destruct (py_getitem lc "row_num") as [n|]; [|by eauto].
  destruct (to_int W n); [|by eauto].
  destruct (VideoDubber.Run.status_columns l); [|by eauto].
  rewrite Hst. by eauto.
Qed.

(** X4.  When the message decodes but a field of the payload is missing
    or the authorisation raises, so that [_process_line] is never called,
    the [except] block of [run] cannot report the failure: it raises
    itself before it reaches the spreadsheet.  [run] raises, no
    worksheet is opened and no status is written. *)
Theorem early_failure_is_not_reported W data od t text request e :
  b64decode_utf8 W data = Returned text →
  json_loads W text = Returned request →
  job_preamble W request t = Raised e →
  let r := VideoDubber.run_job W data od VideoDubber.Run.unbound t in
  (∃ e', result_of r = Raised e')
  ∧ (trace_of r = t ++ [EvPrint "traceback"]
     ∨ trace_of r = t ++ [EvAuthorize; EvPrint "traceback"]).
Proof.
  intros Hd Hj Hpre r. subst r.
  assert (∃ e' l' calls,
            VideoDubber.run_job W data od VideoDubber.Run.unbound t
            = (Raised e', l', t ++ calls)
            ∧ (calls = [EvPrint "traceback"]
               ∨ calls = [EvAuthorize; EvPrint "traceback"]))
    as (e' & l' & calls & -> & Hcalls).
  2:{ split; [by exists e'|]. simpl. by destruct Hcalls as [-> | ->]; eauto. }
  unfold VideoDubber.run_job, bind at 1 2, lift at 1 2. rewrite Hd, Hj.
  unfold try_except, VideoDubber.handle_job, job_preamble in *.
  unfold bind, lift, modify, external.
  destruct (py_getitem request "worksheet_url") as [v1|e1]; simpl in *.
  2:{ edestruct (on_job_error_unbound W e1) as (e' & ->); [|by eauto 10].
      done. }
  destruct (py_getitem request "tool_config") as [v2|e2]; simpl in *.
  2:{ edestruct (on_job_error_unbound W e2) as (e' & ->); [|by eauto 10].
      done. }
  destruct (py_getitem request "line_config") as [v3|e3]; simpl in *.
  2:{ edestruct (on_job_error_unbound W e3) as (e' & ->); [|by eauto 10].
      done. }
  destruct (py_getitem request "status_columns") as [v4|e4]; simpl in *.
  2:{ edestruct (on_job_error_unbound W e4) as (e' & ->); [|by eauto 10].
      done. }
  rewrite Hpre.
  edestruct (on_job_error_unbound W e) as (e' & ->); [done|].
  rewrite <- app_assoc. by eauto 10.
Qed.

Lemma early_failure_is_not_reported_witness :
  let r := VideoDubber.run_job Cases.decoding (VStr "e30=")
             Demo.output_directory VideoDubber.Run.unbound [] in
  (∃ e', result_of r = Raised e')
  ∧ (trace_of r = [] ++ [EvPrint "traceback"]
     ∨ trace_of r = [] ++ [EvAuthorize; EvPrint "traceback"]).
Proof.
  apply (early_failure_is_not_reported Cases.decoding (VStr "e30=")
           Demo.output_directory [] (VStr "{}") (VDict [])
           (KeyError "worksheet_url")); reflexivity.
Defined.

Lemma worker_update_attempt {L} W url name row sc st msg (l : L) t first last :
  py_getitem sc "STATUS_COLUMN" = Returned first →
  py_getitem sc "MESSAGE_COLUMN" = Returned last →
  sheet_worksheet W t url name = Returned tt →
  VideoDubber._update_google_sheet W url name row sc st msg l t
  = (sheet_update W (t ++ [EvWorksheet url name]) url name
       (worker_range W first last row) [st; datetime_now W t; msg],
     l,
     t ++ [EvWorksheet url name;
           EvSheetUpdate url name (worker_range W first last row)
             [st; datetime_now W t; msg]]).
Proof.
  intros Hf Hl Hopen.
  unfold VideoDubber._update_google_sheet, bind, observe, external, lift.
  rewrite Hopen, Hf, Hl. by rewrite <- app_assoc.
Qed.

Lemma snoc_ne {A} (xs : list A) x ys : xs ++ x :: ys ≠ xs.
Proof.
  intros H. apply (f_equal (@List.length A)) in H.
  rewrite length_app in H. simpl in H. lia.
Qed.

(** X5.  When the first write of the status raises [e] and the sheet
    accepts the next one, the [except] block of [run] writes to the same
    row again: the status that [_process_line] returned, which may be
    [OK], now with the text of [e] as its message; [run] returns
    ["Error"] and 500. *)
Theorem failed_write_is_repeated_with_the_error W data od t url tc lc sc name
    row first last e :
  delivers W data url tc lc sc →
  addresses tc lc sc name row first last →
  (∀ t', authorize W t' = Returned tt) →
  (∀ t', sheet_worksheet W t' url name = Returned tt) →
  (∀ h r v, status_writes h = status_writes t →
            sheet_update W h url name r v = Raised e) →
  (∀ h r v, status_writes h ≠ status_writes t →
            sheet_update W h url name r v = Returned tt) →
  let r := VideoDubber.run_job W data od VideoDubber.Run.unbound t in
  ∃ st msg now now',
    result_of (VideoDubber._process_line W tc url od
                 (VideoDubber.entry_locals lc) (t ++ [EvAuthorize]))
    = Returned (st, msg)
    ∧ result_of r = Returned ("Error", 500)
    ∧ status_writes (trace_of r)
      = status_writes t
        ++ [ (worker_range W first last (row + 2), [st; now; msg]);
             (worker_range W first last (row + 2), [st; now'; exn_text e]) ].
Proof.
  intros (text & request & Hd & Hj & Hu & Htc & Hlc & Hsc)
    (Hname & Hrow & Hfirst & Hlast) Hauth Hopen Hrefused Haccepted r.
  subst r.
  destruct (process_line_outcome W tc url od lc (t ++ [EvAuthorize]) _ Hrow)
    as (st & msg & l' & calls & Hrun & Hst & Hquiet & Hrow').
  assert (∃ now now' lfin tfin,
            VideoDubber.run_job W data od VideoDubber.Run.unbound t
            = (Returned ("Error", 500), lfin, tfin)
            ∧ status_writes tfin
              = status_writes t
                ++ [ (worker_range W first last (row + 2), [st; now; msg]);
                     (worker_range W first last (row + 2),
                      [st; now'; exn_text e]) ])
    as (now & now' & lfin & tfin & Hjob & Hwrites).
  2:{ exists st, msg, now, now'. by rewrite Hrun, Hjob. }
  unfold VideoDubber.run_job, VideoDubber.handle_job, try_except,
    VideoDubber.call_process_line, VideoDubber.on_job_error,
    VideoDubber.write_status, bind, lift, modify, external, emit, read_var,
    ret.
  rewrite Hd, Hj, Hu, Htc, Hlc, Hsc, Hauth.
  cbn -[VideoDubber._process_line VideoDubber._update_google_sheet
        VideoDubber.entry_locals].
  rewrite Hrun.
  cbn -[VideoDubber._process_line VideoDubber._update_google_sheet
        VideoDubber.entry_locals].
  rewrite Hname, Hrow'.
  cbn -[VideoDubber._process_line VideoDubber._update_google_sheet
        VideoDubber.entry_locals].
  rewrite (worker_update_attempt W url name (row + 2) sc st msg _ _ first last
             Hfirst Hlast (Hopen _)).
  rewrite Hrefused
    by (rewrite !status_writes_app, Hquiet; simpl; by rewrite !app_nil_r).
  cbn -[VideoDubber._process_line VideoDubber._update_google_sheet
        VideoDubber.entry_locals].
  rewrite Hname, Hrow'.
  cbn -[VideoDubber._process_line VideoDubber._update_google_sheet
        VideoDubber.entry_locals].
  rewrite (worker_update_attempt W url name (row + 2) sc st (exn_text e) _ _
             first last Hfirst Hlast (Hopen _)).
  rewrite Haccepted.
  - eexists _, _, _, _. split; [reflexivity|].
    rewrite !status_writes_app, Hquiet. simpl. rewrite !app_nil_r.
    by rewrite <- app_assoc.
  - rewrite !status_writes_app, Hquiet. simpl. rewrite !app_nil_r.
    apply snoc_ne.
Qed.

Lemma failed_write_is_repeated_with_the_error_witness :
  let W := Cases.flaky_sheet in
  let r := VideoDubber.run_job W Demo.small_message Demo.output_directory
             VideoDubber.Run.unbound [] in
  ∃ st msg now now',
    result_of (VideoDubber._process_line W Demo.small_tool_config
                 Demo.worksheet_url Demo.output_directory
                 (VideoDubber.entry_locals Demo.small_line)
                 ([] ++ [EvAuthorize]))
    = Returned (st, msg)
    ∧ result_of r = Returned ("Error", 500)
    ∧ status_writes (trace_of r)
      = status_writes []
        ++ [ (worker_range W (VStr "P") (VStr "R") (0 + 2), [st; now; msg]);
             (worker_range W (VStr "P") (VStr "R") (0 + 2),
              [st; now'; exn_text Cases.unavailable]) ].
Proof.
  apply (failed_write_is_repeated_with_the_error Cases.flaky_sheet
           Demo.small_message Demo.output_directory [] Demo.worksheet_url
           Demo.small_tool_config Demo.small_line
           (VDict Splitter.STATUS_COLUMNS) (VStr "Jobs") 0 (VStr "P")
           (VStr "R") Cases.unavailable).
  - exists (VStr (Demo.json_dumps Demo.small_payload)), Demo.small_payload.
    repeat split; vm_compute; reflexivity.
  - repeat split.
  - intros t'. reflexivity.
  - intros t'. reflexivity.
  - intros h r v Hh. simpl in *. by rewrite Hh.
  - intros h r v Hh. simpl in *. by destruct (status_writes h).
Defined.

(* ===================================================================== *)
(** ** Video dubber: a job that fails, and what a job leaves alone *)
(* ===================================================================== *)

Lemma job_calls_no_publish calls :
  forallb job_call calls = true → publish_attempts calls = [].
Proof.
  induction calls as [|e calls IH]; [done|]. simpl.
  intros [He Hq]%andb_prop. unfold publish_attempts in *. simpl.
  destruct e; try discriminate He; simpl; by rewrite IH.
Qed.

(** X6.  When the body of [_process_line] raises [e], on whichever
    language, the function still returns: the status is [FAILED] and the
    message is the text of [e], or the hint when the text has fewer than
    two characters; the paths of the files uploaded before the failure
    are not reported.  The failure is printed and logged once, and the
    clean-up phase follows. *)
Theorem failed_job_reports_the_error W tc url od lc t e :
  result_of (VideoDubber.dub_all W tc od (VideoDubber.entry_locals lc) t)
  = Raised e →
  let r := VideoDubber._process_line W tc url od
             (VideoDubber.entry_locals lc) t in
  result_of r
  = Returned (VideoDubber.STATUS_FAILED,
              if Nat.ltb 1 (String.length (exn_text e))
              then exn_text e else SHARE_HINT)
  ∧ ∃ calls,
      trace_of (VideoDubber.dub_all W tc od (VideoDubber.entry_locals lc) t)
      = t ++ calls
      ∧ trace_of r
        = t ++ calls ++ VideoDubber.failure_log url e
            ++ clean_up_call (VideoDubber.dubber (locals_of r)).
Proof.
  intros Hbody r. subst r.
  destruct (process_line_phases W tc url od (fun _ _ => True)
              (VideoDubber.entry_locals lc) t)
    as (l1 & calls & _ & _ & _ & Hcase).
  { split; done. }
  { done. }
  { apply entry_status_ok. }
  destruct Hcase as [[Hrun _] | (e' & Hrun & Hline)];
    rewrite Hrun in Hbody; [discriminate Hbody|].
  injection Hbody as ->. rewrite Hline, Hrun. split; [done|].
  exists calls. by split.
Qed.

Lemma failed_job_reports_the_error_witness :
  let W := Demo.quiet in
  let e := Exn "ValueError" "malformed node or string: oops" in
  let r := VideoDubber._process_line W (VDict Demo.tool_config)
             Demo.worksheet_url Demo.output_directory
             (VideoDubber.entry_locals Demo.bad_script) [] in
  result_of r
  = Returned (VideoDubber.STATUS_FAILED,
              if Nat.ltb 1 (String.length (exn_text e))
              then exn_text e else SHARE_HINT)
  ∧ ∃ calls,
      trace_of (VideoDubber.dub_all W (VDict Demo.tool_config)
                  Demo.output_directory
                  (VideoDubber.entry_locals Demo.bad_script) [])
      = [] ++ calls
      ∧ trace_of r
        = [] ++ calls ++ VideoDubber.failure_log Demo.worksheet_url e
             ++ clean_up_call (VideoDubber.dubber (locals_of r)).
Proof.
  apply (failed_job_reports_the_error Demo.quiet (VDict Demo.tool_config)
           Demo.worksheet_url Demo.output_directory Demo.bad_script []
           (Exn "ValueError" "malformed node or string: oops")).
  vm_compute. reflexivity.
Defined.

(** X7.  [_process_line] leaves the spreadsheet and the topic alone:
    whatever happens, it opens no worksheet cell for writing and
    publishes nothing; and although it rewrites [script] and
    [target_language] in the caller's [line_config], the entry [row_num]
    that [run] reads afterwards is the one it was given. *)
Theorem job_leaves_sheet_and_row_number W tc url od lc t :
  let r := VideoDubber._process_line W tc url od
             (VideoDubber.entry_locals lc) t in
  (∃ calls, trace_of r = t ++ calls
            ∧ status_writes calls = [] ∧ publish_attempts calls = [])
  ∧ ∀ v, py_getitem lc "row_num" = Returned v →
         py_getitem (VideoDubber.line_config (locals_of r)) "row_num"
         = Returned v.
Proof.
  intros r. subst r. split.
  - destruct (process_line_phases W tc url od (fun _ _ => True)
                (VideoDubber.entry_locals lc) t)
      as (l1 & calls & _ & _ & Hq & Hcase).
    { split; done. }
    { done. }
    { apply entry_status_ok. }
    destruct (job_calls_quiet calls Hq) as [_ Hquiet].
    pose proof (job_calls_no_publish calls Hq) as Hpub.
    assert (status_writes (clean_up_call (VideoDubber.dubber l1)) = []
            ∧ publish_attempts (clean_up_call (VideoDubber.dubber l1)) = [])
      as [Hc1 Hc2] by (by destruct (VideoDubber.dubber l1)).
    destruct Hcase as [[_ Hrun] | (e & _ & Hrun)]; rewrite Hrun;
      eexists; (split; [reflexivity|]);
      rewrite !status_writes_app, !publish_attempts_app, Hquiet, Hpub,
        Hc1, Hc2; done.
  - intros v Hrow.
    destruct (process_line_outcome W tc url od lc t v Hrow)
      as (st & msg & l' & calls & Hrun & _ & _ & Hrow').
    by rewrite Hrun.
Qed.

Lemma job_leaves_sheet_and_row_number_witness :
  let r := VideoDubber._process_line Demo.quiet (VDict Demo.tool_config)
             Demo.worksheet_url Demo.output_directory
             (VideoDubber.entry_locals Demo.two_languages) [] in
  (∃ calls, trace_of r = [] ++ calls
            ∧ status_writes calls = [] ∧ publish_attempts calls = [])
  ∧ py_getitem (VideoDubber.line_config (locals_of r)) "row_num"
    = Returned (VInt 1).
Proof.
  destruct (job_leaves_sheet_and_row_number Demo.quiet (VDict Demo.tool_config)
              Demo.worksheet_url Demo.output_directory Demo.two_languages [])
    as [Hcalls Hrow].
  split; [exact Hcalls|]. apply Hrow. reflexivity.
Defined.

(* ===================================================================== *)
(** ** Video dubber: which backend dubs a language *)
(* ===================================================================== *)

Lemma dub_calls_app t1 t2 : dub_calls (t1 ++ t2) = dub_calls t1 ++ dub_calls t2.
Proof. apply List.filter_app. Qed.

Lemma eval_kwargs_lookup args kw k o :
  VideoDubber.eval_kwargs args = Returned kw →
  Dict.get args k = Some o →
  ∃ v, o = Returned v ∧ Dict.get kw k = Some v.
Proof.
  revert kw. induction args as [|[k' o'] args IH]; intros kw; simpl; [done|].
  destruct o' as [x|]; simpl; [|done].
  destruct (VideoDubber.eval_kwargs args) as [rest|]; simpl; [|done].
  intros [= <-]. simpl. destruct (String.eqb k' k).
  - intros [= <-]. by exists x.
  - by apply IH.
Qed.

(** The attribute [use_elevenlabs] of an engine that was constructed. *)
Lemma use_elevenlabs_configured W tc lc path od d eleven :
  VideoDubber.eval_kwargs (VideoDubber.dubber_arguments W tc lc path od)
  = Returned (VideoDubber.dubber_kwargs d) →
  VideoDubber.use_elevenlabs d = Returned eleven →
  ∃ provider,
    py_getitem lc "voice_provider" = Returned provider
    ∧ py_contains "ElevenLabs" provider = Returned eleven.
Proof.
  intros Hkw Hu.
  destruct (eval_kwargs_lookup _ _ "use_elevenlabs"
              (VideoDubber.provider_setting lc "voice_provider") Hkw)
    as (v & Hv & Hget); [reflexivity|].
  unfold VideoDubber.use_elevenlabs, getitem in Hu. rewrite Hget in Hu.
  unfold VideoDubber.provider_setting, VideoDubber.line_setting in Hv.
  destruct (py_getitem lc "voice_provider") as [provider|]; [|done].
  simpl in Hv.
  destruct (py_contains VideoDubber.VOICE_PROVIDER_ELEVENLABS provider)
    as [b|] eqn:Hb; [|done].
  simpl in Hv. injection Hv as <-. simpl in Hu. injection Hu as <-.
  by exists provider.
Qed.

Lemma dub_calls_configure od made bucket file path kwargs :
  (made = [] ∨ made = [EvMakedirs od]) →
  dub_calls ((made ++ [EvDownload bucket file path])
               ++ [EvDubberInit kwargs]) = [].
Proof. by intros [-> | ->]. Qed.

(** X8.  One iteration of the loop over the target languages that ran
    to its end made exactly one dubbing call, on the engine it
    configured.  With a non-empty script the call dubs from the script,
    with the parsed [tts_params] and the voices of the language; it goes
    to ElevenLabs when the text [ElevenLabs] occurs in the line's
    [voice_provider], and to Google for every other [voice_provider].
    With an empty script the call is [dub_ad]. *)
Theorem backend_follows_voice_provider W tc od voices language l t l' t' :
  VideoDubber.dub_language W tc od voices language l t = (Returned tt, l', t') →
  ∃ d script calls,
    t' = t ++ calls
    ∧ VideoDubber.dubber l' = Some d
    ∧ py_getitem (VideoDubber.line_config l') "target_language"
      = Returned language
    ∧ py_getitem (VideoDubber.line_config l') "script" = Returned script
    ∧ if truthy script
      then ∃ provider eleven raw tts_params voice,
             py_getitem (VideoDubber.line_config l') "voice_provider"
             = Returned provider
             ∧ py_contains "ElevenLabs" provider = Returned eleven
             ∧ py_getitem (VideoDubber.line_config l') "tts_params"
               = Returned raw
             ∧ json_loads W raw = Returned tts_params
             ∧ py_index (py_repr W) voices language = Returned voice
             ∧ dub_calls calls
               = [EvDubFromScript (VideoDubber.dubber_id d)
                    (if eleven then "ElevenLabs" else "Google")
                    script tts_params voice]
      else dub_calls calls = [EvDubAd (VideoDubber.dubber_id d)].
Proof.
  unfold VideoDubber.dub_language, VideoDubber.set_line_item,
    VideoDubber.line_item.
  intros H. repeat returned_step.
  match goal with
  | Hs : py_setitem _ _ _ = Returned _ |- _ =>
      pose proof (setitem_getitem _ _ _ _ Hs) as Hlang
  end.
  simpl in *.
  match goal with
  | Hg : py_getitem _ "script" = Returned ?s |- _ =>
      rename Hg into Hscript; destruct (truthy s) eqn:Htruthy
  end; repeat returned_step;
    match goal with
    | Hc : VideoDubber._configure_dubber _ _ _ _ _ _ = _ |- _ =>
        apply configure_dubber_returned in Hc
          as (-> & made & bucket & file & dpath & Hmade & -> & Hkw & _)
    end.
  - (* from a script *)
    match goal with
    | Hu : VideoDubber.use_elevenlabs ?d = Returned ?b |- _ =>
        destruct (use_elevenlabs_configured _ _ _ _ _ _ _ Hkw Hu)
          as (provider & Hprov & Heleven)
    end.
    clear Hkw. simpl in Hprov.
    match goal with
    | Hb : (if ?b then _ else _) _ _ = _ |- _ => destruct b
    end;
      unfold VideoDubber.dub_from_script,
        VideoDubber._dub_ad_from_script_elevenlabs,
        VideoDubber._dub_ad_from_script_google, VideoDubber.line_item in *;
      repeat returned_step; simpl in *;
      repeat match goal with
             | H1 : ?a = Returned ?x, H2 : ?a = Returned ?y |- _ =>
                 rewrite H1 in H2; simplify_eq
             end;
      match goal with
      | Hu : VideoDubber.upload_output _ _ _ _ = _ |- _ =>
          apply upload_output_returned in Hu
            as (b & src & dst & text & -> & ->)
      end;
      eexists _, _, _;
      (split; [rewrite <- !app_assoc; reflexivity|]);
      (split; [reflexivity|]); (split; [eassumption|]);
      (split; [eassumption|]); simpl; rewrite Htruthy;
      eexists provider, _, _, _, _;
      (split; [exact Hprov|]); (split; [exact Heleven|]);
      (split; [eassumption|]); (split; [eassumption|]);
      (split; [eassumption|]);
      destruct Hmade as [-> | ->]; reflexivity.
  - (* without a script *)
    clear Hkw.
    match goal with
    | Hu : VideoDubber.upload_output _ _ _ _ = _ |- _ =>
        apply upload_output_returned in Hu
          as (b & src & dst & text & -> & ->)
    end.
    eexists _, _, _.
    split; [rewrite <- !app_assoc; reflexivity|].
    split; [reflexivity|]. split; [exact Hlang|].
    split; [exact Hscript|]. simpl. rewrite Htruthy.
    destruct Hmade as [-> | ->]; reflexivity.
Qed.

(* ===================================================================== *)
(** ** Splitter: reading the tool settings *)
(* ===================================================================== *)

Lemma dict_get_app {V} (d1 d2 : dict V) k :
  Dict.get (d1 ++ d2) k
  = match Dict.get d1 k with Some v => Some v | None => Dict.get d2 k end.
Proof.
  induction d1 as [|[k' v'] d1 IH]; simpl; [done|].
  by destruct (String.eqb k' k).
Qed.

(** Assigning the pairs of a list in turn: the last pair of a key wins. *)
Lemma dict_get_assignments (pairs : list (string * string)) :
  ∀ (d : dict pyval) k,
    Dict.get (fold_left (fun d kv => Dict.set d kv.1 (VStr kv.2)) pairs d) k
    = match Dict.get (rev pairs) k with
      | Some v => Some (VStr v)
      | None => Dict.get d k
      end.
Proof.
  induction pairs as [|[k0 v0] pairs IH]; intros d k; simpl; [done|].
  rewrite IH, dict_get_app. destruct (Dict.get (rev pairs) k); [done|].
  simpl. destruct (String.eqb k0 k) eqn:E.
  - apply String.eqb_eq in E. subst k0. apply dict_get_set_eq.
  - apply dict_get_set_ne. intros ->. by rewrite String.eqb_refl in E.
Qed.

Lemma set_variables_run data value :
  SplitterEntry.column data "value" = Returned value →
  ∀ variable (i : nat) d,
    (i + List.length variable ≤ List.length value)%nat →
    SplitterEntry.set_variables data
      (enumerate_from (Z.of_nat i) variable) d
    = Returned (fold_left (fun d kv => Dict.set d kv.1 (VStr kv.2))
                  (zip variable (drop i value)) d).
Proof.
  intros Hvalue. induction variable as [|k ks IH]; intros i d Hlen; [done|].
  simpl in *. rewrite Hvalue. simpl. unfold SplitterEntry.series_item.
  rewrite Nat2Z.id.
  destruct (value !! i) as [v|] eqn:Hv.
  - simpl. replace (Z.of_nat i + 1) with (Z.of_nat (S i)) by lia.
    rewrite IH by lia. rewrite (drop_S _ _ _ Hv). done.
  - apply lookup_ge_None in Hv. lia.
Qed.

(** X9.  [_read_tool_config_from_google_sheet] on a table with the
    columns [variable] and [value]: it returns, and a key of the
    returned dictionary holds the value of the last row whose variable
    is that key, whatever the rows above it said; a key that is no
    variable of the sheet keeps its entry of [default_config]. *)
Theorem tool_setting_last_row_wins data default_config variable value :
  SplitterEntry.column data "variable" = Returned variable →
  SplitterEntry.column data "value" = Returned value →
  List.length variable = List.length value →
  ∃ config,
    SplitterEntry._read_tool_config_from_google_sheet default_config data
    = Returned config
    ∧ ∀ k, Dict.get config k
           = match Dict.get (rev (zip variable value)) k with
             | Some v => Some (VStr v)
             | None => Dict.get default_config k
             end.
Proof.
  intros Hvariable Hvalue Hlen.
  unfold SplitterEntry._read_tool_config_from_google_sheet, enumerate.
  rewrite Hvariable. simpl.
  rewrite (set_variables_run data value Hvalue variable 0) by (simpl; lia).
  eexists. split; [reflexivity|]. intros k. by rewrite dict_get_assignments.
Qed.

(* ===================================================================== *)
(** ** Splitter: the entry point *)
(* ===================================================================== *)

(** X10.  How the start-up of the splitter ends.  The invocation raises
    exactly when [DEPLOYMENT_NAME] is not set: the [KeyError] of the
    name of the log, with nothing logged.  It exits with code 1 exactly
    when [DEPLOYMENT_NAME] is set and another required variable is not,
    and then the one thing it has done is to log the message of the
    check.  In every other case it returns a response. *)
Theorem splitter_start_up W read_sheet environ request t :
  let r := SplitterEntry.run W read_sheet environ request t in
  (∀ e, r.1 = VideoDubber.Ends (Raised e)
        ↔ Dict.get environ "DEPLOYMENT_NAME" = None
          ∧ e = KeyError "DEPLOYMENT_NAME")
  ∧ (Dict.get environ "DEPLOYMENT_NAME" = None → r.2 = t)
  ∧ (r.1 = VideoDubber.Exits 1
     ↔ Dict.get environ "DEPLOYMENT_NAME" ≠ None
       ∧ ∃ k, k ∈ SplitterEntry.required_elem ∧ Dict.get environ k = None)
  ∧ (r.1 = VideoDubber.Exits 1
     → r.2 = t ++ [EvLog SplitterEntry.missing_environment]).
Proof.
  intros r. subst r. unfold SplitterEntry.run, SplitterEntry.environ_item.
  destruct (Dict.get environ "DEPLOYMENT_NAME") as [name|] eqn:Hname.
  - destruct (forallb (Dict.mem environ) SplitterEntry.required_elem)
      eqn:Hall; cbn [negb].
    + assert (∃ a, result_of (SplitterEntry.answer W read_sheet environ
                                request tt t) = Returned a) as [a Ha].
      { unfold SplitterEntry.answer, SplitterEntry.on_error, try_except,
          bind, emit, ret. simpl.
        destruct (SplitterEntry.handle_request W read_sheet environ request
                    tt _) as [[[a|e] l'] t']; by eexists. }
      simpl. rewrite Ha.
      split; [intros e; split; [done | by intros [? _]]|].
      split; [done|]. split; [|done]. split; [done|].
      intros (_ & k & Hk & Hnone).
      rewrite forallb_forall in Hall.
      apply list_elem_of_In, Hall in Hk.
      unfold Dict.mem in Hk. by rewrite Hnone in Hk.
    + simpl.
      split; [intros e; split; [done | by intros [? _]]|].
      split; [done|]. split; [|done]. split; [|done].
      intros _. split; [done|].
      apply forallb_false_witness in Hall as (k & Hk & Hmem).
      exists k. split; [exact Hk|].
      unfold Dict.mem in Hmem. by destruct (Dict.get environ k).
  - simpl.
    split; [intros e; split; [by intros [= <-] | by intros [_ ->]]|].
    split; [done|]. split; [|done]. split; [done | by intros [? _]].
Qed.

(** X11.  A request the splitter cannot read: when the body is not a
    JSON object with the entries [worksheet_url] and
    [tool_config_sheet_name], the invocation answers with status 500 and
    the text of the exception after [Error], and it has contacted no
    service: it printed the request and the traceback, nothing else. *)
Theorem unreadable_request_is_answered W read_sheet environ request t e :
  forallb (Dict.mem environ) SplitterEntry.required_elem = true →
  and_then (py_getitem request "worksheet_url")
    (fun _ => py_getitem request "tool_config_sheet_name") = Raised e →
  SplitterEntry.run W read_sheet environ request t
  = (VideoDubber.Ends (Returned ("Error " +:+ exn_text e, 500)),
     t ++ [EvPrint (py_str (py_repr W) request); EvPrint "traceback"]).
Proof.
  intros Hall Hfields.
  unfold SplitterEntry.run, SplitterEntry.environ_item.
  pose proof Hall as Hname. simpl in Hname.
  repeat (apply andb_prop in Hname as [? Hname]).
  unfold Dict.mem in *.
  destruct (Dict.get environ "DEPLOYMENT_NAME"); [|done].
  rewrite Hall. cbn [negb].
  unfold SplitterEntry.answer, SplitterEntry.handle_request,
    SplitterEntry.on_error, try_except, bind, emit, lift, ret.
  simpl.
  destruct (py_getitem request "worksheet_url") as [url|e1]; simpl in *.
  - rewrite Hfields. simpl. by rewrite <- app_assoc.
  - injection Hfields as ->. simpl. by rewrite <- app_assoc.
Qed.

(** An invocation that reaches the dispatch ends as the dispatch does. *)
Lemma run_to_dispatch W read_sheet environ request url project topic tc rows t :
  reaches_dispatch W read_sheet environ request url project topic tc rows →
  let r := Splitter._process_lines W project topic tc url
             (Splitter._read_dubbing_config_from_google_sheet
                Splitter.DEFAULT_DUBBING_CONFIG rows)
             Splitter.no_locals
             (t ++ [EvPrint (py_str (py_repr W) request); EvAuthorize]) in
  SplitterEntry.run W read_sheet environ request t
  = match result_of r with
    | Returned _ => (VideoDubber.Ends (Returned ("OK", 200)), trace_of r)
    | Raised e =>
        (VideoDubber.Ends (Returned ("Error " +:+ exn_text e, 500)),
         trace_of r ++ [EvPrint "traceback"])
    end.
Proof.
  intros (Hall & Hproject & Htopic & Hurl & Hauth & tool_sheet & settings
          & name & jobs & Hsheet & Hsettings & Hread & Hname & Hjobs & Hrows) r.
  unfold SplitterEntry.run, SplitterEntry.environ_item.
  pose proof Hall as Hdep. simpl in Hdep.
  repeat (apply andb_prop in Hdep as [? Hdep]).
  unfold Dict.mem in *.
  destruct (Dict.get environ "DEPLOYMENT_NAME"); [|done].
  rewrite Hall. cbn [negb].
  unfold SplitterEntry.answer, SplitterEntry.handle_request,
    SplitterEntry.on_error, SplitterEntry._init_google_sheet_client,
    SplitterEntry._load_data_from_google_sheet, SplitterEntry.environ_item,
    try_except, bind, emit, lift, ret, external, consult, call, getitem.
  cbn [fst snd result_of trace_of].
  rewrite Hurl, Hsheet, Hauth, Hsettings, Hread, Hname, Hjobs, Hrows,
    Hproject, Htopic.
  rewrite <- app_assoc. cbn [app]. fold r.
  destruct r as [[[[]|e] l'] t']; reflexivity.
Qed.

(** X12.  An invocation of the splitter that reaches the dispatch, with
    a publisher client and a writable sheet: it answers [OK] with status
    200 whatever the publisher answered for the rows.  Every row of the
    sheet was handed to the publisher once, in the order of the sheet,
    as the row merged with the default template, and every row got one
    status write. *)
Theorem splitter_answers_ok_and_dispatches_every_row W read_sheet environ
    request url project topic tc rows t :
  reaches_dispatch W read_sheet environ request url project topic tc rows →
  publisher_available W →
  sheet_writable W →
  let r := SplitterEntry.run W read_sheet environ request t in
  let lines := enumerate (map (Splitter.merge_line
                                 Splitter.DEFAULT_DUBBING_CONFIG) rows) in
  r.1 = VideoDubber.Ends (Returned ("OK", 200))
  ∧ publish_attempts r.2
    = publish_attempts t ++ row_payloads project topic tc url lines
  ∧ ∃ ws, status_writes r.2 = status_writes t ++ ws
          ∧ Forall2 splitter_write lines ws.
Proof.
  intros Hreach Hpub Hw r lines. subst r.
  rewrite (run_to_dispatch _ _ _ _ _ _ _ _ _ t Hreach).
  destruct Hreach as (_ & _ & _ & _ & _ & _ & _ & name & _ & _ & _ & _
                      & Hname & _).
  rewrite (process_lines_run _ _ _ _ _ _ _ _ Hpub).
  rewrite read_dubbing_config_map. fold lines.
  destruct (rows_loop W project topic tc url name Hw Hname lines
              Splitter.no_locals
              ((t ++ [EvPrint (py_str (py_repr W) request); EvAuthorize])
                 ++ [EvPublisherClient]))
    as (Hr & Hp & ws & Hws & Hrows).
  cbv zeta in Hr, Hp, Hws. rewrite Hr. cbn [fst snd].
  split; [done|]. split.
  - rewrite Hp, !publish_attempts_app. simpl. by rewrite !app_nil_r.
  - exists ws. split; [|exact Hrows].
    rewrite Hws, !status_writes_app. simpl. by rewrite !app_nil_r.
Qed.

(** X13.  When the publisher client cannot be created, an invocation
    that reached the dispatch answers with status 500 and the text of
    that exception; no row was published and no status cell was
    written, so the sheet does not show the failure. *)
Theorem no_publisher_no_status W read_sheet environ request url project
    topic tc rows t e :
  reaches_dispatch W read_sheet environ request url project topic tc rows →
  (∀ t', publisher_client W t' = Raised e) →
  let r := SplitterEntry.run W read_sheet environ request t in
  r.1 = VideoDubber.Ends (Returned ("Error " +:+ exn_text e, 500))
  ∧ publish_attempts r.2 = publish_attempts t
  ∧ status_writes r.2 = status_writes t.
Proof.
  intros Hreach Hpub r. subst r.
  rewrite (run_to_dispatch _ _ _ _ _ _ _ _ _ t Hreach).
  unfold Splitter._process_lines, bind, external. rewrite Hpub.
  cbn [result_of trace_of fst snd].
  rewrite !publish_attempts_app, !status_writes_app. simpl.
  by rewrite !app_nil_r.
Qed.

(* ===================================================================== *)
(** ** Splitter: the rows dispatched, whatever the services answer *)
(* ===================================================================== *)





(* ===================================================================== *)
(** ** The statements above on concrete cases *)
(* ===================================================================== *)

Lemma backend_follows_voice_provider_witness :
  ∃ d script calls,
    trace_of Cases.scripted_run = [] ++ calls
    ∧ VideoDubber.dubber (locals_of Cases.scripted_run) = Some d
    ∧ py_getitem (VideoDubber.line_config (locals_of Cases.scripted_run))
        "target_language" = Returned (VStr "fr")
    ∧ py_getitem (VideoDubber.line_config (locals_of Cases.scripted_run))
        "script" = Returned script
    ∧ if truthy script
      then ∃ provider eleven raw tts_params voice,
             py_getitem (VideoDubber.line_config (locals_of Cases.scripted_run))
               "voice_provider" = Returned provider
             ∧ py_contains "ElevenLabs" provider = Returned eleven
             ∧ py_getitem
                 (VideoDubber.line_config (locals_of Cases.scripted_run))
                 "tts_params" = Returned raw
             ∧ json_loads Demo.quiet raw = Returned tts_params
             ∧ py_index (py_repr Demo.quiet) Cases.scripted_voices (VStr "fr")
               = Returned voice
             ∧ dub_calls calls
               = [EvDubFromScript (VideoDubber.dubber_id d)
                    (if eleven then "ElevenLabs" else "Google")
                    script tts_params voice]
      else dub_calls calls = [EvDubAd (VideoDubber.dubber_id d)].
Proof.
  apply (backend_follows_voice_provider Demo.quiet (VDict Demo.tool_config)
           Demo.output_directory Cases.scripted_voices (VStr "fr")
           (VideoDubber.entry_locals Cases.scripted_line) []
           (locals_of Cases.scripted_run) (trace_of Cases.scripted_run)).
  vm_compute. reflexivity.
Defined.

Lemma tool_setting_last_row_wins_witness :
  ∃ config,
    SplitterEntry._read_tool_config_from_google_sheet [] Cases.settings_sheet
    = Returned config
    ∧ ∀ k, Dict.get config k
           = match Dict.get (rev (zip Cases.variable_column Cases.value_column))
                     k with
             | Some v => Some (VStr v)
             | None => Dict.get [] k
             end.
Proof.
  apply (tool_setting_last_row_wins Cases.settings_sheet []
           Cases.variable_column Cases.value_column); reflexivity.
Defined.

Lemma unreadable_request_is_answered_witness :
  SplitterEntry.run Demo.quiet Cases.read_sheet Cases.splitter_environ VNone []
  = (VideoDubber.Ends
       (Returned ("Error " +:+ "'NoneType' object is not subscriptable", 500)),
     [] ++ [EvPrint (py_str (py_repr Demo.quiet) VNone); EvPrint "traceback"]).
Proof.
  apply (unreadable_request_is_answered Demo.quiet Cases.read_sheet
           Cases.splitter_environ VNone []
           (Exn "TypeError" "'NoneType' object is not subscriptable"));
    reflexivity.
Defined.

(** The request of the concrete cases reaches the dispatch in every
    world that authorises the client. *)
Lemma cases_reach_dispatch W :
  (∀ t, authorize W t = Returned tt) →
  reaches_dispatch W Cases.read_sheet Cases.splitter_environ
    Cases.splitter_request Demo.worksheet_url "proj" "ariel-jobs"
    Cases.settings (SplitterEntry.iterrows Cases.jobs_sheet).
Proof.
  intros Hauth. split; [reflexivity|]. split; [reflexivity|].
  split; [reflexivity|]. split; [reflexivity|]. split; [exact Hauth|].
  exists (VStr "Config"), Cases.settings_sheet, (VStr "Jobs"), Cases.jobs_sheet.
  split; [reflexivity|]. split; [reflexivity|].
  split; [vm_compute; reflexivity|]. split; [reflexivity|].
  split; reflexivity.
Qed.

Lemma splitter_answers_ok_and_dispatches_every_row_witness :
  let r := SplitterEntry.run Demo.no_topic Cases.read_sheet
             Cases.splitter_environ Cases.splitter_request [] in
  let lines := enumerate (map (Splitter.merge_line
                                 Splitter.DEFAULT_DUBBING_CONFIG)
                            (SplitterEntry.iterrows Cases.jobs_sheet)) in
  r.1 = VideoDubber.Ends (Returned ("OK", 200))
  ∧ publish_attempts r.2
    = publish_attempts []
      ++ row_payloads "proj" "ariel-jobs" Cases.settings Demo.worksheet_url
           lines
  ∧ ∃ ws, status_writes r.2 = status_writes [] ++ ws
          ∧ Forall2 splitter_write lines ws.
Proof.
  apply (splitter_answers_ok_and_dispatches_every_row Demo.no_topic
           Cases.read_sheet Cases.splitter_environ Cases.splitter_request
           Demo.worksheet_url "proj" "ariel-jobs" Cases.settings
           (SplitterEntry.iterrows Cases.jobs_sheet) []).
  - apply cases_reach_dispatch. reflexivity.
  - exact no_topic_publisher_available.
  - exact no_topic_sheet_writable.
Defined.

Lemma no_publisher_no_status_witness :
  let r := SplitterEntry.run Cases.no_publisher Cases.read_sheet
             Cases.splitter_environ Cases.splitter_request [] in
  r.1 = VideoDubber.Ends
          (Returned ("Error " +:+ exn_text Cases.no_credentials, 500))
  ∧ publish_attempts r.2 = publish_attempts []
  ∧ status_writes r.2 = status_writes [].
Proof.
  apply (no_publisher_no_status Cases.no_publisher Cases.read_sheet
           Cases.splitter_environ Cases.splitter_request Demo.worksheet_url
           "proj" "ariel-jobs" Cases.settings
           (SplitterEntry.iterrows Cases.jobs_sheet) [] Cases.no_credentials).
  - apply cases_reach_dispatch. reflexivity.
  - reflexivity.
Defined.


(* ===================================================================== *)
(** ** From the splitter to the worker *)
(* ===================================================================== *)

(** X15.  The payload the splitter builds for a row leads the worker
    back to that row.  When the message decodes to the payload of row
    [row_num], the client is authorised and the sheet is writable, [run]
    of the worker returns [OK] with status 200, and the one status write
    of the invocation, its last call, goes to the worksheet named by
    [DUBBING_CONFIG] and to the cells [P] to [R] of sheet row
    [row_num + 2]: the cells in which the splitter wrote [PROCESSING]. *)
Theorem worker_answers_in_the_cells_of_the_row W data od t text url tc lc
    row_num name :
  Dict.get tc "DUBBING_CONFIG" = Some name →
  b64decode_utf8 W data = Returned text →
  json_loads W text
  = Returned (Splitter.make_payload url
                (Dict.set lc "row_num" (VInt row_num)) tc) →
  (∀ t', authorize W t' = Returned tt) →
  sheet_writable W →
  let r := VideoDubber.run_job W data od VideoDubber.Run.unbound t in
  ∃ st now msg calls,
    result_of r = Returned ("OK", 200)
    ∧ trace_of r
      = t ++ calls
          ++ [EvWorksheet url name;
              EvSheetUpdate url name (status_range (row_num + 2))
                [st; now; msg]]
    ∧ status_writes calls = []
    ∧ (st = VideoDubber.STATUS_SUCCESS ∨ st = VideoDubber.STATUS_FAILED).
Proof.
  intros Hname Hdecode Hloads Hauth Hw r. subst r.
  destruct (run_job_delivered W data od t url (VDict tc)
              (VDict (Dict.set lc "row_num" (VInt row_num)))
              (VDict Splitter.STATUS_COLUMNS) name row_num (VStr "P")
              (VStr "R"))
    as (st & msg & now & l' & calls & lfin & _ & Hst & Hquiet & Hrun);
    [| |exact Hauth|exact Hw|].
  - exists text. eexists. split; [exact Hdecode|]. split; [exact Hloads|].
    repeat split.
  - split; [|split; [|split]]; try reflexivity.
    + simpl. unfold getitem. by rewrite Hname.
    + simpl. unfold getitem. by rewrite dict_get_set_eq.
  - exists st, now, msg, (EvAuthorize :: calls). rewrite Hrun.
    split; [reflexivity|]. split; [|split; [exact Hquiet | exact Hst]].
    unfold trace_of. simpl. by rewrite <- !app_assoc.
Qed.

Lemma worker_answers_in_the_cells_of_the_row_witness :
  let r := VideoDubber.run_job Demo.delivering Demo.small_message
             Demo.output_directory VideoDubber.Run.unbound [] in
  ∃ st now msg calls,
    result_of r = Returned ("OK", 200)
    ∧ trace_of r
      = [] ++ calls
          ++ [EvWorksheet Demo.worksheet_url (VStr "Jobs");
              EvSheetUpdate Demo.worksheet_url (VStr "Jobs")
                (status_range (0 + 2)) [st; now; msg]]
    ∧ status_writes calls = []
    ∧ (st = VideoDubber.STATUS_SUCCESS ∨ st = VideoDubber.STATUS_FAILED).
Proof.
  apply (worker_answers_in_the_cells_of_the_row Demo.delivering
           Demo.small_message Demo.output_directory []
           (VStr (Demo.json_dumps Demo.small_payload)) Demo.worksheet_url
           [("DUBBING_CONFIG", VStr "Jobs")]
           [("script", VStr "[]"); ("voices", VStr "[]");
            ("target_language", VStr "[]")] 0 (VStr "Jobs")).
  - reflexivity.
  - vm_compute. reflexivity.
  - vm_compute. reflexivity.
  - intros t'. reflexivity.
  - exact delivering_sheet_writable.
Defined.
